(** * Payment reconciliation of the LMS API: PayOS and Stripe handlers

    A shallow embedding of the request handlers of
    [controllers/payos.controller.ts], of the order controller
    ([createOrder]) and of the Stripe controller ([createCheckoutSession],
    [stripeWebhook]), with the properties of the payment reconciliation
    engine stated over it.

    JavaScript values are a small inductive type, handlers are functions in a
    state monad over the persistent collections with early [return] and
    [throw], and every external collaborator (HMAC, the providers, the mail
    transport, the template engine, the socket server) is a field of an
    environment record the theorems quantify over. A handler runs from its
    request to its response without interleaving, and the operations on the
    collections succeed. *)

From Stdlib Require Import String Ascii ZArith List Bool Lia.
From Stdlib Require Import Sorting.Sorted Sorting.Permutation DecimalString.
From stdpp Require Import base option list gmap strings sorting.

Import ListNotations.
Local Set Warnings "-register-all".
Local Open Scope string_scope.
Local Open Scope list_scope.
Local Open Scope Z_scope.

(** ** JavaScript values *)

(** The JSON-shaped values the handlers receive and store. A number that is
    an integer of magnitude at most 2^53 - 1 (amounts, order codes,
    timestamps) is [JNum]. Any other number (a fraction, a larger magnitude,
    NaN) is [JFloat] with the text [String(value)] gives for it: the handlers
    only render such a number, test its truthiness and pass it on. Strings
    are the strings whose UTF-16 code units are below 256. *)
Inductive JsVal : Type :=
| JUndefined
| JNull
| JBool (b : bool)
| JNum (n : Z)
| JFloat (text : string)
| JStr (s : string)
| JArr (items : list JsVal)
| JObj (fields : list (string * JsVal)).

(** [Number.isSafeInteger]: the integers JavaScript represents exactly and
    renders digit by digit. *)
Definition safe_integer (n : Z) : bool := Z.abs n <=? 9007199254740991.

(** A value of the model stands for a JavaScript value: its integers are
    safe integers, every other number being given by its text. *)
Fixpoint js_value (v : JsVal) : bool :=
  match v with
  | JNum n => safe_integer n
  | JArr items => forallb js_value items
  | JObj fields => forallb (fun field => js_value (snd field)) fields
  | _ => true
  end.

(** Decimal rendering of an integer number, as [Number.prototype.toString]. *)
Definition string_of_Z (n : Z) : string :=
  NilZero.string_of_int (Z.to_int n).

Definition string_of_nat (n : nat) : string :=
  string_of_Z (Z.of_nat n).

(** [String(value)]. Array elements that are [null] or [undefined] render as
    the empty string ([Array.prototype.join]). *)
Fixpoint js_String (v : JsVal) : string :=
  match v with
  | JUndefined => "undefined"
  | JNull => "null"
  | JBool true => "true"
  | JBool false => "false"
  | JNum n => string_of_Z n
  | JFloat text => text
  | JStr s => s
  | JArr items =>
      String.concat ","
        (List.map (fun e => match e with
                            | JUndefined | JNull => ""
                            | _ => js_String e
                            end) items)
  | JObj _ => "[object Object]"
  end.

(** Truthiness: [!!v]. Among the numbers, zero and NaN are falsy. *)
Definition truthy (v : JsVal) : bool :=
  match v with
  | JUndefined | JNull => false
  | JBool b => b
  | JNum n => negb (n =? 0)
  | JFloat text => negb (String.eqb text "NaN" || String.eqb text "0")
  | JStr s => negb (String.eqb s "")
  | JArr _ | JObj _ => true
  end.

(** [a || b] on values. *)
Definition js_or (a b : JsVal) : JsVal := if truthy a then a else b.

(** [v === "literal"]. *)
Definition is_str (v : JsVal) (lit : string) : bool :=
  match v with
  | JStr s => String.eqb s lit
  | _ => false
  end.

(** The characters of a string as one-character strings. *)
Fixpoint chars (s : string) : list string :=
  match s with
  | EmptyString => []
  | String c rest => String c EmptyString :: chars rest
  end.

(** The array index a property name denotes, among [n] elements. *)
Definition index_of_key (key : string) (n : nat) : option nat :=
  List.find (fun i => String.eqb (string_of_nat i) key) (seq 0 n).

Fixpoint assoc (key : string) (fields : list (string * JsVal)) : option JsVal :=
  match fields with
  | [] => None
  | (k, v) :: rest => if String.eqb k key then Some v else assoc key rest
  end.

(** [Object.keys(v)] of a value that is neither [null] nor [undefined]: the
    own enumerable property names. Every caller sorts the result or only
    logs it, so the enumeration order inside an object is the order of the
    field list. *)
Definition Object_keys (v : JsVal) : list string :=
  match v with
  | JObj fields => List.map fst fields
  | JArr items => List.map string_of_nat (seq 0 (List.length items))
  | JStr s => List.map string_of_nat (seq 0 (String.length s))
  | _ => []
  end.

(** [v[key]] for an own data property of a value that is neither [null] nor
    [undefined]; a missing property reads as [undefined]. *)
Definition js_get (v : JsVal) (key : string) : JsVal :=
  match v with
  | JObj fields => default JUndefined (assoc key fields)
  | JArr items =>
      match index_of_key key (List.length items) with
      | Some i => nth i items JUndefined
      | None => if String.eqb key "length"
                then JNum (Z.of_nat (List.length items)) else JUndefined
      end
  | JStr s =>
      match index_of_key key (String.length s) with
      | Some i => nth i (List.map JStr (chars s)) JUndefined
      | None => if String.eqb key "length"
                then JNum (Z.of_nat (String.length s)) else JUndefined
      end
  | _ => JUndefined
  end.

(** [obj[key] = value] on a field list: an existing field keeps its place. *)
Fixpoint obj_set (fields : list (string * JsVal)) (key : string) (value : JsVal)
  : list (string * JsVal) :=
  match fields with
  | [] => [(key, value)]
  | (k, v) :: rest =>
      if String.eqb k key then (k, value) :: rest
      else (k, v) :: obj_set rest key value
  end.

(** The own enumerable properties copied by an object spread [{...v}]. *)
Definition js_spread (v : JsVal) : list (string * JsVal) :=
  List.map (fun k => (k, js_get v k)) (Object_keys v).

(** ** Strings *)

(** [String.prototype.toLowerCase] on the code units below 256: the capital
    letters are A-Z, U+00C0 to U+00D6 and U+00D8 to U+00DE, and the small
    letter of each is 32 further. *)
Definition is_capital (n : nat) : bool :=
  (((65 <=? n) && (n <=? 90)) || ((192 <=? n) && (n <=? 214))
   || ((216 <=? n) && (n <=? 222)))%nat.

Definition lower_ascii (c : ascii) : ascii :=
  let n := nat_of_ascii c in
  if is_capital n then ascii_of_nat (n + 32) else c.

Fixpoint toLowerCase (s : string) : string :=
  match s with
  | EmptyString => EmptyString
  | String c rest => String (lower_ascii c) (toLowerCase rest)
  end.

(** [Array.prototype.sort()] without comparator on an array of strings:
    ascending by code units, stable. *)
Fixpoint sort_insert (x : string) (l : list string) : list string :=
  match l with
  | [] => [x]
  | y :: rest => if String.leb x y then x :: y :: rest
                 else y :: sort_insert x rest
  end.

Fixpoint js_sort (l : list string) : list string :=
  match l with
  | [] => []
  | x :: rest => sort_insert x (js_sort rest)
  end.

(** [array.join(sep)] on strings. *)
Definition js_join (sep : string) (l : list string) : string :=
  String.concat sep l.

(** ** Persistent collections and effects *)

(** Modelled from the spec: the user, course, order and notification schemas
    ([models/*.model.ts]) are outside the sources. A user embeds the owned
    course identifiers, a course carries the purchase counter (a number or
    absent), an order maps a payment to its course and user and keeps the
    provider's payment object as stored. *)
Record User := mkUser {
  user_email : string;
  user_courses : list string
}.

Record Course := mkCourse {
  course_name : string;
  course_description : option string;
  course_price : Z;
  course_purchased : option Z
}.

Record Order := mkOrder {
  order_courseId : string;
  order_userId : option string;
  order_payment_info : JsVal
}.

Record Notification := mkNotification {
  notif_userId : option string;
  notif_title : string;
  notif_message : string
}.

Inductive LogLevel := LevelLog | LevelWarn | LevelError.

(** What a handler does to the outside, in the order it does it: console
    lines (by their leading literal), writes to the collections, mail sends,
    socket emissions and calls to the payment providers. *)
Inductive Effect : Type :=
| Console (level : LogLevel) (text : string)
| OrderCreate (o : Order)
| OrderSave (index : nat) (o : Order)
| UserSave (id : string) (u : User)
| CourseSave (id : string) (c : Course)
| NotificationCreate (n : Notification)
| MailSend (email : string) (subject : string) (data : JsVal)
| SocketEmit (room : option string) (event : string)
| StripeRetrieve (paymentIntentId : JsVal)
| StripeCheckoutCreate (courseId : string) (unit_amount : Z)
| PayOSPost (paymentData : JsVal).

Record World := mkWorld {
  users : gmap string User;
  courses : gmap string Course;
  orders : list Order;
  notifications : list Notification;
  trace : list Effect
}.

(** ** Responses and the handler monad *)

Inductive Response : Type :=
| Json (status : Z) (body : JsVal)
| Send (status : Z) (text : string)
| NextError (message : JsVal) (statusCode : Z).

(** The outcome of an external call: a value, or a thrown error with its
    message. *)
Inductive Outcome (A : Type) : Type :=
| Ok (a : A)
| Thrown (message : string).
Arguments Ok {A} a.
Arguments Thrown {A} message.

(** A step of a handler continues with a value, leaves the handler with a
    response ([return res...] / [return next(...)]), or throws. *)
Inductive Result (A : Type) : Type :=
| Val (a : A)
| Return (r : Response)
| Throw (message : string).
Arguments Val {A} a.
Arguments Return {A} r.
Arguments Throw {A} message.

Definition Handler (A : Type) : Type := World -> Result A * World.

Definition ret {A} (a : A) : Handler A := fun w => (Val a, w).

Definition bind {A B} (m : Handler A) (k : A -> Handler B) : Handler B :=
  fun w =>
    match m w with
    | (Val a, w') => k a w'
    | (Return r, w') => (Return r, w')
    | (Throw e, w') => (Throw e, w')
    end.

Declare Scope handler_scope.
Delimit Scope handler_scope with handler.
Notation "x <- m ;; k" := (bind m (fun x => k))
  (at level 100, m at next level, right associativity) : handler_scope.
Notation "m ;; k" := (bind m (fun _ => k))
  (at level 100, right associativity) : handler_scope.
Local Open Scope handler_scope.

Definition respond {A} (r : Response) : Handler A := fun w => (Return r, w).
Definition throw {A} (message : string) : Handler A := fun w => (Throw message, w).

(** [try { body } catch (error) { handler(error.message) }]. *)
Definition try_catch {A} (body : Handler A) (handler : string -> Handler A)
  : Handler A :=
  fun w =>
    match body w with
    | (Throw e, w') => handler e w'
    | other => other
    end.

(** The response of a handler whose body is wrapped in
    [try { ... } catch (error) { return next(new ErrorHandler(error.message, code)) }]. *)
Definition run (code : Z) (body : Handler Response) (w : World)
  : Response * World :=
  match body w with
  | (Val r, w') => (r, w')
  | (Return r, w') => (r, w')
  | (Throw e, w') => (NextError (JStr e) code, w')
  end.

(** The same when the catch block first writes to the console:
    [catch (error) { console.error(line, error);
                     return next(new ErrorHandler(error.message, code)) }]. *)
Definition run_logging (line : string) (code : Z) (body : Handler Response)
  (w : World) : Response * World :=
  match body w with
  | (Val r, w') => (r, w')
  | (Return r, w') => (r, w')
  | (Throw e, w') =>
      (NextError (JStr e) code,
       mkWorld (users w') (courses w') (orders w') (notifications w')
               (trace w' ++ [Console LevelError line]))
  end.

Definition effect (e : Effect) : Handler unit :=
  fun w => (Val tt, mkWorld (users w) (courses w) (orders w) (notifications w)
                            (trace w ++ [e])).

Definition console_log (text : string) : Handler unit := effect (Console LevelLog text).
Definition console_warn (text : string) : Handler unit := effect (Console LevelWarn text).
Definition console_error (text : string) : Handler unit := effect (Console LevelError text).

Definition await {A} (o : Outcome A) : Handler A :=
  match o with
  | Ok a => ret a
  | Thrown e => throw e
  end.

(** [Model.findById(id)]: the document, with its [_id]; an absent id finds
    nothing. *)
Definition userModel_findById (id : option string)
  : Handler (option (string * User)) :=
  fun w => (Val (id ≫= fun i => (fun u => (i, u)) <$> users w !! i), w).

Definition CourseModel_findById (id : option string)
  : Handler (option (string * Course)) :=
  fun w => (Val (id ≫= fun i => (fun c => (i, c)) <$> courses w !! i), w).

(** The first element satisfying [p], with its position. *)
Fixpoint find_index {A} (p : A -> bool) (l : list A) (i : nat) : option (nat * A) :=
  match l with
  | [] => None
  | x :: rest => if p x then Some (i, x) else find_index p rest (S i)
  end.

Definition user_save (id : string) (u : User) : Handler unit :=
  fun w => (Val tt, mkWorld (<[id := u]> (users w)) (courses w) (orders w)
                            (notifications w) (trace w ++ [UserSave id u])).

Definition course_save (id : string) (c : Course) : Handler unit :=
  fun w => (Val tt, mkWorld (users w) (<[id := c]> (courses w)) (orders w)
                            (notifications w) (trace w ++ [CourseSave id c])).

Definition order_save (index : nat) (o : Order) : Handler unit :=
  fun w => (Val tt, mkWorld (users w) (courses w) (<[index := o]> (orders w))
                            (notifications w) (trace w ++ [OrderSave index o])).

Definition OrderModel_create (o : Order) : Handler unit :=
  fun w => (Val tt, mkWorld (users w) (courses w) (orders w ++ [o])
                            (notifications w) (trace w ++ [OrderCreate o])).

Definition NotificationModel_create (n : Notification) : Handler unit :=
  fun w => (Val tt, mkWorld (users w) (courses w) (orders w)
                            (notifications w ++ [n])
                            (trace w ++ [NotificationCreate n])).

(** ** The environment: configuration and external collaborators *)

(** The event [stripe.webhooks.constructEvent] returns, with the fields of
    the checkout session the handler reads. *)
Record StripeEvent := mkStripeEvent {
  event_type : string;
  session_id : JsVal;
  session_metadata_courseId : option string;
  session_metadata_userId : option string;
  session_payment_status : JsVal;
  session_amount_total : JsVal;
  session_currency : JsVal
}.

(** What [axios.post] does: it resolves with [response.data], rejects with
    an error that carries the provider's response, or rejects without one. *)
Inductive AxiosResult : Type :=
| AxiosResolved (data : JsVal)
| AxiosRejected (status : Z) (data : JsVal) (message : string)
| AxiosFailed (message : string).

Record Env := mkEnv {
  PAYOS_CLIENT_ID : option string;
  PAYOS_API_KEY : option string;
  PAYOS_CHECKSUM_KEY : option string;
  FRONTEND_URL_var : option string;
  NODE_ENV : option string;
  SKIP_PAYOS_SIGNATURE_VERIFY : option string;
  STRIPE_WEBHOOK_SECRET : option string;
  (** [crypto.createHmac("sha256", key).update(message).digest("hex")] *)
  hmac_sha256_hex : string -> string -> string;
  (** how the store matches a stored field against a queried value *)
  query_eq : JsVal -> JsVal -> bool;
  sendMail : string -> string -> string -> JsVal -> Outcome unit;
  ejs_renderFile : string -> JsVal -> Outcome string;
  (** whether [initSocketServer] has run, so that [getIO] does not throw *)
  io_initialized : bool;
  stripe_paymentIntents_retrieve : JsVal -> Outcome JsVal;
  stripe_checkout_sessions_create : string -> Z -> Outcome (JsVal * JsVal);
  stripe_webhooks_constructEvent : JsVal -> option string -> string -> Outcome StripeEvent;
  axios_post : string -> JsVal -> AxiosResult;
  encodeURIComponent : string -> string;
  (** [Date.now()], [Math.floor(Math.random() * 1000)] and
      [new Date().toLocaleDateString("en-US", ...)] *)
  Date_now : Z;
  Math_random_1000 : Z;
  toLocaleDateString : string;
  (** the status with which [newOrder] answers *)
  newOrder_status : Z
}.

(** Truthiness of [process.env.X]: a string or [undefined]. *)
Definition env_truthy (v : option string) : bool :=
  match v with
  | Some s => negb (String.eqb s "")
  | None => false
  end.

Definition env_is (v : option string) (lit : string) : bool :=
  match v with
  | Some s => String.eqb s lit
  | None => false
  end.

Definition FRONTEND_URL (env : Env) : string :=
  match FRONTEND_URL_var env with
  | Some s => if String.eqb s "" then "http://localhost:3001" else s
  | None => "http://localhost:3001"
  end.

(** [OrderModel.findOne({ "payment_info.<field>": value })] *)
Definition OrderModel_findOne (env : Env) (field : string) (value : JsVal)
  : Handler (option (nat * Order)) :=
  fun w =>
    (Val (find_index
            (fun o => query_eq env (js_get (order_payment_info o) field) value)
            (orders w) 0%nat), w).

(** ** controllers/payos.controller.ts: signature verification *)

(** The value a field contributes to the signed message. *)
Definition normalize_value (value : JsVal) : string :=
  match value with
  | JNull | JUndefined => ""
  | JStr s =>
      if String.eqb s "null" || String.eqb s "undefined" then ""
      else js_String (JStr s)
  | other => js_String other
  end.

(** [sortedKeys.forEach(key => keyValues.push(`${key}=${value}`))] followed by
    [keyValues.join('&')]. *)
Definition signature_message (data : JsVal) : string :=
  let sortedKeys := js_sort (Object_keys data) in
  let keyValues :=
    fold_left
      (fun (keyValues : list string) key =>
         (keyValues ++ [key +:+ "=" +:+ normalize_value (js_get data key)])%list)
      sortedKeys [] in
  js_join "&" keyValues.

Definition verifyWebhookSignature (env : Env) (data signature : JsVal)
  : Handler bool :=
  if negb (env_truthy (PAYOS_CHECKSUM_KEY env)) || negb (truthy data) then
    (console_error "Missing checksum key or data" ;;
     ret false)
  else if env_is (NODE_ENV env) "development"
          && env_is (SKIP_PAYOS_SIGNATURE_VERIFY env) "true" then
    (console_warn "Skipping PayOS signature verification (development mode)" ;;
     ret true)
  else
    try_catch
      (let message := signature_message data in
       let computedSignature :=
         hmac_sha256_hex env (default "" (PAYOS_CHECKSUM_KEY env)) message in
       (* [signature.toLowerCase()] is a TypeError unless it is a string *)
       received <- match signature with
                   | JStr s => ret (toLowerCase s)
                   | _ => throw "signature.toLowerCase is not a function"
                   end ;;
       let isMatch := String.eqb (toLowerCase computedSignature) received in
       (if isMatch then ret tt else console_error "Signature mismatch:") ;;
       ret isMatch)
      (fun _ =>
         console_error "Error verifying webhook signature:" ;;
         ret false).

(** ** controllers/payos.controller.ts: the webhook *)

Record WebhookRequest := mkWebhookRequest {
  header_x_payos_signature : option string;
  webhook_body : JsVal
}.

(** [base.name] in an expression: reading a property of [undefined] or
    [null] throws a TypeError. *)
Definition member (base : JsVal) (name : string) : Handler JsVal :=
  match base with
  | JUndefined | JNull =>
      throw ("Cannot read properties of " +:+ js_String base
             +:+ " (reading '" +:+ name +:+ "')")
  | _ => ret (js_get base name)
  end.

Definition message_body (message : string) : JsVal :=
  JObj [("success", JBool true); ("message", JStr message)].

Definition error_body (message : string) : JsVal :=
  JObj [("error", JStr message)].

(** [(course.purchased || 0) + 1] *)
Definition purchased_or_zero (purchased : option Z) : Z :=
  match purchased with
  | Some n => if n =? 0 then 0 else n
  | None => 0
  end.

(** [user.courses.some(c => c._id.toString() === courseId)] *)
Definition owns (u : User) (courseId : string) : bool :=
  existsb (fun c => String.eqb c courseId) (user_courses u).

(** [user.courses.push(course._id)] *)
Definition push_course (u : User) (courseId : string) : User :=
  mkUser (user_email u) (user_courses u ++ [courseId]).

Definition set_purchased (c : Course) (purchased : option Z) : Course :=
  mkCourse (course_name c) (course_description c) (course_price c) purchased.

Definition mail_data (env : Env) (courseId : string) (c : Course) (price : JsVal)
  : JsVal :=
  JObj [("order",
         JObj [("_id", JStr (String.substring 0 6 courseId));
               ("name", JStr (course_name c));
               ("price", price);
               ("date", JStr (toLocaleDateString env))])].

(** [{ ...order.payment_info, status: "PAID" }] *)
Definition mark_paid (o : Order) : Order :=
  mkOrder (order_courseId o) (order_userId o)
          (JObj (obj_set (js_spread (order_payment_info o)) "status" (JStr "PAID"))).

Definition is_paid (o : Order) : bool :=
  truthy (order_payment_info o)
  && is_str (js_get (order_payment_info o) "status") "PAID".

Definition isPaymentSuccess (data : JsVal) : bool :=
  is_str (js_get data "code") "00"
  || is_str (js_get data "desc") "success"
  || is_str (js_get data "status") "PAID".

(** The handler from its first test on: [signature] and [data] have been
    read from the request. *)
Definition payOSWebhook_process (env : Env) (signature data : JsVal)
  : Handler Response :=
    (if negb (truthy data) || negb (truthy signature) then
       (console_error "Missing data or signature" ;;
        respond (Json 400 (error_body "Missing data or signature")))
     else
     (console_log "Webhook received:" ;;
      isValid <- verifyWebhookSignature env data signature ;;
      if negb isValid then
        (console_error "Invalid webhook signature" ;;
         respond (Json 401 (error_body "Invalid signature")))
      else
      (let orderCode := js_get data "orderCode" in
       let amount := js_get data "amount" in
       console_log "Processing webhook:" ;;
       existingOrder <- OrderModel_findOne env "orderCode" orderCode ;;
       match existingOrder with
       | None =>
           console_warn "Order not found for orderCode:" ;;
           if isPaymentSuccess data then
             (console_error "Real payment received for non-existent order:" ;;
              respond (Json 200 (message_body "Order not found but acknowledged")))
           else
             respond (Json 200 (message_body "Webhook received (test or unknown order)"))
       | Some (index, existingOrder) =>
           if is_paid existingOrder then
             respond (Json 200 (message_body "Order already processed"))
           else
           ((if isPaymentSuccess data then
               (let courseId := order_courseId existingOrder in
                let userId := order_userId existingOrder in
                course <- CourseModel_findById (Some courseId) ;;
                user <- userModel_findById userId ;;
                match course, user with
                | Some (course_id, course), Some (user_id, user) =>
                    if owns user courseId then
                      (console_log "User already has this course" ;;
                       order_save index (mark_paid existingOrder) ;;
                       respond (Json 200 (message_body "Course already added")))
                    else
                    (order_save index (mark_paid existingOrder) ;;
                     user <- (if negb (owns user course_id) then
                                (let user' := push_course user course_id in
                                 user_save user_id user' ;; ret user')
                              else ret user) ;;
                     (* [sendMail(...).catch(() => {})]: not awaited, a
                        rejection is swallowed *)
                     try_catch
                       (effect (MailSend (user_email user) "Order Confirmation"
                                  (mail_data env course_id course amount)) ;;
                        await (sendMail env (user_email user) "Order Confirmation"
                                 "order-confirmation.ejs"
                                 (mail_data env course_id course amount)))
                       (fun _ => ret tt) ;;
                     NotificationModel_create
                       (mkNotification (Some user_id) "New Order"
                          ("You have a new order for " +:+ course_name course)) ;;
                     course_save course_id
                       (set_purchased course
                          (Some (purchased_or_zero (course_purchased course) + 1))) ;;
                     try_catch
                       ((if io_initialized env then ret tt
                         else throw "Socket.io not initialized. Call initSocketServer first.") ;;
                        effect (SocketEmit (Some ("user_" +:+ user_id)) "paymentSuccess") ;;
                        console_log "[SOCKET] Emitted paymentSuccess event to room:" ;;
                        console_log "[SOCKET] Payment data:" ;;
                        console_log "[SOCKET] Room has connected socket(s)" ;;
                        effect (SocketEmit None "newNotification") ;;
                        console_log "[SOCKET] Broadcasted newNotification to all clients")
                       (fun _ => console_error "[SOCKET] Failed to emit socket event:") ;;
                     console_log "Order processed successfully via webhook")
                | _, _ =>
                    console_error "Course or user not found" ;;
                    respond (Json 404 (error_body "Course or user not found"))
                end)
             else ret tt) ;;
            ret (Json 200 (JObj [("success", JBool true)])))
       end))).

(** [const signature = req.headers["x-payos-signature"] || req.body.signature;
     const data = req.body.data || req.body;] and the rest of the handler. *)
Definition payOSWebhook (env : Env) (req : WebhookRequest)
  : World -> Response * World :=
  run_logging "Webhook error:" 500
    (signature <- match header_x_payos_signature req with
                  | Some h => if truthy (JStr h) then ret (JStr h)
                              else member (webhook_body req) "signature"
                  | None => member (webhook_body req) "signature"
                  end ;;
     body_data <- member (webhook_body req) "data" ;;
     payOSWebhook_process env signature (js_or body_data (webhook_body req))).

(** ** controllers/payos.controller.ts: checking a payment *)

(** A status request: [req.query.orderCode], a value of the query string or
    [undefined]. *)
Record StatusRequest := mkStatusRequest {
  query_orderCode : JsVal
}.

Definition status_body (orderCode status amount : JsVal) : JsVal :=
  JObj [("success", JBool true);
        ("data", JObj [("orderCode", orderCode);
                       ("status", status);
                       ("amount", amount)])].

Definition checkPaymentStatus (env : Env) (req : StatusRequest)
  : World -> Response * World :=
  run 500
    (let orderCode := query_orderCode req in
     if negb (truthy orderCode) then
       respond (NextError (JStr "Order code is required") 400)
     else
       (order <- OrderModel_findOne env "orderCode" orderCode ;;
        match order with
        | None => respond (NextError (JStr "Order not found") 404)
        | Some (_, order) =>
            let paymentInfo := order_payment_info order in
            pi_orderCode <- member paymentInfo "orderCode" ;;
            ret (Json 200
                   (status_body pi_orderCode (js_get paymentInfo "status")
                      (js_get paymentInfo "amount")))
        end)).

(** ** controllers/payos.controller.ts: creating a payment request *)

(** A request of an authenticated route: [req.user?._id] and the body fields
    the handler destructures, a string and an integer number when present. *)
Record IntentRequest := mkIntentRequest {
  intent_user : option string;
  intent_courseId : option string;
  intent_amount : option Z
}.

Definition str_truthy (v : option string) : bool := env_truthy v.

Definition num_truthy (v : option Z) : bool :=
  match v with
  | Some n => negb (n =? 0)
  | None => false
  end.

(** [Math.floor(Date.now() / 1000) * 1000 + Math.floor(Math.random() * 1000)] *)
Definition generateOrderCode (env : Env) : Z :=
  (Date_now env / 1000) * 1000 + Math_random_1000 env.

Definition createPayOSSignature (env : Env)
  (amount : Z) (cancelUrl description : string) (orderCode : Z) (returnUrl : string)
  : Handler string :=
  if negb (env_truthy (PAYOS_CHECKSUM_KEY env)) then
    throw "PayOS checksum key is not configured"
  else
    let signatureData :=
      JObj [("amount", JStr (string_of_Z amount));
            ("cancelUrl", JStr cancelUrl);
            ("description", JStr description);
            ("orderCode", JStr (string_of_Z orderCode));
            ("returnUrl", JStr returnUrl)] in
    let sortedKeys := js_sort (Object_keys signatureData) in
    let dataString :=
      js_join "&"
        (List.map (fun key => key +:+ "=" +:+ js_String (js_get signatureData key))
                  sortedKeys) in
    ret (hmac_sha256_hex env (default "" (PAYOS_CHECKSUM_KEY env)) dataString).

(** The description is computed on the code units of the course name:
    [trim], [length], [substring] and [slice] strip, count and cut code
    units. The computation is written once for every type of code unit:
    [of_ascii] gives the unit of an ASCII character and [white_space] tells
    the units that [trim] strips. *)
Section CodeUnits.

Context {U : Type} (of_ascii : ascii -> U) (white_space : U -> bool).

(** A text of ASCII characters, such as a literal or the digits of a
    number. *)
Definition units_of (text : string) : list U :=
  List.map of_ascii (list_ascii_of_string text).

Fixpoint trim_start (s : list U) : list U :=
  match s with
  | [] => []
  | c :: rest => if white_space c then trim_start rest else s
  end.

(** [String.prototype.trim] *)
Definition trim (s : list U) : list U :=
  rev (trim_start (rev (trim_start s))).

(** [s.slice(-n)]: the last [n] code units. *)
Definition slice_last (n : nat) (s : list U) : list U :=
  drop (List.length s - n) s.

Definition description_units (name : list U) (orderCode : Z) : list U :=
  let description := trim name in
  let description :=
    if (25 <? List.length description)%nat
    then take 22 description ++ units_of "..."
    else description in
  if (25 <? List.length description)%nat || (List.length description =? 0)%nat
  then units_of "Khoa hoc " ++ slice_last 6 (units_of (string_of_Z orderCode))
  else description.

End CodeUnits.

(** The white space and the line terminators of ECMAScript among the UTF-16
    code units: TAB to CR, SP, NBSP, U+1680, U+2000 to U+200A, U+2028,
    U+2029, U+202F, U+205F, U+3000 and U+FEFF. *)
Definition js_white_space (c : N) : bool :=
  (((9 <=? c) && (c <=? 13)) || (c =? 32) || (c =? 160) || (c =? 5760)
   || ((8192 <=? c) && (c <=? 8202)) || (c =? 8232) || (c =? 8233)
   || (c =? 8239) || (c =? 8287) || (c =? 12288) || (c =? 65279))%N.

(** The description of a course name given by its UTF-16 code units, as
    JavaScript holds it. *)
Definition utf16_description (name : list N) (orderCode : Z) : list N :=
  description_units N_of_ascii js_white_space name orderCode.

(** The strings of the handlers are the strings whose code units are below
    256; among these [trim] strips the ASCII white space and the no-break
    space. *)
Definition is_space (c : ascii) : bool :=
  js_white_space (N_of_ascii c).

Definition payos_description (name : string) (orderCode : Z) : string :=
  string_of_list_ascii
    (description_units (fun c => c) is_space (list_ascii_of_string name) orderCode).

Definition PAYOS_API_URL : string :=
  "https://api-merchant.payos.vn/v2/payment-requests".

Definition createPayOSPayment (env : Env) (req : IntentRequest)
  : World -> Response * World :=
  run 500
    (let courseId := default "" (intent_courseId req) in
     let amount := default 0 (intent_amount req) in
     if negb (str_truthy (intent_courseId req))
        || negb (num_truthy (intent_amount req)) then
       respond (NextError (JStr "Course ID and amount are required") 400)
     else if negb (env_truthy (PAYOS_CLIENT_ID env))
             || negb (env_truthy (PAYOS_API_KEY env)) then
       respond (NextError (JStr "PayOS credentials are not configured") 500)
     else
       (course <- CourseModel_findById (intent_courseId req) ;;
        match course with
        | None => respond (NextError (JStr "Course not found") 404)
        | Some (course_id, course) =>
        user <- userModel_findById (intent_user req) ;;
        match user with
        | None => respond (NextError (JStr "User not found") 404)
        | Some (user_id, user) =>
        if owns user courseId then
          respond (NextError (JStr "You already purchased this course") 400)
        else
        (let orderCode := generateOrderCode env in
         let expiredAt := Date_now env / 1000 + 3600 in
         let cancelUrl := FRONTEND_URL env +:+ "/payment/cancel" in
         let returnUrl := FRONTEND_URL env +:+ "/payment/success?orderCode="
                          +:+ string_of_Z orderCode in
         let description := payos_description (course_name course) orderCode in
         (* [Math.round(amount)] of an integer *)
         let roundedAmount := amount in
         signature <- createPayOSSignature env roundedAmount cancelUrl description
                        orderCode returnUrl ;;
         let paymentData :=
           JObj [("orderCode", JNum orderCode);
                 ("amount", JNum roundedAmount);
                 ("description", JStr description);
                 ("cancelUrl", JStr cancelUrl);
                 ("returnUrl", JStr returnUrl);
                 ("expiredAt", JNum expiredAt);
                 ("signature", JStr signature);
                 ("items", JArr [JObj [("name", JStr (course_name course));
                                       ("quantity", JNum 1);
                                       ("price", JNum roundedAmount)]])] in
         effect (PayOSPost paymentData) ;;
         match axios_post env PAYOS_API_URL paymentData with
         | AxiosRejected status data message =>
             respond (NextError
                        (js_or (js_get data "desc")
                           (js_or (js_get data "message") (JStr message)))
                        (if status =? 0 then 500 else status))
         | AxiosFailed message => throw message
         | AxiosResolved response_data =>
             if truthy response_data && is_str (js_get response_data "code") "00" then
               (let paymentInfo := js_get response_data "data" in
                pi_orderCode <- member paymentInfo "orderCode" ;;
                let orderData :=
                  mkOrder course_id (Some user_id)
                    (JObj [("orderCode", pi_orderCode);
                           ("paymentLinkId", js_get paymentInfo "paymentLinkId");
                           ("status", js_get paymentInfo "status");
                           ("amount", js_get paymentInfo "amount");
                           ("currency", js_or (js_get paymentInfo "currency") (JStr "VND"));
                           ("qrCode", js_get paymentInfo "qrCode");
                           ("checkoutUrl", js_get paymentInfo "checkoutUrl");
                           ("expiredAt", js_get paymentInfo "expiredAt");
                           ("bin", js_get paymentInfo "bin");
                           ("accountNumber", js_get paymentInfo "accountNumber");
                           ("accountName", js_get paymentInfo "accountName")]) in
                existingOrder <- OrderModel_findOne env "orderCode" pi_orderCode ;;
                match existingOrder with
                | None => OrderModel_create orderData
                | Some _ => ret tt
                end ;;
                let qrImageUrl :=
                  if truthy (js_get paymentInfo "bin")
                     && truthy (js_get paymentInfo "accountNumber")
                     && truthy (js_get paymentInfo "accountName") then
                    let descForQr := js_or (js_get paymentInfo "description")
                                           (JStr description) in
                    let addInfo :=
                      encodeURIComponent env (js_String (js_or descForQr (JStr ""))) in
                    let accNameEnc :=
                      encodeURIComponent env (js_String (js_get paymentInfo "accountName")) in
                    JStr ("https://api.vietqr.io/image/"
                          +:+ js_String (js_get paymentInfo "bin") +:+ "-"
                          +:+ js_String (js_get paymentInfo "accountNumber")
                          +:+ "-vietqr_pro.jpg?addInfo=" +:+ addInfo
                          +:+ "&amount=" +:+ string_of_Z roundedAmount
                          +:+ "&accountName=" +:+ accNameEnc)
                  else JNull in
                ret (Json 200
                       (JObj [("success", JBool true);
                              ("data",
                               JObj [("qrCode", js_get paymentInfo "qrCode");
                                     ("checkoutUrl", js_get paymentInfo "checkoutUrl");
                                     ("orderCode", pi_orderCode);
                                     ("amount", js_get paymentInfo "amount");
                                     ("description", js_get paymentInfo "description");
                                     ("expiredAt", js_get paymentInfo "expiredAt");
                                     ("qrImageUrl", qrImageUrl)])])))
             else
               respond (NextError
                          (js_or (js_get response_data "desc")
                                 (JStr "Failed to create payment request"))
                          500)
         end)
        end end)).

(** ** The order controller: the synchronous confirmation *)

Record OrderRequest := mkOrderRequest {
  order_req_user : option string;
  order_req_courseId : option string;
  order_req_payment_info : JsVal
}.

(** [key in v] for a truthy value: a TypeError on a primitive. *)
Definition js_in (key : string) (v : JsVal) : Handler bool :=
  match v with
  | JObj fields => ret (bool_decide (is_Some (assoc key fields)))
  | JArr items =>
      ret (bool_decide (is_Some (index_of_key key (List.length items)))
           || String.eqb key "length")
  | _ => throw ("Cannot use 'in' operator to search for '" +:+ key
                +:+ "' in " +:+ js_String v)
  end.

Definition order_json (o : Order) : JsVal :=
  JObj [("courseId", JStr (order_courseId o));
        ("userId", match order_userId o with
                   | Some u => JStr u
                   | None => JUndefined
                   end);
        ("payment_info", order_payment_info o)].

Definition order_response (status : Z) (o : Order) : Response :=
  Json status (JObj [("success", JBool true); ("order", order_json o)]).

(** Modelled from the spec: [newOrder] of [services/order.service.ts] is
    outside the sources. It creates the Order record from the data and
    answers [{success, order}]. *)
Definition newOrder (env : Env) (data : Order) : Handler Response :=
  OrderModel_create data ;;
  ret (order_response (newOrder_status env) data).

(** [course.purchased ? course.purchased += 1 : course.purchased] *)
Definition createOrder_purchased (purchased : option Z) : option Z :=
  match purchased with
  | Some n => if n =? 0 then Some n else Some (n + 1)
  | None => None
  end.

Definition createOrder (env : Env) (req : OrderRequest)
  : World -> Response * World :=
  run 400
    (let courseId := order_req_courseId req in
     let payment_info := order_req_payment_info req in
     console_log "courseId" ;;
     console_log "payment_info" ;;
     paymentIntentId <-
       (if truthy payment_info then
          (has_id <- js_in "id" payment_info ;;
           if has_id then
             (let paymentIntentId := js_get payment_info "id" in
              existingOrder <- OrderModel_findOne env "id" paymentIntentId ;;
              match existingOrder with
              | Some (_, existingOrder) => respond (order_response 200 existingOrder)
              | None =>
                  effect (StripeRetrieve paymentIntentId) ;;
                  status <- await (stripe_paymentIntents_retrieve env paymentIntentId) ;;
                  console_log "paymentIntent.status" ;;
                  if negb (is_str status "succeeded") then
                    respond (NextError (JStr "Payment not authorized") 400)
                  else ret paymentIntentId
              end)
           else ret JUndefined)
        else ret JUndefined) ;;
     user <- userModel_findById (order_req_user req) ;;
     console_log "user" ;;
     let courseExistUser :=
       match user, courseId with
       | Some (_, user), Some courseId => owns user courseId
       | _, _ => false
       end in
     if courseExistUser then
       respond (NextError (JStr "You already purchased this course") 400)
     else
     (course <- CourseModel_findById courseId ;;
      console_log "course" ;;
      match course with
      | None => respond (NextError (JStr "Course not found") 404)
      | Some (course_id, course) =>
          let data := mkOrder course_id (fst <$> user) payment_info in
          let mailData := mail_data env course_id course (JNum (course_price course)) in
          _ <- await (ejs_renderFile env "../mails/order-confirmation.ejs"
                        (JObj [("order", mailData)])) ;;
          try_catch
            (match user with
             | Some (_, user) =>
                 effect (MailSend (user_email user) "Order Confirmation" mailData) ;;
                 await (sendMail env (user_email user) "Order Confirmation"
                          "order-confirmation.ejs" mailData)
             | None => ret tt
             end)
            (fun message => respond (NextError (JStr message) 500)) ;;
          match user with
          | Some (user_id, user) =>
              let user' := if negb (owns user course_id)
                           then push_course user course_id else user in
              user_save user_id user'
          | None => ret tt
          end ;;
          NotificationModel_create
            (mkNotification (fst <$> user) "New Order"
               ("You have a new order form " +:+ course_name course)) ;;
          course_save course_id
            (set_purchased course (createOrder_purchased (course_purchased course))) ;;
          existingOrder <- (if truthy paymentIntentId
                            then OrderModel_findOne env "id" paymentIntentId
                            else ret None) ;;
          match existingOrder with
          | Some (_, existingOrder) => ret (order_response 200 existingOrder)
          | None => newOrder env data
          end
      end)).

(** ** The Stripe controller *)

Definition createCheckoutSession (env : Env) (req : IntentRequest)
  : World -> Response * World :=
  run 500
    (let courseId := default "" (intent_courseId req) in
     let amount := default 0 (intent_amount req) in
     if negb (str_truthy (intent_courseId req))
        || negb (num_truthy (intent_amount req)) then
       respond (NextError (JStr "Course ID and amount are required") 400)
     else
       (course <- CourseModel_findById (intent_courseId req) ;;
        match course with
        | None => respond (NextError (JStr "Course not found") 404)
        | Some (course_id, course) =>
        user <- userModel_findById (intent_user req) ;;
        match user with
        | None => respond (NextError (JStr "User not found") 404)
        | Some (user_id, user) =>
        if owns user courseId then
          respond (NextError (JStr "You already purchased this course") 400)
        else
        ((* [Math.round(amount * 100)] of an integer *)
         let unit_amount := amount * 100 in
         effect (StripeCheckoutCreate courseId unit_amount) ;;
         session <- await (stripe_checkout_sessions_create env courseId unit_amount) ;;
         ret (Json 200 (JObj [("success", JBool true);
                              ("url", fst session);
                              ("sessionId", snd session)])))
        end end)).

Record StripeWebhookRequest := mkStripeWebhookRequest {
  header_stripe_signature : option string;
  stripe_body : JsVal
}.

Definition stripeWebhook (env : Env) (req : StripeWebhookRequest)
  : World -> Response * World :=
  run_logging "Webhook error:" 500
    (if negb (env_truthy (STRIPE_WEBHOOK_SECRET env)) then
       respond (NextError (JStr "Stripe webhook secret is not configured") 500)
     else
     (event <- try_catch
                 (await (stripe_webhooks_constructEvent env (stripe_body req)
                           (header_stripe_signature req)
                           (default "" (STRIPE_WEBHOOK_SECRET env))))
                 (fun message =>
                    console_error "Webhook signature verification failed:" ;;
                    respond (Send 400 ("Webhook Error: " +:+ message))) ;;
      (if String.eqb (event_type event) "checkout.session.completed" then
         (let courseId := session_metadata_courseId event in
          let userId := session_metadata_userId event in
          if negb (str_truthy courseId) || negb (str_truthy userId) then
            (console_error "Missing courseId or userId in session metadata" ;;
             respond (Json 400 (error_body "Missing metadata")))
          else
          (existingOrder <- OrderModel_findOne env "id" (session_id event) ;;
           match existingOrder with
           | Some _ =>
               console_log "Order already exists for this session" ;;
               respond (Json 200 (JObj [("received", JBool true)]))
           | None =>
               course <- CourseModel_findById courseId ;;
               user <- userModel_findById userId ;;
               match course, user with
               | Some (course_id, course), Some (user_id, user) =>
                   if owns user (default "" courseId) then
                     (console_log "User already has this course" ;;
                      respond (Json 200 (JObj [("received", JBool true)])))
                   else
                   (OrderModel_create
                      (mkOrder course_id (Some user_id)
                         (JObj [("id", session_id event);
                                ("status", session_payment_status event);
                                ("amount_total", session_amount_total event);
                                ("currency", session_currency event)])) ;;
                    user <- (if negb (owns user course_id) then
                               (let user' := push_course user course_id in
                                user_save user_id user' ;; ret user')
                             else ret user) ;;
                    let mailData := mail_data env course_id course
                                      (JNum (course_price course)) in
                    try_catch
                      (effect (MailSend (user_email user) "Order Confirmation"
                                mailData) ;;
                       await (sendMail env (user_email user) "Order Confirmation"
                                "order-confirmation.ejs" mailData))
                      (fun _ => ret tt) ;;
                    NotificationModel_create
                      (mkNotification (Some user_id) "New Order"
                         ("You have a new order for " +:+ course_name course)) ;;
                    course_save course_id
                      (set_purchased course
                         (Some (purchased_or_zero (course_purchased course) + 1))) ;;
                    console_log "Order created successfully via webhook")
               | _, _ =>
                   console_error "Course or user not found" ;;
                   respond (Json 404 (error_body "Course or user not found"))
               end
           end))
       else ret tt) ;;
      ret (Json 200 (JObj [("received", JBool true)])))).

(** ** The operations of the subsystem *)

Inductive Operation : Type :=
| OpCreatePayOSPayment (req : IntentRequest)
| OpPayOSWebhook (req : WebhookRequest)
| OpCreateOrder (req : OrderRequest)
| OpCreateCheckoutSession (req : IntentRequest)
| OpStripeWebhook (req : StripeWebhookRequest).

Definition handle (env : Env) (op : Operation) : World -> Response * World :=
  match op with
  | OpCreatePayOSPayment req => createPayOSPayment env req
  | OpPayOSWebhook req => payOSWebhook env req
  | OpCreateOrder req => createOrder env req
  | OpCreateCheckoutSession req => createCheckoutSession env req
  | OpStripeWebhook req => stripeWebhook env req
  end.

(** Requests handled one after the other. *)
Fixpoint handle_all (env : Env) (ops : list Operation) (w : World) : World :=
  match ops with
  | [] => w
  | op :: rest => handle_all env rest (snd (handle env op w))
  end.

(** The same webhook delivered [n] times. *)
Fixpoint deliver (env : Env) (req : WebhookRequest) (n : nat) (w : World) : World :=
  match n with
  | O => w
  | S n' => deliver env req n' (snd (payOSWebhook env req w))
  end.

(** ** Vocabulary of the properties *)

Definition empty_world : World := mkWorld ∅ ∅ [] [] [].

(** The world with more effects recorded and the collections as they are. *)
Definition log_lines (w : World) (lines : list Effect) : World :=
  mkWorld (users w) (courses w) (orders w) (notifications w) (trace w ++ lines).

Definition is_console (e : Effect) : bool :=
  match e with
  | Console _ _ => true
  | _ => false
  end.

Definition same_store (w w' : World) : Prop :=
  users w' = users w /\ courses w' = courses w /\ orders w' = orders w
  /\ notifications w' = notifications w.

(** Nothing but console lines: no write to a collection, no mail, no socket
    emission, no call to a provider. *)
Definition no_side_effects (w w' : World) : Prop :=
  same_store w w'
  /\ exists lines, trace w' = trace w ++ lines /\ forallb is_console lines = true.

(** Every Order that is paid in [w] is the same Order in [w']. *)
Definition keeps_paid (w w' : World) : Prop :=
  forall i o, orders w !! i = Some o -> is_paid o = true -> orders w' !! i = Some o.

(** The effects of a request: what the trace gained. *)
Definition new_effects (w w' : World) : list Effect :=
  drop (List.length (trace w)) (trace w').

Definition count_effects (p : Effect -> bool) (t : list Effect) : nat :=
  List.length (List.filter p t).

(** An Order saved with status PAID, a saved course, a created notification,
    a saved user, a call to a payment provider. *)
Definition is_paid_transition (e : Effect) : bool :=
  match e with
  | OrderSave _ o => is_paid o
  | _ => false
  end.

Definition is_course_save (e : Effect) : bool :=
  match e with
  | CourseSave _ _ => true
  | _ => false
  end.

Definition is_notification (e : Effect) : bool :=
  match e with
  | NotificationCreate _ => true
  | _ => false
  end.

Definition is_user_save (e : Effect) : bool :=
  match e with
  | UserSave _ _ => true
  | _ => false
  end.

Definition is_provider_call (e : Effect) : bool :=
  match e with
  | StripeRetrieve _ | StripeCheckoutCreate _ _ | PayOSPost _ => true
  | _ => false
  end.

(** The position of the first effect satisfying [p]. *)
Definition first_index (p : Effect -> bool) (t : list Effect) : option nat :=
  fst <$> find_index p t 0%nat.

(** An effect satisfying [a] occurs, and before any effect satisfying [b]. *)
Definition happens_before (a b : Effect -> bool) (t : list Effect) : bool :=
  match first_index a t, first_index b t with
  | Some i, Some j => (i <? j)%nat
  | _, _ => false
  end.

(** What [verifyWebhookSignature] answers and logs; neither depends on the
    collections. *)
Definition signature_valid (env : Env) (data signature : JsVal) : bool :=
  match fst (verifyWebhookSignature env data signature empty_world) with
  | Val b => b
  | _ => false
  end.

Definition verify_console (env : Env) (data signature : JsVal) : list Effect :=
  trace (snd (verifyWebhookSignature env data signature empty_world)).

Definition nullish (v : JsVal) : bool :=
  match v with
  | JUndefined | JNull => true
  | _ => false
  end.

(** [req.headers["x-payos-signature"] || req.body.signature] and
    [req.body.data || req.body] of a request with a body. *)
Definition request_signature (req : WebhookRequest) : JsVal :=
  js_or (match header_x_payos_signature req with
         | Some h => JStr h
         | None => JUndefined
         end)
        (js_get (webhook_body req) "signature").

Definition request_data (req : WebhookRequest) : JsVal :=
  js_or (js_get (webhook_body req) "data") (webhook_body req).

(** The Order a webhook payload designates. *)
Definition designated_order (env : Env) (data : JsVal) (w : World)
  : option (nat * Order) :=
  find_index
    (fun o => query_eq env (js_get (order_payment_info o) "orderCode")
                       (js_get data "orderCode"))
    (orders w) 0%nat.

(** The socket emissions of the PayOS webhook and the lines around them. *)
Definition socket_effects (env : Env) (user_id : string) : list Effect :=
  if io_initialized env then
    [SocketEmit (Some ("user_" +:+ user_id)) "paymentSuccess";
     Console LevelLog "[SOCKET] Emitted paymentSuccess event to room:";
     Console LevelLog "[SOCKET] Payment data:";
     Console LevelLog "[SOCKET] Room has connected socket(s)";
     SocketEmit None "newNotification";
     Console LevelLog "[SOCKET] Broadcasted newNotification to all clients"]
  else [Console LevelError "[SOCKET] Failed to emit socket event:"].

(** *** The signature rule in the words of the specification *)

(** null, undefined and the literal strings "null" and "undefined" normalize
    to the empty string, every other value to its string form. *)
Definition spec_normalize (v : JsVal) : string :=
  if nullish v || is_str v "null" || is_str v "undefined" then ""
  else js_String v.

(** [key=value] pairs of the given field names joined by [&]. *)
Definition spec_canonical_string (data : JsVal) (names : list string) : string :=
  String.concat "&"
    (List.map (fun name => name +:+ "=" +:+ spec_normalize (js_get data name)) names).

(** Field names in lexicographic order of their code units. *)
Definition lexicographic (names : list string) : Prop :=
  Sorted (fun a b => String.leb a b = true) names.




(** The development switch that makes verification pass. *)
Definition skip_switch (env : Env) : bool :=
  env_is (NODE_ENV env) "development"
  && env_is (SKIP_PAYOS_SIGNATURE_VERIFY env) "true".

(** *** Independence of the mail transport *)

Definition with_sendMail (env : Env)
  (transport : string -> string -> string -> JsVal -> Outcome unit) : Env :=
  mkEnv (PAYOS_CLIENT_ID env) (PAYOS_API_KEY env) (PAYOS_CHECKSUM_KEY env)
        (FRONTEND_URL_var env) (NODE_ENV env) (SKIP_PAYOS_SIGNATURE_VERIFY env)
        (STRIPE_WEBHOOK_SECRET env) (hmac_sha256_hex env) (query_eq env)
        transport (ejs_renderFile env) (io_initialized env)
        (stripe_paymentIntents_retrieve env) (stripe_checkout_sessions_create env)
        (stripe_webhooks_constructEvent env) (axios_post env)
        (encodeURIComponent env) (Date_now env) (Math_random_1000 env)
        (toLocaleDateString env) (newOrder_status env).

(** A handler whose response and whose effects are the same whatever the
    mail transport does: a failing send changes nothing. *)
Definition mail_isolated {Req : Type}
  (handler : Env -> Req -> World -> Response * World) : Prop :=
  forall env transport req w,
    handler (with_sendMail env transport) req w = handler env req w.

(** ** A concrete deployment *)

Definition demo_hmac (key message : string) : string :=
  "hmac(" +:+ key +:+ ";" +:+ message +:+ ")".

Definition demo_query_eq (a b : JsVal) : bool :=
  match a, b with
  | JNum x, JNum y => x =? y
  | JStr x, JStr y => String.eqb x y
  | _, _ => false
  end.

(** A deployment whose mail transport works or not, and whose card provider
    reports the given PaymentIntent status. *)
Definition demo_env (mail_ok : bool) (intent_status : string) : Env :=
  mkEnv (Some "client") (Some "apikey") (Some "secret") None
        (Some "production") None (Some "whsec")
        demo_hmac demo_query_eq
        (fun _ _ _ _ => if mail_ok then Ok tt else Thrown "SMTP down")
        (fun _ _ => Ok "<html>")
        true
        (fun _ => Ok (JStr intent_status))
        (fun _ _ => Ok (JStr "https://checkout.example", JStr "cs_1"))
        (fun _ _ _ =>
           Ok (mkStripeEvent "checkout.session.completed" (JStr "cs_1")
                 (Some "c1") (Some "u1") (JStr "paid") (JNum 4900) (JStr "usd")))
        (fun _ _ => AxiosFailed "network")
        (fun s => s)
        1700000000000 123 "November 1, 2026" 201.

(** One user, one course never purchased, one pending PayOS order. *)
Definition demo_world : World :=
  mkWorld {[ "u1" := mkUser "buyer@example.org" [] ]}
          {[ "c1" := mkCourse "Rocq" None 49 (Some 0) ]}
          [mkOrder "c1" (Some "u1")
             (JObj [("orderCode", JNum 1700000000123); ("status", JStr "PENDING")])]
          [] [].

(** The same with the course already owned. *)
Definition demo_world_owned : World :=
  mkWorld {[ "u1" := mkUser "buyer@example.org" ["c1"] ]}
          {[ "c1" := mkCourse "Rocq" None 49 (Some 1) ]}
          [] [] [].

Definition demo_data : JsVal :=
  JObj [("orderCode", JNum 1700000000123); ("code", JStr "00");
        ("desc", JStr "success")].

Definition demo_signature : string :=
  "HMAC(secret;code=00&desc=success&orderCode=1700000000123)".

Definition demo_webhook : WebhookRequest :=
  mkWebhookRequest (Some demo_signature)
    (JObj [("data", demo_data); ("signature", JStr "ignored")]).

(** The same payload with a signature that does not match. *)
Definition demo_webhook_forged : WebhookRequest :=
  mkWebhookRequest None
    (JObj [("data", demo_data); ("signature", JStr "0000")]).

(** A payload whose only sign of success is its [desc]. *)
Definition demo_data_desc_only : JsVal :=
  JObj [("orderCode", JNum 1700000000123); ("code", JStr "01");
        ("desc", JStr "success"); ("status", JStr "CANCELLED")].

Definition demo_webhook_desc_only : WebhookRequest :=
  mkWebhookRequest
    (Some (demo_hmac "secret" (signature_message demo_data_desc_only)))
    demo_data_desc_only.

(** *** The PayOS webhook on a successful payment of a pending order *)

Definition purchase_notification (user_id : string) (c : Course) : Notification :=
  mkNotification (Some user_id) "New Order"
    ("You have a new order for " +:+ course_name c).

Definition purchased_once_more (c : Course) : Course :=
  set_purchased c (Some (purchased_or_zero (course_purchased c) + 1)).

(** What the webhook does, in order, when it grants the course of the Order
    [o] at position [index] to the user [u]. *)
Definition grant_effects (env : Env) (data signature : JsVal)
  (index : nat) (o : Order) (user_id : string) (u : User) (c : Course)
  : list Effect :=
  Console LevelLog "Webhook received:"
  :: verify_console env data signature
  ++ [Console LevelLog "Processing webhook:";
      OrderSave index (mark_paid o);
      UserSave user_id (push_course u (order_courseId o));
      MailSend (user_email u) "Order Confirmation"
        (mail_data env (order_courseId o) c (js_get data "amount"));
      NotificationCreate (purchase_notification user_id c);
      CourseSave (order_courseId o) (purchased_once_more c)]
  ++ socket_effects env user_id
  ++ [Console LevelLog "Order processed successfully via webhook"].

Definition granted_world (env : Env) (data signature : JsVal)
  (index : nat) (o : Order) (user_id : string) (u : User) (c : Course)
  (w : World) : World :=
  mkWorld (<[user_id := push_course u (order_courseId o)]> (users w))
          (<[order_courseId o := purchased_once_more c]> (courses w))
          (<[index := mark_paid o]> (orders w))
          (notifications w ++ [purchase_notification user_id c])
          (trace w ++ grant_effects env data signature index o user_id u c).

Definition is_mail_send (e : Effect) : bool :=
  match e with
  | MailSend _ _ _ => true
  | _ => false
  end.

(** A payment object that carries an [id]: an object with that property. *)
Definition carries_id (payment_info : JsVal) : bool :=
  match payment_info with
  | JObj fields => bool_decide (is_Some (assoc "id" fields))
  | _ => false
  end.

(** The Order a PaymentIntent id designates. *)
Definition order_of_intent (env : Env) (id : JsVal) (w : World)
  : option (nat * Order) :=
  find_index
    (fun o => query_eq env (js_get (order_payment_info o) "id") id)
    (orders w) 0%nat.

(** A mail transport that is down. *)
Definition transport_down (env : Env) (message : string) : Prop :=
  forall email subject template data,
    sendMail env email subject template data = Thrown message.

(** The pending Order of [demo_world] and what it becomes once paid. *)
Definition demo_order : Order :=
  mkOrder "c1" (Some "u1")
    (JObj [("orderCode", JNum 1700000000123); ("status", JStr "PENDING")]).

Definition demo_user : User := mkUser "buyer@example.org" [].

Definition demo_course : Course := mkCourse "Rocq" None 49 (Some 0).

Definition demo_world_paid : World :=
  mkWorld {[ "u1" := mkUser "buyer@example.org" ["c1"] ]}
          {[ "c1" := mkCourse "Rocq" None 49 (Some 1) ]}
          [mark_paid demo_order] [] [].

(** A later webhook for the same payment that reports a cancellation. *)
Definition demo_data_cancelled : JsVal :=
  JObj [("orderCode", JNum 1700000000123); ("code", JStr "01");
        ("desc", JStr "cancelled"); ("status", JStr "CANCELLED")].

Definition demo_webhook_cancelled : WebhookRequest :=
  mkWebhookRequest
    (Some (demo_hmac "secret" (signature_message demo_data_cancelled)))
    demo_data_cancelled.

(** Confirmation requests: with a PaymentIntent id, and with a payment
    object that only carries the status the client reports. *)
Definition demo_confirmation : OrderRequest :=
  mkOrderRequest (Some "u1") (Some "c1") (JObj [("id", JStr "pi_1")]).

Definition demo_confirmation_without_id : OrderRequest :=
  mkOrderRequest (Some "u1") (Some "c1") (JObj [("status", JStr "succeeded")]).

Definition demo_intent : IntentRequest :=
  mkIntentRequest (Some "u1") (Some "c1") (Some 49).

(** ** What one request can do to the collections *)

(** At most one user is saved, with one more course it did not own. *)
Definition users_step (us us' : gmap string User) : Prop :=
  us' = us
  \/ exists user_id u courseId,
       us !! user_id = Some u /\ owns u courseId = false
       /\ us' = <[user_id := push_course u courseId]> us.

(** At most one course is saved, with a counter that is not smaller. *)
Definition courses_step (cs cs' : gmap string Course) : Prop :=
  cs' = cs
  \/ exists courseId c purchased,
       cs !! courseId = Some c
       /\ purchased_or_zero (course_purchased c) <= purchased_or_zero purchased
       /\ cs' = <[courseId := set_purchased c purchased]> cs.

(** At most one Order is created, or one Order that is not PAID is marked. *)
Definition orders_step (os os' : list Order) : Prop :=
  os' = os
  \/ (exists o, os' = os ++ [o])
  \/ exists index o,
       os !! index = Some o /\ is_paid o = false
       /\ os' = <[index := mark_paid o]> os.

Definition notifications_step (ns ns' : list Notification) : Prop :=
  ns' = ns \/ exists n, ns' = ns ++ [n].

Definition request_step (w w' : World) : Prop :=
  users_step (users w) (users w')
  /\ courses_step (courses w) (courses w')
  /\ orders_step (orders w) (orders w')
  /\ notifications_step (notifications w) (notifications w').

(** No user owns a course twice. *)
Definition owned_once (w : World) : Prop :=
  forall user_id u, users w !! user_id = Some u -> List.NoDup (user_courses u).

(** ** Vocabulary of the Stripe webhook *)

(** The event the Stripe library makes of a webhook request. *)
Definition stripe_event (env : Env) (req : StripeWebhookRequest)
  : Outcome StripeEvent :=
  stripe_webhooks_constructEvent env (stripe_body req)
    (header_stripe_signature req) (default "" (STRIPE_WEBHOOK_SECRET env)).

Definition received : Response := Json 200 (JObj [("received", JBool true)]).

(** The Order the Stripe webhook creates for a completed session. *)
Definition session_order (event : StripeEvent) (courseId user_id : string) : Order :=
  mkOrder courseId (Some user_id)
    (JObj [("id", session_id event);
           ("status", session_payment_status event);
           ("amount_total", session_amount_total event);
           ("currency", session_currency event)]).

(** What the Stripe webhook does, in order, when it grants a course. *)
Definition session_grant_effects (env : Env) (event : StripeEvent)
  (courseId user_id : string) (u : User) (c : Course) : list Effect :=
  [OrderCreate (session_order event courseId user_id);
   UserSave user_id (push_course u courseId);
   MailSend (user_email u) "Order Confirmation"
     (mail_data env courseId c (JNum (course_price c)));
   NotificationCreate (purchase_notification user_id c);
   CourseSave courseId (purchased_once_more c);
   Console LevelLog "Order created successfully via webhook"].

Definition session_granted_world (env : Env) (event : StripeEvent)
  (courseId user_id : string) (u : User) (c : Course) (w : World) : World :=
  mkWorld (<[user_id := push_course u courseId]> (users w))
          (<[courseId := purchased_once_more c]> (courses w))
          (orders w ++ [session_order event courseId user_id])
          (notifications w ++ [purchase_notification user_id c])
          (trace w ++ session_grant_effects env event courseId user_id u c).

Definition is_order_create (e : Effect) : bool :=
  match e with
  | OrderCreate _ => true
  | _ => false
  end.

(** ** Vocabulary of the payment requests *)

(** The tests a request for a payment passes before the provider is
    called: the course and the amount are named, the course and the user
    exist, and the user does not own the course. *)
Definition intent_guards (req : IntentRequest) (w : World) : bool :=
  str_truthy (intent_courseId req) && num_truthy (intent_amount req)
  && match intent_courseId req ≫= (fun i => courses w !! i),
           intent_user req ≫= (fun i => users w !! i) with
     | Some _, Some u => negb (owns u (default "" (intent_courseId req)))
     | _, _ => false
     end.

(** The pending Order [createPayOSPayment] saves for the payment the
    provider describes. *)
Definition payos_order (courseId user_id : string) (paymentInfo : JsVal) : Order :=
  mkOrder courseId (Some user_id)
    (JObj [("orderCode", js_get paymentInfo "orderCode");
           ("paymentLinkId", js_get paymentInfo "paymentLinkId");
           ("status", js_get paymentInfo "status");
           ("amount", js_get paymentInfo "amount");
           ("currency", js_or (js_get paymentInfo "currency") (JStr "VND"));
           ("qrCode", js_get paymentInfo "qrCode");
           ("checkoutUrl", js_get paymentInfo "checkoutUrl");
           ("expiredAt", js_get paymentInfo "expiredAt");
           ("bin", js_get paymentInfo "bin");
           ("accountNumber", js_get paymentInfo "accountNumber");
           ("accountName", js_get paymentInfo "accountName")]).

(** A provider that gives the same answer to every payment request. *)
Definition provider_answers (env : Env) (answer : AxiosResult) : Prop :=
  forall url paymentData, axios_post env url paymentData = answer.

Definition is_error (r : Response) : bool :=
  match r with
  | NextError _ _ => true
  | _ => false
  end.

(** A provider that never accepts a payment request: whatever it resolves
    with does not carry the code "00". *)
Definition provider_refuses (env : Env) : Prop :=
  forall url paymentData response_data,
    axios_post env url paymentData = AxiosResolved response_data ->
    truthy response_data && is_str (js_get response_data "code") "00" = false.

(** The Order a PayOS order code designates. *)
Definition order_of_code (env : Env) (orderCode : JsVal) (w : World)
  : option (nat * Order) :=
  find_index
    (fun o => query_eq env (js_get (order_payment_info o) "orderCode") orderCode)
    (orders w) 0%nat.

(** The payment object [createPayOSPayment] answers with. *)
Definition payment_link (response : Response) : JsVal :=
  match response with
  | Json 200 body => js_get body "data"
  | _ => JUndefined
  end.

(** ** Vocabulary of the status requests and of the socket *)

(** The deployment with the socket server initialised or not. *)
Definition with_io (env : Env) (initialized : bool) : Env :=
  mkEnv (PAYOS_CLIENT_ID env) (PAYOS_API_KEY env) (PAYOS_CHECKSUM_KEY env)
        (FRONTEND_URL_var env) (NODE_ENV env) (SKIP_PAYOS_SIGNATURE_VERIFY env)
        (STRIPE_WEBHOOK_SECRET env) (hmac_sha256_hex env) (query_eq env)
        (sendMail env) (ejs_renderFile env) initialized
        (stripe_paymentIntents_retrieve env) (stripe_checkout_sessions_create env)
        (stripe_webhooks_constructEvent env) (axios_post env)
        (encodeURIComponent env) (Date_now env) (Math_random_1000 env)
        (toLocaleDateString env) (newOrder_status env).

Definition is_socket_emit (e : Effect) : bool :=
  match e with
  | SocketEmit _ _ => true
  | _ => false
  end.

(** The effects that are neither console lines nor socket emissions. *)
Definition lasting_effects (t : list Effect) : list Effect :=
  List.filter (fun e => negb (is_console e || is_socket_emit e)) t.

(** What the synchronous confirmation does, in order, when it grants the
    course [c] to the user [u] for the payment object [payment_info]. *)
Definition confirmation_mail (env : Env) (courseId : string) (c : Course) : JsVal :=
  mail_data env courseId c (JNum (course_price c)).

Definition confirmation_notification (user_id : string) (c : Course) : Notification :=
  mkNotification (Some user_id) "New Order"
    ("You have a new order form " +:+ course_name c).

Definition confirmation_order (courseId user_id : string) (payment_info : JsVal)
  : Order :=
  mkOrder courseId (Some user_id) payment_info.

Definition confirmation_effects (env : Env) (id : JsVal)
  (courseId user_id : string) (u : User) (c : Course) (payment_info : JsVal)
  : list Effect :=
  [Console LevelLog "courseId"; Console LevelLog "payment_info";
   StripeRetrieve id; Console LevelLog "paymentIntent.status";
   Console LevelLog "user"; Console LevelLog "course";
   MailSend (user_email u) "Order Confirmation" (confirmation_mail env courseId c);
   UserSave user_id (push_course u courseId);
   NotificationCreate (confirmation_notification user_id c);
   CourseSave courseId
     (set_purchased c (createOrder_purchased (course_purchased c)));
   OrderCreate (confirmation_order courseId user_id payment_info)].

Definition confirmed_world (env : Env) (id : JsVal)
  (courseId user_id : string) (u : User) (c : Course) (payment_info : JsVal)
  (w : World) : World :=
  mkWorld (<[user_id := push_course u courseId]> (users w))
          (<[courseId := set_purchased c (createOrder_purchased (course_purchased c))]>
             (courses w))
          (orders w ++ [confirmation_order courseId user_id payment_info])
          (notifications w ++ [confirmation_notification user_id c])
          (trace w ++ confirmation_effects env id courseId user_id u c payment_info).

(** The two lines every confirmation request logs first. *)
Definition confirmation_lines : list Effect :=
  [Console LevelLog "courseId"; Console LevelLog "payment_info"].

(** ** More of the concrete deployment *)

(** The deployment with another payment provider or another Stripe library. *)
Definition with_axios_post (env : Env) (post : string -> JsVal -> AxiosResult) : Env :=
  mkEnv (PAYOS_CLIENT_ID env) (PAYOS_API_KEY env) (PAYOS_CHECKSUM_KEY env)
        (FRONTEND_URL_var env) (NODE_ENV env) (SKIP_PAYOS_SIGNATURE_VERIFY env)
        (STRIPE_WEBHOOK_SECRET env) (hmac_sha256_hex env) (query_eq env)
        (sendMail env) (ejs_renderFile env) (io_initialized env)
        (stripe_paymentIntents_retrieve env) (stripe_checkout_sessions_create env)
        (stripe_webhooks_constructEvent env) post
        (encodeURIComponent env) (Date_now env) (Math_random_1000 env)
        (toLocaleDateString env) (newOrder_status env).

Definition with_constructEvent (env : Env)
  (construct : JsVal -> option string -> string -> Outcome StripeEvent) : Env :=
  mkEnv (PAYOS_CLIENT_ID env) (PAYOS_API_KEY env) (PAYOS_CHECKSUM_KEY env)
        (FRONTEND_URL_var env) (NODE_ENV env) (SKIP_PAYOS_SIGNATURE_VERIFY env)
        (STRIPE_WEBHOOK_SECRET env) (hmac_sha256_hex env) (query_eq env)
        (sendMail env) (ejs_renderFile env) (io_initialized env)
        (stripe_paymentIntents_retrieve env) (stripe_checkout_sessions_create env)
        construct (axios_post env)
        (encodeURIComponent env) (Date_now env) (Math_random_1000 env)
        (toLocaleDateString env) (newOrder_status env).

(** A provider that accepts every payment request with the same payment. *)
Definition demo_payment : JsVal :=
  JObj [("orderCode", JNum 1700000000777); ("status", JStr "PENDING");
        ("amount", JNum 49);
        ("checkoutUrl", JStr "https://pay.payos.vn/web/777")].

Definition demo_env_payos : Env :=
  with_axios_post (demo_env true "succeeded")
    (fun _ _ => AxiosResolved (JObj [("code", JStr "00"); ("desc", JStr "success");
                                     ("data", demo_payment)])).

(** A Stripe library that rejects the signature of every request. *)
Definition demo_env_bad_signature : Env :=
  with_constructEvent (demo_env true "succeeded")
    (fun _ _ _ => Thrown "No signatures found matching the expected signature").

Definition demo_stripe_request : StripeWebhookRequest :=
  mkStripeWebhookRequest (Some "t=1,v1=abc") (JStr "{}").

Definition demo_event : StripeEvent :=
  mkStripeEvent "checkout.session.completed" (JStr "cs_1")
    (Some "c1") (Some "u1") (JStr "paid") (JNum 4900) (JStr "usd").

(** A store that matches a queried text against a stored number by its
    digits, and the status request for the order of [demo_world]. *)
Definition with_query_eq (env : Env) (matches : JsVal -> JsVal -> bool) : Env :=
  mkEnv (PAYOS_CLIENT_ID env) (PAYOS_API_KEY env) (PAYOS_CHECKSUM_KEY env)
        (FRONTEND_URL_var env) (NODE_ENV env) (SKIP_PAYOS_SIGNATURE_VERIFY env)
        (STRIPE_WEBHOOK_SECRET env) (hmac_sha256_hex env) matches
        (sendMail env) (ejs_renderFile env) (io_initialized env)
        (stripe_paymentIntents_retrieve env) (stripe_checkout_sessions_create env)
        (stripe_webhooks_constructEvent env) (axios_post env)
        (encodeURIComponent env) (Date_now env) (Math_random_1000 env)
        (toLocaleDateString env) (newOrder_status env).

Definition demo_env_casting : Env :=
  with_query_eq (demo_env true "succeeded")
    (fun stored queried =>
       match stored with
       | JNum _ | JStr _ => String.eqb (js_String stored) (js_String queried)
       | _ => false
       end).

Definition demo_status_request : StatusRequest :=
  mkStatusRequest (JStr "1700000000123").

(** The pending order of a user who owns the course already, and the pending
    order of a course that is gone. *)
Definition demo_world_pending_owned : World :=
  mkWorld {[ "u1" := mkUser "buyer@example.org" ["c1"] ]}
          {[ "c1" := mkCourse "Rocq" None 49 (Some 1) ]}
          [demo_order] [] [].

Definition demo_world_orphan : World :=
  mkWorld {[ "u1" := mkUser "buyer@example.org" [] ]} ∅ [demo_order] [] [].

(** A webhook request without a signature. *)
Definition demo_webhook_unsigned : WebhookRequest :=
  mkWebhookRequest None (JObj [("data", demo_data)]).

(** * Properties *)

(** ** Sorting, joining and the signed message *)

Lemma sort_insert_perm x l : Permutation (x :: l) (sort_insert x l).
Proof.
  induction l as [|y l IH]; simpl; [reflexivity|].
  destruct (String.leb x y); [reflexivity|].
  rewrite perm_swap. now apply perm_skip.
Qed.

Lemma js_sort_perm l : Permutation l (js_sort l).
Proof.
  induction l as [|x l IH]; simpl; [constructor|].
  rewrite <- sort_insert_perm. now apply perm_skip.
Qed.

Lemma sort_insert_sorted x l :
  lexicographic l -> lexicographic (sort_insert x l).
Proof.
  unfold lexicographic.
  induction l as [|y l IH]; simpl; intros Hs.
  - repeat constructor.
  - destruct (String.leb x y) eqn:Hxy.
    + constructor; [assumption|]. now constructor.
    + apply Sorted_inv in Hs as [Hs Hhd].
      constructor; [now apply IH|].
      assert (Hyx : String.leb y x = true)
        by (destruct (String.leb_total x y); congruence).
      destruct l as [|z l]; simpl; [now constructor|].
      destruct (String.leb x z); constructor; try assumption.
      now inversion Hhd.
Qed.

Lemma js_sort_sorted l : lexicographic (js_sort l).
Proof.
  induction l as [|x l IH]; simpl.
  - constructor.
  - now apply sort_insert_sorted.
Qed.

#[local] Instance lexicographic_order_transitive :
  Transitive (fun a b : string => String.leb a b = true).
Proof.
  intros a b c Hab Hbc. apply Is_true_true.
  apply (transitivity (R := String.le) (y := b)); now apply Is_true_true.
Qed.

#[local] Instance lexicographic_order_antisymm :
  AntiSymm (=) (fun a b : string => String.leb a b = true).
Proof. intros a b Hab Hba. now apply String.leb_antisym. Qed.


(** Pushing in a [forEach] builds the mapped array. *)
Lemma push_each_map {A B} (f : A -> B) (l : list A) (acc : list B) :
  fold_left (fun keyValues key => keyValues ++ [f key]) l acc = acc ++ List.map f l.
Proof.
  revert acc. induction l as [|x l IH]; intros acc; simpl.
  - now rewrite app_nil_r.
  - rewrite IH, <- app_assoc. reflexivity.
Qed.

Lemma normalize_value_spec v : normalize_value v = spec_normalize v.
Proof.
  unfold spec_normalize.
  destruct v as [| |b|n|t|s|items|fields]; reflexivity.
Qed.

Lemma signature_message_spec data :
  signature_message data = spec_canonical_string data (js_sort (Object_keys data)).
Proof.
  unfold signature_message, spec_canonical_string, js_join.
  rewrite push_each_map. simpl. f_equal.
  apply map_ext. intros k. now rewrite normalize_value_spec.
Qed.

(** ** What verification answers *)

Lemma log_lines_nil w : log_lines w [] = w.
Proof. destruct w. unfold log_lines. simpl. now rewrite app_nil_r. Qed.

Lemma log_lines_app w l1 l2 : log_lines (log_lines w l1) l2 = log_lines w (l1 ++ l2).
Proof. unfold log_lines. simpl. now rewrite app_assoc. Qed.

(** Verification returns a boolean, never throws, and only writes to the
    console. *)
Lemma verify_run env data signature w :
  verifyWebhookSignature env data signature w
  = (Val (signature_valid env data signature),
     log_lines w (verify_console env data signature)).
Proof.
  unfold signature_valid, verify_console, verifyWebhookSignature.
  destruct (negb (env_truthy (PAYOS_CHECKSUM_KEY env)) || negb (truthy data));
    [reflexivity|].
  destruct (env_is (NODE_ENV env) "development"
            && env_is (SKIP_PAYOS_SIGNATURE_VERIFY env) "true"); [reflexivity|].
  destruct signature; try reflexivity.
  unfold try_catch, bind, ret. simpl.
  destruct (String.eqb _ _); simpl; [|reflexivity].
  now rewrite log_lines_nil.
Qed.

Lemma verify_console_only env data signature :
  forallb is_console (verify_console env data signature) = true.
Proof.
  unfold verify_console, verifyWebhookSignature.
  destruct (negb (env_truthy (PAYOS_CHECKSUM_KEY env)) || negb (truthy data));
    [reflexivity|].
  destruct (env_is (NODE_ENV env) "development"
            && env_is (SKIP_PAYOS_SIGNATURE_VERIFY env) "true"); [reflexivity|].
  destruct signature; try reflexivity.
  unfold try_catch, bind, ret. simpl.
  destruct (String.eqb _ _); reflexivity.
Qed.

Ltac console_only :=
  simpl; rewrite ?forallb_app; simpl; rewrite ?verify_console_only; simpl;
  repeat match goal with
         | H : forallb is_console _ = true |- _ => rewrite H
         end;
  simpl; try reflexivity.

Lemma signature_valid_data env data signature :
  signature_valid env data signature = true -> truthy data = true.
Proof.
  unfold signature_valid, verifyWebhookSignature.
  destruct (truthy data); [reflexivity|].
  rewrite orb_true_r. simpl. discriminate.
Qed.







(** ** The PayOS webhook, path by path *)

Arguments signature_valid : simpl never.
Arguments verify_console : simpl never.
Arguments designated_order : simpl never.
Arguments isPaymentSuccess : simpl never.
Arguments is_paid : simpl never.
Arguments mark_paid : simpl never.
Arguments owns : simpl never.

Ltac run_steps :=
  unfold run, run_logging, bind, ret, respond, throw, try_catch, await, effect,
    console_log, console_warn, console_error, order_save, user_save,
    course_save, OrderModel_create, NotificationModel_create,
    OrderModel_findOne, userModel_findById, CourseModel_findById;
  simpl.

(** A request with a body is processed with the signature and the data the
    two first statements read. *)
Lemma payOSWebhook_read env req w :
  nullish (webhook_body req) = false ->
  payOSWebhook env req w
  = run_logging "Webhook error:" 500 (payOSWebhook_process env (request_signature req) (request_data req)) w.
Proof.
  intros Hbody. unfold payOSWebhook, request_signature, request_data, js_or, member.
  destruct req as [header body]; simpl in *.
  destruct body; try discriminate;
    destruct header as [h|]; simpl;
    try destruct (negb (String.eqb h "")); reflexivity.
Qed.

Lemma process_invalid env signature data w :
  truthy data = true -> truthy signature = true ->
  signature_valid env data signature = false ->
  run_logging "Webhook error:" 500 (payOSWebhook_process env signature data) w
  = (Json 401 (error_body "Invalid signature"),
     log_lines w (Console LevelLog "Webhook received:"
                  :: verify_console env data signature
                  ++ [Console LevelError "Invalid webhook signature"])).
Proof.
  intros Hd Hs Hv. unfold payOSWebhook_process. rewrite Hd, Hs. run_steps.
  rewrite verify_run, Hv. simpl. unfold log_lines. simpl.
  repeat rewrite <- app_assoc. reflexivity.
Qed.

Ltac same_world :=
  unfold log_lines, granted_world, grant_effects; simpl;
  repeat rewrite <- app_assoc; simpl; reflexivity.

(** The paths of a delivery whose signature is present and verified. *)
Section VerifiedDelivery.

Context (env : Env) (signature data : JsVal).
Hypothesis Hsignature : truthy signature = true.
Hypothesis Hvalid : signature_valid env data signature = true.

Ltac to_lookup Ho :=
  pose proof (signature_valid_data _ _ _ Hvalid) as Hdata;
  unfold payOSWebhook_process; rewrite Hdata, Hsignature; run_steps;
  rewrite verify_run, Hvalid; simpl;
  unfold designated_order in Ho; rewrite Ho; simpl.

Lemma process_unknown_order w :
  designated_order env data w = None ->
  run_logging "Webhook error:" 500 (payOSWebhook_process env signature data) w
  = (Json 200 (message_body
                 (if isPaymentSuccess data
                  then "Order not found but acknowledged"
                  else "Webhook received (test or unknown order)")),
     log_lines w
       (Console LevelLog "Webhook received:"
        :: verify_console env data signature
        ++ [Console LevelLog "Processing webhook:";
            Console LevelWarn "Order not found for orderCode:"]
        ++ (if isPaymentSuccess data
            then [Console LevelError "Real payment received for non-existent order:"]
            else []))).
Proof.
  intros Ho. to_lookup Ho.
  destruct (isPaymentSuccess data); simpl; f_equal; same_world.
Qed.

Lemma process_already_paid w index o :
  designated_order env data w = Some (index, o) ->
  is_paid o = true ->
  run_logging "Webhook error:" 500 (payOSWebhook_process env signature data) w
  = (Json 200 (message_body "Order already processed"),
     log_lines w
       (Console LevelLog "Webhook received:"
        :: verify_console env data signature
        ++ [Console LevelLog "Processing webhook:"])).
Proof.
  intros Ho Hp. to_lookup Ho. rewrite Hp. f_equal. same_world.
Qed.

Lemma process_not_success w index o :
  designated_order env data w = Some (index, o) ->
  is_paid o = false ->
  isPaymentSuccess data = false ->
  run_logging "Webhook error:" 500 (payOSWebhook_process env signature data) w
  = (Json 200 (JObj [("success", JBool true)]),
     log_lines w
       (Console LevelLog "Webhook received:"
        :: verify_console env data signature
        ++ [Console LevelLog "Processing webhook:"])).
Proof.
  intros Ho Hp Hx. to_lookup Ho. rewrite Hp, Hx. simpl. f_equal. same_world.
Qed.

(** The grant: the Order is saved as PAID, then the course is pushed to the
    user, the mail is handed to the transport without waiting for it, the
    notification is created, the counter is incremented, the sockets are
    notified. *)
Lemma process_grant w index o user_id u c :
  designated_order env data w = Some (index, o) ->
  is_paid o = false ->
  isPaymentSuccess data = true ->
  courses w !! order_courseId o = Some c ->
  order_userId o = Some user_id ->
  users w !! user_id = Some u ->
  owns u (order_courseId o) = false ->
  run_logging "Webhook error:" 500 (payOSWebhook_process env signature data) w
  = (Json 200 (JObj [("success", JBool true)]),
     granted_world env data signature index o user_id u c w).
Proof.
  intros Ho Hp Hx Hc Hu Hu' Hown. to_lookup Ho. rewrite Hp, Hx. simpl.
  rewrite Hc, Hu. simpl. rewrite Hu'. simpl. rewrite Hown. simpl.
  unfold socket_effects, granted_world, grant_effects, socket_effects.
  destruct (sendMail env _ _ _ _), (io_initialized env); simpl; f_equal; f_equal;
    repeat rewrite <- app_assoc; simpl; reflexivity.
Qed.

Lemma process_already_owned w index o user_id u c :
  designated_order env data w = Some (index, o) ->
  is_paid o = false ->
  isPaymentSuccess data = true ->
  courses w !! order_courseId o = Some c ->
  order_userId o = Some user_id ->
  users w !! user_id = Some u ->
  owns u (order_courseId o) = true ->
  run_logging "Webhook error:" 500 (payOSWebhook_process env signature data) w
  = (Json 200 (message_body "Course already added"),
     mkWorld (users w) (courses w) (<[index := mark_paid o]> (orders w))
             (notifications w)
             (trace w ++ Console LevelLog "Webhook received:"
                :: verify_console env data signature
                ++ [Console LevelLog "Processing webhook:";
                    Console LevelLog "User already has this course";
                    OrderSave index (mark_paid o)])).
Proof.
  intros Ho Hp Hx Hc Hu Hu' Hown. to_lookup Ho. rewrite Hp, Hx. simpl.
  rewrite Hc, Hu. simpl. rewrite Hu'. simpl. rewrite Hown. simpl.
  f_equal. f_equal. repeat rewrite <- app_assoc. reflexivity.
Qed.

Lemma process_missing w index o :
  designated_order env data w = Some (index, o) ->
  is_paid o = false ->
  isPaymentSuccess data = true ->
  courses w !! order_courseId o = None
  \/ (order_userId o ≫= fun i => users w !! i) = None ->
  run_logging "Webhook error:" 500 (payOSWebhook_process env signature data) w
  = (Json 404 (error_body "Course or user not found"),
     log_lines w
       (Console LevelLog "Webhook received:"
        :: verify_console env data signature
        ++ [Console LevelLog "Processing webhook:";
            Console LevelError "Course or user not found"])).
Proof.
  intros Ho Hp Hx Hmiss. to_lookup Ho. rewrite Hp, Hx. simpl.
  destruct (courses w !! order_courseId o) as [c|] eqn:Hc;
    destruct (order_userId o) as [uid|] eqn:Hu; simpl in *;
    try destruct (users w !! uid) as [u|] eqn:Hu'; simpl in *;
    try (destruct Hmiss; discriminate);
    f_equal; same_world.
Qed.

End VerifiedDelivery.

(** ** Marking an Order as paid *)

Lemma assoc_obj_set_eq fields key value :
  assoc key (obj_set fields key value) = Some value.
Proof.
  induction fields as [|[k v] fields IH]; simpl.
  - now rewrite String.eqb_refl.
  - destruct (String.eqb k key) eqn:Hk; simpl; rewrite Hk; [reflexivity|apply IH].
Qed.

Lemma assoc_obj_set_ne fields key key' value :
  key <> key' -> assoc key' (obj_set fields key value) = assoc key' fields.
Proof.
  intros Hne. induction fields as [|[k v] fields IH]; simpl.
  - apply String.eqb_neq in Hne. now rewrite Hne.
  - destruct (String.eqb k key) eqn:Hk; simpl.
    + apply String.eqb_eq in Hk. subst k.
      apply String.eqb_neq in Hne. now rewrite Hne.
    + now rewrite IH.
Qed.

Lemma assoc_spread_fields (f : string -> JsVal) fields key :
  (forall v, assoc key fields = Some v -> f key = v) ->
  assoc key (List.map (fun k => (k, f k)) (List.map fst fields)) = assoc key fields.
Proof.
  induction fields as [|[k v] fields IH]; simpl; intros Hf; [reflexivity|].
  destruct (String.eqb k key) eqn:Hk.
  - apply String.eqb_eq in Hk. subst k. f_equal. now apply Hf.
  - apply IH. intros v' Hv'. now apply Hf.
Qed.

(** The decimal rendering of a number is not the name [orderCode]. *)
Lemma string_of_Z_orderCode n : String.eqb (string_of_Z n) "orderCode" = false.
Proof.
  unfold string_of_Z.
  destruct n as [|p|p]; simpl; try reflexivity.
  destruct (Pos.to_uint p); reflexivity.
Qed.

Lemma assoc_indices (f : string -> JsVal) n start :
  assoc "orderCode"
        (List.map (fun k => (k, f k)) (List.map string_of_nat (seq start n))) = None.
Proof.
  revert start. induction n as [|n IH]; intros start; simpl; [reflexivity|].
  unfold string_of_nat at 1. rewrite string_of_Z_orderCode. apply IH.
Qed.

Lemma index_of_orderCode n : index_of_key "orderCode" n = None.
Proof.
  unfold index_of_key. generalize 0%nat.
  induction n as [|n IH]; intros start; simpl; [reflexivity|].
  unfold string_of_nat at 1. rewrite string_of_Z_orderCode. apply IH.
Qed.

(** The spread keeps the order code of the payment. *)
Lemma mark_paid_orderCode o :
  js_get (order_payment_info (mark_paid o)) "orderCode"
  = js_get (order_payment_info o) "orderCode".
Proof.
  unfold mark_paid. simpl.
  rewrite assoc_obj_set_ne by discriminate.
  unfold js_spread.
  destruct (order_payment_info o) as [| |b|n|t|s|items|fields]; simpl;
    try reflexivity.
  - now rewrite assoc_indices, index_of_orderCode.
  - now rewrite assoc_indices, index_of_orderCode.
  - rewrite assoc_spread_fields; [reflexivity|].
    intros v Hv. now rewrite Hv.
Qed.

Lemma mark_paid_is_paid o : is_paid (mark_paid o) = true.
Proof.
  unfold is_paid, mark_paid. simpl. now rewrite assoc_obj_set_eq.
Qed.

Lemma find_index_ge {A} (p : A -> bool) l k i x :
  find_index p l k = Some (i, x) -> (k <= i)%nat.
Proof.
  revert k. induction l as [|a l IH]; intros k; simpl; [discriminate|].
  destruct (p a).
  - intros [= <- _]. lia.
  - intros H. apply IH in H. lia.
Qed.

Lemma find_index_lookup {A} (p : A -> bool) (l : list A) k i x :
  find_index p l k = Some (i, x) -> l !! (i - k)%nat = Some x /\ p x = true.
Proof.
  revert k. induction l as [|a l IH]; intros k; simpl; [discriminate|].
  destruct (p a) eqn:Hp.
  - intros [= <- <-]. now rewrite Nat.sub_diag.
  - intros H. pose proof (find_index_ge _ _ _ _ _ H) as Hge.
    apply IH in H. replace (i - k)%nat with (S (i - S k)) by lia. exact H.
Qed.

Lemma find_index_update {A} (p : A -> bool) (l : list A) k i x x' :
  find_index p l k = Some (i, x) -> p x' = true ->
  find_index p (<[(i - k)%nat := x']> l) k = Some (i, x').
Proof.
  revert k. induction l as [|a l IH]; intros k; simpl; [discriminate|].
  destruct (p a) eqn:Hp.
  - intros [= <- <-] Hx'. rewrite Nat.sub_diag. simpl. now rewrite Hx'.
  - intros H Hx'. pose proof (find_index_ge _ _ _ _ _ H) as Hge.
    replace (i - k)%nat with (S (i - S k)) by lia. simpl. rewrite Hp.
    now apply IH.
Qed.

Lemma designated_lookup env data w index o :
  designated_order env data w = Some (index, o) -> orders w !! index = Some o.
Proof.
  unfold designated_order. intros H. apply find_index_lookup in H as [H _].
  now rewrite Nat.sub_0_r in H.
Qed.

(** Once its Order is marked, a payload designates the marked Order. *)
Lemma designated_after_mark env data w index o us cs ns t :
  designated_order env data w = Some (index, o) ->
  designated_order env data
    (mkWorld us cs (<[index := mark_paid o]> (orders w)) ns t)
  = Some (index, mark_paid o).
Proof.
  unfold designated_order. simpl. intros H.
  pose proof (find_index_lookup _ _ _ _ _ H) as [_ Hq].
  replace index with (index - 0)%nat at 1 by lia.
  apply find_index_update with (x := o); [exact H|].
  now rewrite mark_paid_orderCode.
Qed.

(** ** Counting effects *)

Lemma count_effects_app p l1 l2 :
  count_effects p (l1 ++ l2) = (count_effects p l1 + count_effects p l2)%nat.
Proof. unfold count_effects. now rewrite List.filter_app, List.length_app. Qed.

Lemma count_effects_cons p e l :
  count_effects p (e :: l)
  = ((if p e then 1 else 0) + count_effects p l)%nat.
Proof. unfold count_effects. simpl. now destruct (p e). Qed.

Lemma count_effects_console p lines :
  forallb is_console lines = true ->
  (forall level text, p (Console level text) = false) ->
  count_effects p lines = 0%nat.
Proof.
  intros Hall Hp. unfold count_effects.
  induction lines as [|e lines IH]; simpl in *; [reflexivity|].
  apply andb_true_iff in Hall as [He Hall].
  destruct e; try discriminate. rewrite Hp. now apply IH.
Qed.

Lemma new_effects_app w w' l :
  trace w' = trace w ++ l -> new_effects w w' = l.
Proof.
  unfold new_effects. intros ->. now rewrite drop_app_length.
Qed.

Lemma socket_effects_count env user_id p :
  (forall level text, p (Console level text) = false) ->
  (forall room event, p (SocketEmit room event) = false) ->
  count_effects p (socket_effects env user_id) = 0%nat.
Proof.
  intros Hc Hs. unfold socket_effects, count_effects.
  destruct (io_initialized env); simpl; now rewrite ?Hc, ?Hs.
Qed.

(** Only the five writes of a grant count for a predicate that is false on
    console lines and socket emissions. *)
Lemma grant_effects_count env data signature index o user_id u c p :
  (forall level text, p (Console level text) = false) ->
  (forall room event, p (SocketEmit room event) = false) ->
  count_effects p (grant_effects env data signature index o user_id u c)
  = count_effects p
      [OrderSave index (mark_paid o);
       UserSave user_id (push_course u (order_courseId o));
       MailSend (user_email u) "Order Confirmation"
         (mail_data env (order_courseId o) c (js_get data "amount"));
       NotificationCreate (purchase_notification user_id c);
       CourseSave (order_courseId o) (purchased_once_more c)].
Proof.
  intros Hc Hs. unfold grant_effects. simpl.
  rewrite count_effects_cons, count_effects_app, !count_effects_cons.
  rewrite count_effects_app, !count_effects_cons.
  rewrite socket_effects_count, (count_effects_console p (verify_console _ _ _))
    by (apply verify_console_only || assumption).
  rewrite !Hc. unfold count_effects. simpl. lia.
Qed.

Lemma owns_false_count u courseId :
  owns u courseId = false ->
  count_occ string_dec (user_courses (push_course u courseId)) courseId = 1%nat.
Proof.
  unfold owns, push_course. simpl. intros Hown.
  rewrite count_occ_app. simpl.
  destruct (string_dec courseId courseId) as [_|Hne]; [|contradiction].
  enough (count_occ string_dec (user_courses u) courseId = 0%nat) as -> by reflexivity.
  apply count_occ_not_In. intros Hin.
  assert (existsb (fun c => String.eqb c courseId) (user_courses u) = true) as Hex.
  { apply existsb_exists. exists courseId. split; [assumption|apply String.eqb_refl]. }
  congruence.
Qed.

(** ** Repeated delivery *)

(** Delivering a webhook whose Order is paid only writes to the console,
    however often. *)
Lemma deliver_paid env req n : forall w index o,
  nullish (webhook_body req) = false ->
  truthy (request_signature req) = true ->
  signature_valid env (request_data req) (request_signature req) = true ->
  designated_order env (request_data req) w = Some (index, o) ->
  is_paid o = true ->
  exists lines,
    deliver env req n w = log_lines w lines /\ forallb is_console lines = true.
Proof.
  induction n as [|n IH]; intros w index o Hb Hs Hv Ho Hp; simpl.
  - exists []. now rewrite log_lines_nil.
  - rewrite payOSWebhook_read by assumption.
    rewrite (process_already_paid _ _ _ Hs Hv _ _ _ Ho Hp). simpl.
    destruct (IH (log_lines w
                    (Console LevelLog "Webhook received:"
                     :: verify_console env (request_data req) (request_signature req)
                     ++ [Console LevelLog "Processing webhook:"]))
                 index o Hb Hs Hv Ho Hp) as (lines & -> & Hlines).
    eexists. rewrite log_lines_app. split; [reflexivity|]. console_only.
Qed.

(** Whatever a verified delivery did, delivering the same webhook to the
    resulting world only writes to the console. *)
Lemma redelivery_only_logs env req w :
  nullish (webhook_body req) = false ->
  truthy (request_signature req) = true ->
  signature_valid env (request_data req) (request_signature req) = true ->
  exists lines,
    snd (payOSWebhook env req (snd (payOSWebhook env req w)))
    = log_lines (snd (payOSWebhook env req w)) lines
    /\ forallb is_console lines = true.
Proof.
  intros Hb Hs Hv. rewrite !payOSWebhook_read by assumption.
  destruct (designated_order env (request_data req) w) as [[index o]|] eqn:Ho.
  2:{ rewrite (process_unknown_order _ _ _ Hs Hv w Ho). cbn [snd].
      rewrite (process_unknown_order _ _ _ Hs Hv (log_lines w _) Ho). cbn [snd].
      eexists. split; [reflexivity|].
      destruct (isPaymentSuccess (request_data req)); console_only. }
  destruct (is_paid o) eqn:Hp.
  { rewrite (process_already_paid _ _ _ Hs Hv w _ _ Ho Hp). cbn [snd].
    rewrite (process_already_paid _ _ _ Hs Hv (log_lines w _) _ _ Ho Hp). cbn [snd].
    eexists. split; [reflexivity|]. console_only. }
  destruct (isPaymentSuccess (request_data req)) eqn:Hx.
  2:{ rewrite (process_not_success _ _ _ Hs Hv w _ _ Ho Hp Hx). cbn [snd].
      rewrite (process_not_success _ _ _ Hs Hv (log_lines w _) _ _ Ho Hp Hx).
      cbn [snd]. eexists. split; [reflexivity|]. console_only. }
  destruct (courses w !! order_courseId o) as [c|] eqn:Hc.
  2:{ rewrite (process_missing _ _ _ Hs Hv w _ _ Ho Hp Hx (or_introl Hc)). cbn [snd].
      rewrite (process_missing _ _ _ Hs Hv (log_lines w _) _ _ Ho Hp Hx (or_introl Hc)).
      cbn [snd]. eexists. split; [reflexivity|]. console_only. }
  destruct (order_userId o ≫= fun i => users w !! i) as [u|] eqn:Hu.
  2:{ rewrite (process_missing _ _ _ Hs Hv w _ _ Ho Hp Hx (or_intror Hu)). cbn [snd].
      rewrite (process_missing _ _ _ Hs Hv (log_lines w _) _ _ Ho Hp Hx (or_intror Hu)).
      cbn [snd]. eexists. split; [reflexivity|]. console_only. }
  destruct (order_userId o) as [user_id|] eqn:Hid; [|discriminate]. simpl in Hu.
  pose proof (mark_paid_is_paid o) as Hpaid.
  destruct (owns u (order_courseId o)) eqn:Hown.
  - rewrite (process_already_owned _ _ _ Hs Hv w _ _ _ _ _ Ho Hp Hx Hc Hid Hu Hown).
    cbn [snd].
    rewrite (process_already_paid _ _ _ Hs Hv _ _ _
               (designated_after_mark _ _ _ _ _ _ _ _ _ Ho) Hpaid).
    cbn [snd]. eexists. split; [reflexivity|]. console_only.
  - rewrite (process_grant _ _ _ Hs Hv w _ _ _ _ _ Ho Hp Hx Hc Hid Hu Hown).
    cbn [snd]. unfold granted_world.
    rewrite (process_already_paid _ _ _ Hs Hv _ _ _
               (designated_after_mark _ _ _ _ _ _ _ _ _ Ho) Hpaid).
    cbn [snd]. eexists. split; [reflexivity|]. console_only.
Qed.

(** Any number of deliveries leaves what the first one left, plus console
    lines. *)
Lemma deliver_once env req n : forall w,
  nullish (webhook_body req) = false ->
  truthy (request_signature req) = true ->
  signature_valid env (request_data req) (request_signature req) = true ->
  exists lines,
    deliver env req (S n) w = log_lines (snd (payOSWebhook env req w)) lines
    /\ forallb is_console lines = true.
Proof.
  induction n as [|n IH]; intros w Hb Hs Hv.
  - exists []. simpl. now rewrite log_lines_nil.
  - change (deliver env req (S (S n)) w)
      with (deliver env req (S n) (snd (payOSWebhook env req w))).
    destruct (IH (snd (payOSWebhook env req w)) Hb Hs Hv) as (lines & -> & Hlines).
    destruct (redelivery_only_logs env req w Hb Hs Hv) as (lines' & -> & Hlines').
    exists (lines' ++ lines). rewrite log_lines_app. split; [reflexivity|].
    console_only.
Qed.

(** C2. A PayOS webhook with a valid signature whose payload designates no
    Order, or an Order that is already PAID, is answered 200 and does nothing
    but write to the console. Hence the same success webhook delivered any
    number of times to a pending Order, whose user does not own the course
    yet, transitions the Order to PAID once, increments the purchase counter
    once, creates one notification, and leaves the course once in the courses
    of the user: in the end the status of the Order is "PAID" and the counter
    is one more than it was, counted from zero when it was absent. In every
    case the deliveries after the first only write to the console. *)
Theorem payOSWebhook_idempotent env req w :
  nullish (webhook_body req) = false ->
  truthy (request_signature req) = true ->
  signature_valid env (request_data req) (request_signature req) = true ->
  (forall n, exists lines,
     deliver env req (S n) w = log_lines (snd (payOSWebhook env req w)) lines
     /\ forallb is_console lines = true)
  /\
  (designated_order env (request_data req) w = None
   \/ (exists index o,
         designated_order env (request_data req) w = Some (index, o)
         /\ is_paid o = true) ->
   (exists body, fst (payOSWebhook env req w) = Json 200 body)
   /\ no_side_effects w (snd (payOSWebhook env req w)))
  /\ (forall index o user_id u c n,
        designated_order env (request_data req) w = Some (index, o) ->
        is_paid o = false ->
        isPaymentSuccess (request_data req) = true ->
        courses w !! order_courseId o = Some c ->
        order_userId o = Some user_id ->
        users w !! user_id = Some u ->
        owns u (order_courseId o) = false ->
        let w' := deliver env req (S n) w in
        orders w' = <[index := mark_paid o]> (orders w)
        /\ count_effects is_paid_transition (new_effects w w') = 1%nat
        /\ courses w' = <[order_courseId o := purchased_once_more c]> (courses w)
        /\ count_effects is_course_save (new_effects w w') = 1%nat
        /\ notifications w' = notifications w ++ [purchase_notification user_id c]
        /\ count_effects is_notification (new_effects w w') = 1%nat
        /\ users w' = <[user_id := push_course u (order_courseId o)]> (users w)
        /\ count_occ string_dec
             (user_courses (push_course u (order_courseId o)))
             (order_courseId o) = 1%nat
        /\ course_purchased <$> courses w' !! order_courseId o
           = Some (Some (default 0 (course_purchased c) + 1))
        /\ (fun o' => js_get (order_payment_info o') "status") <$> orders w' !! index
           = Some (JStr "PAID")).
Proof.
  intros Hb Hs Hv. split; [intros n; now apply deliver_once|]. split.
  - intros Hcase. rewrite payOSWebhook_read by assumption.
    destruct Hcase as [Hnone | (index & o & Ho & Hp)].
    + rewrite (process_unknown_order _ _ _ Hs Hv _ Hnone). simpl.
      split; [eauto|]. split; [repeat split|].
      eexists. split; [reflexivity|].
      destruct (isPaymentSuccess (request_data req)); console_only.
    + rewrite (process_already_paid _ _ _ Hs Hv _ _ _ Ho Hp). simpl.
      split; [eauto|]. split; [repeat split|].
      eexists. split; [reflexivity|]. console_only.
  - intros index o user_id u c n Ho Hp Hx Hc Hu Hu' Hown. simpl.
    rewrite payOSWebhook_read by assumption.
    rewrite (process_grant _ _ _ Hs Hv _ _ _ _ _ _ Ho Hp Hx Hc Hu Hu' Hown). simpl.
    destruct (deliver_paid env req n
                (granted_world env (request_data req) (request_signature req)
                   index o user_id u c w)
                index (mark_paid o) Hb Hs Hv
                (designated_after_mark _ _ _ _ _ _ _ _ _ Ho)
                (mark_paid_is_paid o)) as (lines & -> & Hlines).
    assert (Hnew : new_effects w
                     (log_lines
                        (granted_world env (request_data req) (request_signature req)
                           index o user_id u c w) lines)
                   = grant_effects env (request_data req) (request_signature req)
                       index o user_id u c ++ lines).
    { apply new_effects_app. unfold log_lines, granted_world. cbn [trace].
      now rewrite app_assoc. }
    rewrite Hnew.
    rewrite !count_effects_app, !grant_effects_count,
      !(count_effects_console _ lines) by easy.
    unfold count_effects. simpl. rewrite mark_paid_is_paid.
    repeat split; try reflexivity.
    + now apply owns_false_count.
    + rewrite lookup_insert_eq. simpl. do 2 f_equal.
      destruct (course_purchased c) as [purchased|]; simpl; [|reflexivity].
      now destruct (Z.eqb_spec purchased 0) as [->|_].
    + apply designated_lookup, lookup_lt_Some in Ho.
      rewrite list_lookup_insert_eq by assumption. simpl.
      now rewrite assoc_obj_set_eq.
Qed.

(** C4. A PayOS webhook whose signature fails verification is answered 401
    and does nothing but write to the console: no Order is changed, no course
    is granted, no notification is created, no counter is incremented. *)
Theorem payOSWebhook_rejects_invalid_signature env req w :
  nullish (webhook_body req) = false ->
  truthy (request_data req) = true ->
  truthy (request_signature req) = true ->
  signature_valid env (request_data req) (request_signature req) = false ->
  fst (payOSWebhook env req w) = Json 401 (error_body "Invalid signature")
  /\ no_side_effects w (snd (payOSWebhook env req w)).
Proof.
  intros Hb Hd Hs Hv. rewrite payOSWebhook_read by assumption.
  rewrite (process_invalid _ _ _ _ Hd Hs Hv). simpl.
  split; [reflexivity|]. split; [repeat split|].
  eexists. split; [reflexivity|]. console_only.
Qed.

(** ** The order of the grant *)

Lemma find_index_console p lines rest k :
  forallb is_console lines = true ->
  (forall level text, p (Console level text) = false) ->
  find_index p (lines ++ rest) k = find_index p rest (k + List.length lines)%nat.
Proof.
  intros Hall Hp. revert k.
  induction lines as [|e lines IH]; intros k; simpl in *.
  - now rewrite Nat.add_0_r.
  - apply andb_true_iff in Hall as [He Hall].
    destruct e; try discriminate. rewrite Hp, IH by assumption.
    f_equal. lia.
Qed.

(** C9, as the code has it. In the success path of the PayOS webhook, for
    a pending Order whose user does not own the course yet, the Order is
    saved with status PAID first and the course is pushed to the courses of
    the user after it; both have happened when the webhook answers. *)
Theorem payOSWebhook_order_then_entitlement env req w index o user_id u c :
  nullish (webhook_body req) = false ->
  truthy (request_signature req) = true ->
  signature_valid env (request_data req) (request_signature req) = true ->
  designated_order env (request_data req) w = Some (index, o) ->
  is_paid o = false ->
  isPaymentSuccess (request_data req) = true ->
  courses w !! order_courseId o = Some c ->
  order_userId o = Some user_id ->
  users w !! user_id = Some u ->
  owns u (order_courseId o) = false ->
  let w' := snd (payOSWebhook env req w) in
  happens_before is_paid_transition is_user_save (new_effects w w') = true
  /\ happens_before is_user_save is_paid_transition (new_effects w w') = false
  /\ orders w' !! index = Some (mark_paid o)
  /\ users w' !! user_id = Some (push_course u (order_courseId o)).
Proof.
  intros Hb Hs Hv Ho Hp Hx Hc Hu Hu' Hown. simpl.
  rewrite payOSWebhook_read by assumption.
  rewrite (process_grant _ _ _ Hs Hv _ _ _ _ _ _ Ho Hp Hx Hc Hu Hu' Hown). simpl.
  rewrite (new_effects_app w _ (grant_effects env (request_data req)
                                  (request_signature req) index o user_id u c))
    by reflexivity.
  assert (Hfirst : forall p,
             (forall level text, p (Console level text) = false) ->
             first_index p (grant_effects env (request_data req)
                              (request_signature req) index o user_id u c)
             = fst <$> find_index p
                 ([OrderSave index (mark_paid o);
                   UserSave user_id (push_course u (order_courseId o));
                   MailSend (user_email u) "Order Confirmation"
                     (mail_data env (order_courseId o) c
                        (js_get (request_data req) "amount"));
                   NotificationCreate (purchase_notification user_id c);
                   CourseSave (order_courseId o) (purchased_once_more c)]
                  ++ socket_effects env user_id
                  ++ [Console LevelLog "Order processed successfully via webhook"])
                 (2 + List.length (verify_console env (request_data req)
                                     (request_signature req)))%nat).
  { intros p Hpc. unfold first_index, grant_effects. simpl. rewrite Hpc.
    rewrite find_index_console by (apply verify_console_only || exact Hpc).
    simpl. rewrite Hpc. reflexivity. }
  unfold happens_before. rewrite !Hfirst by reflexivity. simpl.
  rewrite mark_paid_is_paid. simpl.
  repeat split.
  - apply Nat.ltb_lt. lia.
  - apply Nat.ltb_ge. lia.
  - apply list_lookup_insert_eq. apply designated_lookup in Ho.
    now apply lookup_lt_Some in Ho.
  - apply lookup_insert_eq.
Qed.

(** ** What counts as a successful payment *)

Lemma is_str_true v lit : is_str v lit = true <-> v = JStr lit.
Proof.
  destruct v; simpl; try (split; [discriminate | intros [=]]).
  rewrite String.eqb_eq. split; [now intros -> | now intros [= ->]].
Qed.

(** C10. A payload counts as a successful payment exactly when its [code] is
    "00", or its [desc] is "success", or its [status] is "PAID". Any one of
    the three is enough for a pending Order to be marked PAID and for its
    user to own the course when the webhook answers; a user who does not own
    it yet is granted it with the notification and the counter. *)
Theorem isPaymentSuccess_any_one_suffices env req w :
  (forall data,
     isPaymentSuccess data = true
     <-> (js_get data "code" = JStr "00" \/ js_get data "desc" = JStr "success"
          \/ js_get data "status" = JStr "PAID"))
  /\ (nullish (webhook_body req) = false ->
      truthy (request_signature req) = true ->
      signature_valid env (request_data req) (request_signature req) = true ->
      forall index o user_id u c,
        designated_order env (request_data req) w = Some (index, o) ->
        is_paid o = false ->
        courses w !! order_courseId o = Some c ->
        order_userId o = Some user_id ->
        users w !! user_id = Some u ->
        (js_get (request_data req) "code" = JStr "00"
         \/ js_get (request_data req) "desc" = JStr "success"
         \/ js_get (request_data req) "status" = JStr "PAID") ->
        let w' := snd (payOSWebhook env req w) in
        orders w' !! index = Some (mark_paid o)
        /\ is_paid (mark_paid o) = true
        /\ (exists u', users w' !! user_id = Some u'
                       /\ owns u' (order_courseId o) = true)
        /\ (owns u (order_courseId o) = false ->
            w' = granted_world env (request_data req) (request_signature req)
                   index o user_id u c w)).
Proof.
  assert (Hiff : forall data,
             isPaymentSuccess data = true
             <-> (js_get data "code" = JStr "00"
                  \/ js_get data "desc" = JStr "success"
                  \/ js_get data "status" = JStr "PAID")).
  { intros data. unfold isPaymentSuccess.
    rewrite !orb_true_iff, !is_str_true. tauto. }
  split; [exact Hiff|].
  intros Hb Hs Hv index o user_id u c Ho Hp Hc Hu Hu' Hany. simpl.
  apply Hiff in Hany as Hx.
  assert (Hlen : (index < List.length (orders w))%nat).
  { apply designated_lookup in Ho. now apply lookup_lt_Some in Ho. }
  rewrite payOSWebhook_read by assumption.
  destruct (owns u (order_courseId o)) eqn:Hown.
  - rewrite (process_already_owned _ _ _ Hs Hv _ _ _ _ _ _
               Ho Hp Hx Hc Hu Hu' Hown). simpl.
    split; [now apply list_lookup_insert_eq|].
    split; [apply mark_paid_is_paid|].
    split; [eauto|discriminate].
  - rewrite (process_grant _ _ _ Hs Hv _ _ _ _ _ _ Ho Hp Hx Hc Hu Hu' Hown). simpl.
    split; [now apply list_lookup_insert_eq|].
    split; [apply mark_paid_is_paid|].
    split; [|reflexivity].
    exists (push_course u (order_courseId o)).
    split; [apply lookup_insert_eq|].
    unfold owns, push_course. simpl. rewrite existsb_app. simpl.
    now rewrite String.eqb_refl, orb_true_r.
Qed.

(** ** Paid Orders stay paid *)

Lemma keeps_paid_same w w' : orders w' = orders w -> keeps_paid w w'.
Proof. intros H i o Hi _. now rewrite H. Qed.

Lemma keeps_paid_create w w' o' : orders w' = orders w ++ [o'] -> keeps_paid w w'.
Proof. intros H i o Hi _. rewrite H. now apply lookup_app_l_Some. Qed.

Lemma keeps_paid_mark w w' index existing o' p k :
  find_index p (orders w) k = Some (index, existing) ->
  is_paid existing = false ->
  orders w' = <[(index - k)%nat := o']> (orders w) ->
  keeps_paid w w'.
Proof.
  intros Hfind Hp H i o Hi Hpaid. rewrite H.
  apply find_index_lookup in Hfind as [Hlook _].
  rewrite list_lookup_insert_ne; [assumption|].
  intros <-. congruence.
Qed.

Ltac keeps_paid_leaf :=
  first [ apply keeps_paid_same; reflexivity
        | eapply keeps_paid_create; reflexivity
        | eapply keeps_paid_mark;
          [eassumption | eassumption | simpl; rewrite ?Nat.sub_0_r; reflexivity] ].

(** Case analysis on a test whose subject contains no other test. *)
Ltac case_inner :=
  match goal with
  | |- context [match ?x with _ => _ end] =>
      lazymatch x with
      | context [match _ with _ => _ end] => fail
      | _ => destruct x eqn:?
      end
  end.

Ltac explore leaf :=
  repeat (simpl; first [ leaf | case_inner ]).

Lemma payOSWebhook_process_keeps_paid env signature data w :
  keeps_paid w (snd (run_logging "Webhook error:" 500 (payOSWebhook_process env signature data) w)).
Proof.
  unfold payOSWebhook_process. run_steps.
  destruct (negb (truthy data) || negb (truthy signature)); simpl;
    [keeps_paid_leaf|].
  rewrite verify_run. simpl.
  explore keeps_paid_leaf.
Qed.

Lemma payOSWebhook_keeps_paid env req w :
  keeps_paid w (snd (payOSWebhook env req w)).
Proof.
  destruct (nullish (webhook_body req)) eqn:Hb.
  - unfold payOSWebhook, member. destruct req as [header body]. simpl in *.
    destruct body; try discriminate; run_steps;
      destruct header as [h|]; explore keeps_paid_leaf.
  - rewrite payOSWebhook_read by assumption.
    apply payOSWebhook_process_keeps_paid.
Qed.

Lemma createPayOSPayment_keeps_paid env req w :
  keeps_paid w (snd (createPayOSPayment env req w)).
Proof.
  unfold createPayOSPayment, createPayOSSignature, member. run_steps.
  explore keeps_paid_leaf.
Qed.

Lemma createCheckoutSession_keeps_paid env req w :
  keeps_paid w (snd (createCheckoutSession env req w)).
Proof.
  unfold createCheckoutSession. run_steps. explore keeps_paid_leaf.
Qed.

Lemma stripeWebhook_keeps_paid env req w :
  keeps_paid w (snd (stripeWebhook env req w)).
Proof.
  unfold stripeWebhook. run_steps. explore keeps_paid_leaf.
Qed.

Lemma createOrder_keeps_paid env req w :
  keeps_paid w (snd (createOrder env req w)).
Proof.
  unfold createOrder, newOrder, js_in. run_steps. explore keeps_paid_leaf.
Qed.

(** C3. Whatever requests the subsystem handles afterwards (webhooks for
    the same or another payment, synchronous confirmations, new payment
    requests), an Order whose status is PAID stays that Order: its status is
    PAID and neither PENDING nor FAILED. *)
Theorem paid_order_never_regresses env ops w i o :
  orders w !! i = Some o ->
  is_paid o = true ->
  orders (handle_all env ops w) !! i = Some o
  /\ js_get (order_payment_info o) "status" = JStr "PAID"
  /\ js_get (order_payment_info o) "status" <> JStr "PENDING"
  /\ js_get (order_payment_info o) "status" <> JStr "FAILED".
Proof.
  intros Hi Hp.
  assert (Hstatus : js_get (order_payment_info o) "status" = JStr "PAID").
  { unfold is_paid in Hp. apply andb_true_iff in Hp as [_ Hp].
    now apply is_str_true. }
  split; [|rewrite Hstatus; repeat split; discriminate].
  revert w Hi. induction ops as [|op ops IH]; intros w Hi; simpl; [assumption|].
  apply IH.
  assert (Hkeep : keeps_paid w (snd (handle env op w))).
  { destruct op; simpl.
    - apply createPayOSPayment_keeps_paid.
    - apply payOSWebhook_keeps_paid.
    - apply createOrder_keeps_paid.
    - apply createCheckoutSession_keeps_paid.
    - apply stripeWebhook_keeps_paid. }
  now apply Hkeep.
Qed.

(** ** Requests for a course the user owns *)

(** C7. A request to create a PayOS payment or a Stripe checkout session
    for a course its user already owns never reaches the payment provider,
    changes nothing and is answered with an error; when the request names the
    course and the amount (and, for PayOS, the credentials are configured)
    the error is 400 "You already purchased this course". *)
Theorem owned_course_is_not_sold_again env req w user_id u courseId :
  intent_user req = Some user_id ->
  users w !! user_id = Some u ->
  intent_courseId req = Some courseId ->
  owns u courseId = true ->
  (snd (createPayOSPayment env req w) = w
   /\ snd (createCheckoutSession env req w) = w
   /\ count_effects is_provider_call
        (new_effects w (snd (createPayOSPayment env req w))) = 0%nat
   /\ count_effects is_provider_call
        (new_effects w (snd (createCheckoutSession env req w))) = 0%nat)
  /\ ((exists message code,
         fst (createPayOSPayment env req w) = NextError message code)
      /\ (exists message code,
            fst (createCheckoutSession env req w) = NextError message code))
  /\ (courseId <> "" ->
      num_truthy (intent_amount req) = true ->
      is_Some (courses w !! courseId) ->
      fst (createCheckoutSession env req w)
      = NextError (JStr "You already purchased this course") 400
      /\ (env_truthy (PAYOS_CLIENT_ID env) = true ->
          env_truthy (PAYOS_API_KEY env) = true ->
          fst (createPayOSPayment env req w)
          = NextError (JStr "You already purchased this course") 400)).
Proof.
  intros Hiu Hu Hic Hown.
  assert (Hpay : snd (createPayOSPayment env req w) = w).
  { unfold createPayOSPayment. run_steps. rewrite Hiu, Hic.
    explore ltac:(first [reflexivity | rewrite Hu | rewrite Hown]). }
  assert (Hcheckout : snd (createCheckoutSession env req w) = w).
  { unfold createCheckoutSession. run_steps. rewrite Hiu, Hic.
    explore ltac:(first [reflexivity | rewrite Hu | rewrite Hown]). }
  split; [|split].
  - rewrite Hpay, Hcheckout. unfold new_effects. rewrite drop_all.
    repeat split; reflexivity.
  - split.
    + unfold createPayOSPayment. run_steps. rewrite Hiu, Hic.
      explore ltac:(first [by eauto | rewrite Hu | rewrite Hown]).
    + unfold createCheckoutSession. run_steps. rewrite Hiu, Hic.
      explore ltac:(first [by eauto | rewrite Hu | rewrite Hown]).
  - intros Hne Hamount [c Hc].
    apply String.eqb_neq in Hne.
    split.
    + unfold createCheckoutSession. run_steps.
      rewrite Hiu, Hic, Hamount. simpl. rewrite Hne. simpl. rewrite Hc. simpl.
      rewrite Hu. simpl. now rewrite Hown.
    + intros Hid Hkey. unfold createPayOSPayment. run_steps.
      rewrite Hiu, Hic, Hamount, Hid, Hkey. simpl. rewrite Hne. simpl.
      rewrite Hc. simpl. rewrite Hu. simpl. now rewrite Hown.
Qed.

(** ** The synchronous confirmation *)

Arguments order_of_intent : simpl never.

Ltac effects_leaf :=
  apply new_effects_app; simpl; rewrite <- ?app_assoc; simpl; reflexivity.

(** The decimal rendering of a number is not the name [id]. *)
Lemma string_of_Z_id n : String.eqb (string_of_Z n) "id" = false.
Proof.
  unfold string_of_Z.
  destruct n as [|p|p]; simpl; try reflexivity.
  destruct (Pos.to_uint p); reflexivity.
Qed.

Lemma index_of_id n : index_of_key "id" n = None.
Proof.
  unfold index_of_key. generalize 0%nat.
  induction n as [|n IH]; intros start; simpl; [reflexivity|].
  unfold string_of_nat at 1. rewrite string_of_Z_id. apply IH.
Qed.

(** A confirmation whose payment object carries no [id] calls no provider. *)
Lemma createOrder_without_id env req w :
  carries_id (order_req_payment_info req) = false ->
  count_effects is_provider_call (new_effects w (snd (createOrder env req w))) = 0%nat.
Proof.
  intros Hno. unfold createOrder, newOrder, js_in. run_steps.
  destruct (order_req_payment_info req) as [| |b|n|t|s|items|fields];
    simpl in Hno; simpl; rewrite ?index_of_id, ?Hno; simpl;
    explore ltac:(erewrite new_effects_app
                    by (simpl; rewrite <- ?app_assoc; simpl; reflexivity);
                  reflexivity).
Qed.

(** C1, as the code has it. When the [payment_info] of a confirmation
    request carries an [id] that has no Order yet, the PaymentIntent is
    retrieved from Stripe before anything else is done. When its status is
    not "succeeded" the request fails with 400 "Payment not authorized", and
    when the retrieval throws it fails with 400 and the thrown message; in
    both cases no course is added, no Order is created, no notification is
    created and no counter is incremented. A request whose [payment_info]
    carries no [id] is processed without any call to a provider. *)
Theorem createOrder_verifies_identified_payment env req w :
  let w' := snd (createOrder env req w) in
  (forall fields id,
     order_req_payment_info req = JObj fields ->
     assoc "id" fields = Some id ->
     order_of_intent env id w = None ->
     (exists rest,
        new_effects w w'
        = [Console LevelLog "courseId"; Console LevelLog "payment_info";
           StripeRetrieve id] ++ rest)
     /\ (forall status,
           stripe_paymentIntents_retrieve env id = Ok status ->
           status <> JStr "succeeded" ->
           fst (createOrder env req w) = NextError (JStr "Payment not authorized") 400
           /\ same_store w w'
           /\ new_effects w w'
              = [Console LevelLog "courseId"; Console LevelLog "payment_info";
                 StripeRetrieve id; Console LevelLog "paymentIntent.status"])
     /\ (forall message,
           stripe_paymentIntents_retrieve env id = Thrown message ->
           fst (createOrder env req w) = NextError (JStr message) 400
           /\ same_store w w'
           /\ new_effects w w'
              = [Console LevelLog "courseId"; Console LevelLog "payment_info";
                 StripeRetrieve id]))
  /\ (carries_id (order_req_payment_info req) = false ->
      count_effects is_provider_call (new_effects w w') = 0%nat).
Proof.
  simpl. split; [|apply createOrder_without_id].
  intros fields id Hpi Hid Hnone. unfold order_of_intent in Hnone.
  split; [|split].
  - unfold createOrder, newOrder, js_in. run_steps.
    rewrite Hpi. simpl. rewrite Hid. simpl. rewrite Hnone. simpl.
    explore ltac:(eexists; effects_leaf).
  - intros status Hstatus Hne.
    assert (Hno : is_str status "succeeded" = false).
    { destruct (is_str status "succeeded") eqn:E; [|reflexivity].
      apply is_str_true in E. contradiction. }
    unfold createOrder, newOrder, js_in. run_steps.
    rewrite Hpi. simpl. rewrite Hid. simpl. rewrite Hnone. simpl.
    rewrite Hstatus. simpl. rewrite Hno. simpl.
    split; [reflexivity|]. split; [repeat split|]. effects_leaf.
  - intros message Hthrown.
    unfold createOrder, newOrder, js_in. run_steps.
    rewrite Hpi. simpl. rewrite Hid. simpl. rewrite Hnone. simpl.
    rewrite Hthrown. simpl.
    split; [reflexivity|]. split; [repeat split|]. effects_leaf.
Qed.

(** ** The confirmation mail *)

Lemma payOSWebhook_mail_isolated : mail_isolated payOSWebhook.
Proof.
  intros env transport req w.
  destruct (nullish (webhook_body req)) eqn:Hb.
  - unfold payOSWebhook, member. destruct req as [header body]. simpl in *.
    destruct body; try discriminate; run_steps;
      destruct header as [h|]; explore ltac:(reflexivity).
  - rewrite !payOSWebhook_read by assumption.
    unfold payOSWebhook_process. run_steps.
    destruct (negb (truthy (request_data req))
              || negb (truthy (request_signature req))); simpl; [reflexivity|].
    rewrite !verify_run.
    change (signature_valid (with_sendMail env transport))
      with (signature_valid env).
    change (verify_console (with_sendMail env transport))
      with (verify_console env).
    simpl. explore ltac:(reflexivity).
Qed.

Lemma stripeWebhook_mail_isolated : mail_isolated stripeWebhook.
Proof.
  intros env transport req w. unfold stripeWebhook. run_steps.
  explore ltac:(reflexivity).
Qed.

Ltac mail_leaf Hdown :=
  first
    [ rewrite Hdown
    | split;
      [ repeat split
      | erewrite new_effects_app
          by (simpl; rewrite <- ?app_assoc; simpl; reflexivity);
        simpl; intros; first [discriminate | reflexivity] ] ].

(** With the mail transport down, the synchronous confirmation of an
    existing user changes no collection, and once it has tried to send the
    mail it answers with error 500. *)
Lemma createOrder_transport_down env req w message user_id u :
  transport_down env message ->
  order_req_user req = Some user_id ->
  users w !! user_id = Some u ->
  same_store w (snd (createOrder env req w))
  /\ (existsb is_mail_send (new_effects w (snd (createOrder env req w))) = true ->
      fst (createOrder env req w) = NextError (JStr message) 500).
Proof.
  intros Hdown Hiu Hu. unfold transport_down in Hdown.
  unfold createOrder, newOrder, js_in. run_steps. rewrite Hiu. simpl.
  explore ltac:(first [rewrite Hu | mail_leaf Hdown]).
Qed.

(** ** The purchase counter *)

Lemma set_purchased_same c :
  course_purchased c = None \/ course_purchased c = Some 0 ->
  set_purchased c (createOrder_purchased (course_purchased c)) = c.
Proof.
  destruct c as [name desc price purchased]. unfold set_purchased. simpl.
  intros [-> | ->]; reflexivity.
Qed.

Lemma counter_saved_as_it_was (cs : gmap string Course) id c courseId j c0 :
  cs !! id = Some c ->
  course_purchased c = None \/ course_purchased c = Some 0 ->
  (courseId ≫= fun i => (fun c => (i, c)) <$> cs !! i) = Some (j, c0) ->
  <[j := set_purchased c0 (createOrder_purchased (course_purchased c0))]> cs !! id
  = Some c.
Proof.
  intros Hc Hzero Hfound.
  destruct courseId as [i|]; [simpl in Hfound|discriminate].
  apply fmap_Some in Hfound as (c' & Hi & Heq).
  injection Heq as -> ->.
  destruct (decide (i = id)) as [->|Hne].
  - rewrite lookup_insert_eq. rewrite Hc in Hi. injection Hi as <-.
    now rewrite set_purchased_same.
  - now rewrite lookup_insert_ne.
Qed.

(** Whatever the synchronous confirmation does, a course whose counter is
    absent or zero is the same course afterwards. *)
Lemma createOrder_counter_absent_or_zero env req w id c :
  courses w !! id = Some c ->
  course_purchased c = None \/ course_purchased c = Some 0 ->
  courses (snd (createOrder env req w)) !! id = Some c.
Proof.
  intros Hc Hzero. unfold createOrder, newOrder, js_in. run_steps.
  explore ltac:(first
    [ assumption | discriminate
    | eapply counter_saved_as_it_was; eassumption
    | eapply (counter_saved_as_it_was _ _ _ (Some _)); eassumption ]).
Qed.

(** The webhooks count from zero when the counter is absent or zero. *)
Lemma purchased_once_more_from_nothing c :
  course_purchased c = None \/ course_purchased c = Some 0 ->
  course_purchased (purchased_once_more c) = Some 1.
Proof. intros [H | H]; unfold purchased_once_more; simpl; now rewrite H. Qed.

Lemma purchased_once_more_counts c n :
  course_purchased c = Some n ->
  course_purchased (purchased_once_more c) = Some (n + 1).
Proof.
  intros H. unfold purchased_once_more. simpl. rewrite H. simpl.
  destruct (Z.eqb_spec n 0) as [->|]; reflexivity.
Qed.

(** ** Alterations the signature does not see *)

(** The signed message normalizes values: a field altered from [null] to the
    string "null", or from a number to its decimal string, is signed as
    before. *)
Lemma signature_message_normalizes :
  signature_message (JObj [("amount", JNum 49000); ("reference", JNull)])
  = signature_message (JObj [("amount", JStr "49000"); ("reference", JStr "null")]).
Proof. reflexivity. Qed.

(** A number is signed as JavaScript renders it: an amount of 10^21 as
    [1e+21], a fee of one half as [0.5]. *)
Lemma signature_message_of_numbers :
  js_value (JObj [("amount", JFloat "1e+21"); ("fee", JFloat "0.5");
                  ("orderCode", JNum 7)]) = true
  /\ js_value (JObj [("amount", JNum (10 ^ 21)); ("orderCode", JNum 7)]) = false
  /\ signature_message (JObj [("amount", JFloat "1e+21"); ("fee", JFloat "0.5");
                              ("orderCode", JNum 7)])
     = "amount=1e+21&fee=0.5&orderCode=7".
Proof. repeat split; reflexivity. Qed.

(** ** The properties on the concrete deployment *)

(** C1, as stated, fails: a confirmation whose payment object carries no
    [id] is granted without any call to the provider, which here reports
    "requires_payment_method" for every PaymentIntent. The course is added,
    the Order is created, the request succeeds. *)
Lemma createOrder_grants_without_verification :
  let env := demo_env true "requires_payment_method" in
  let w' := snd (createOrder env demo_confirmation_without_id demo_world) in
  fst (createOrder env demo_confirmation_without_id demo_world)
  = order_response 201
      (mkOrder "c1" (Some "u1") (JObj [("status", JStr "succeeded")]))
  /\ users w' !! "u1" = Some (mkUser "buyer@example.org" ["c1"])
  /\ orders w'
     = [demo_order; mkOrder "c1" (Some "u1") (JObj [("status", JStr "succeeded")])]
  /\ count_effects is_provider_call (new_effects demo_world w') = 0%nat.
Proof. vm_compute. repeat split; reflexivity. Qed.

(** C5. With the mail transport down, the synchronous confirmation of a
    payment that Stripe reports as succeeded fails with error 500 and grants
    nothing: the user does not get the course, no Order and no notification
    are created and the counter is as before, while the same request is
    granted when the transport works. On the same deployment, with the
    transport down, the PayOS webhook and the Stripe webhook are answered as
    usual and grant the course. *)
Theorem createOrder_mail_failure_prevents_grant :
  let env := demo_env false "succeeded" in
  let w' := snd (createOrder env demo_confirmation demo_world) in
  let payos := snd (payOSWebhook env demo_webhook demo_world) in
  let stripe := snd (stripeWebhook env demo_stripe_request demo_world) in
  sendMail env "buyer@example.org" "Order Confirmation" "order-confirmation.ejs"
    (confirmation_mail env "c1" demo_course) = Thrown "SMTP down"
  /\ fst (createOrder env demo_confirmation demo_world)
     = NextError (JStr "SMTP down") 500
  /\ users w' !! "u1" = Some demo_user
  /\ courses w' !! "c1" = Some demo_course
  /\ orders w' = [demo_order]
  /\ notifications w' = []
  /\ fst (createOrder (demo_env true "succeeded") demo_confirmation demo_world)
     = order_response 201 (mkOrder "c1" (Some "u1") (JObj [("id", JStr "pi_1")]))
  /\ fst (payOSWebhook env demo_webhook demo_world)
     = Json 200 (JObj [("success", JBool true)])
  /\ users payos !! "u1" = Some (push_course demo_user "c1")
  /\ orders payos = [mark_paid demo_order]
  /\ notifications payos = [purchase_notification "u1" demo_course]
  /\ course_purchased <$> courses payos !! "c1" = Some (Some 1)
  /\ fst (stripeWebhook env demo_stripe_request demo_world) = received
  /\ users stripe !! "u1" = Some (push_course demo_user "c1")
  /\ orders stripe = [demo_order; session_order demo_event "c1" "u1"]
  /\ notifications stripe = [purchase_notification "u1" demo_course]
  /\ course_purchased <$> courses stripe !! "c1" = Some (Some 1).
Proof. vm_compute. repeat split; reflexivity. Qed.

(** C6 on the code: a confirmed purchase through [createOrder] of a course
    whose counter is zero creates the Order and grants the course, and the
    counter is still zero afterwards; the PayOS webhook on the same course
    makes it one. *)
Theorem createOrder_leaves_zero_counter :
  let env := demo_env true "succeeded" in
  let w' := snd (createOrder env demo_confirmation demo_world) in
  course_purchased <$> courses demo_world !! "c1" = Some (Some 0)
  /\ fst (createOrder env demo_confirmation demo_world)
     = order_response 201 (mkOrder "c1" (Some "u1") (JObj [("id", JStr "pi_1")]))
  /\ users w' !! "u1" = Some (mkUser "buyer@example.org" ["c1"])
  /\ course_purchased <$> courses w' !! "c1" = Some (Some 0)
  /\ course_purchased
       <$> courses (snd (payOSWebhook env demo_webhook demo_world)) !! "c1"
     = Some (Some 1).
Proof. vm_compute. repeat split; reflexivity. Qed.

(** C9, as stated, fails: on a pending Order whose user does not own the
    course, the webhook saves the Order as PAID before it saves the user with
    the course. *)
Lemma payOSWebhook_marks_order_before_granting :
  let env := demo_env true "succeeded" in
  let w' := snd (payOSWebhook env demo_webhook demo_world) in
  designated_order env (request_data demo_webhook) demo_world = Some (0%nat, demo_order)
  /\ is_paid demo_order = false
  /\ owns demo_user "c1" = false
  /\ happens_before is_user_save is_paid_transition (new_effects demo_world w') = false
  /\ first_index is_paid_transition (new_effects demo_world w') = Some 2%nat
  /\ first_index is_user_save (new_effects demo_world w') = Some 3%nat.
Proof. vm_compute. repeat split; reflexivity. Qed.


(** Three deliveries of the demo webhook. *)
Lemma payOSWebhook_idempotent_witness :
  let env := demo_env true "succeeded" in
  let w' := deliver env demo_webhook 3 demo_world in
  orders w' = <[0%nat := mark_paid demo_order]> (orders demo_world)
  /\ count_effects is_paid_transition (new_effects demo_world w') = 1%nat
  /\ courses w'
     = <[order_courseId demo_order := purchased_once_more demo_course]>
         (courses demo_world)
  /\ count_effects is_course_save (new_effects demo_world w') = 1%nat
  /\ notifications w'
     = notifications demo_world ++ [purchase_notification "u1" demo_course]
  /\ count_effects is_notification (new_effects demo_world w') = 1%nat
  /\ users w'
     = <["u1" := push_course demo_user (order_courseId demo_order)]>
         (users demo_world)
  /\ count_occ string_dec
       (user_courses (push_course demo_user (order_courseId demo_order)))
       (order_courseId demo_order) = 1%nat
  /\ course_purchased <$> courses w' !! "c1" = Some (Some 1)
  /\ (fun o' => js_get (order_payment_info o') "status") <$> orders w' !! 0%nat
     = Some (JStr "PAID").
Proof.
  destruct (payOSWebhook_idempotent (demo_env true "succeeded") demo_webhook
              demo_world eq_refl eq_refl eq_refl) as (_ & _ & H).
  apply (H 0%nat demo_order "u1" demo_user demo_course 2%nat); reflexivity.
Defined.

(** A paid Order through a cancellation webhook, a confirmation and a
    success webhook. *)
Lemma paid_order_never_regresses_witness :
  orders (handle_all (demo_env true "succeeded")
            [OpPayOSWebhook demo_webhook_cancelled;
             OpCreateOrder demo_confirmation;
             OpPayOSWebhook demo_webhook]
            demo_world_paid) !! 0%nat = Some (mark_paid demo_order)
  /\ js_get (order_payment_info (mark_paid demo_order)) "status" = JStr "PAID"
  /\ js_get (order_payment_info (mark_paid demo_order)) "status" <> JStr "PENDING"
  /\ js_get (order_payment_info (mark_paid demo_order)) "status" <> JStr "FAILED".
Proof.
  apply (paid_order_never_regresses (demo_env true "succeeded")
           [OpPayOSWebhook demo_webhook_cancelled;
            OpCreateOrder demo_confirmation;
            OpPayOSWebhook demo_webhook]
           demo_world_paid 0%nat (mark_paid demo_order)); reflexivity.
Defined.

(** The demo payload with a signature that is not its HMAC. *)
Lemma payOSWebhook_rejects_invalid_signature_witness :
  fst (payOSWebhook (demo_env true "succeeded") demo_webhook_forged demo_world)
  = Json 401 (error_body "Invalid signature")
  /\ no_side_effects demo_world
       (snd (payOSWebhook (demo_env true "succeeded") demo_webhook_forged demo_world)).
Proof.
  apply payOSWebhook_rejects_invalid_signature; reflexivity.
Defined.

(** The owner of the demo course asks to pay for it again. *)
Lemma owned_course_is_not_sold_again_witness :
  fst (createCheckoutSession (demo_env true "succeeded") demo_intent demo_world_owned)
  = NextError (JStr "You already purchased this course") 400
  /\ fst (createPayOSPayment (demo_env true "succeeded") demo_intent demo_world_owned)
     = NextError (JStr "You already purchased this course") 400
  /\ snd (createPayOSPayment (demo_env true "succeeded") demo_intent demo_world_owned)
     = demo_world_owned.
Proof.
  destruct (owned_course_is_not_sold_again (demo_env true "succeeded") demo_intent
              demo_world_owned "u1" (mkUser "buyer@example.org" ["c1"]) "c1"
              eq_refl eq_refl eq_refl eq_refl) as ([Hsame _] & _ & Hrefused).
  destruct Hrefused as [Hstripe Hpayos];
    [discriminate | reflexivity | eexists; reflexivity |].
  split; [exact Hstripe|]. split; [apply Hpayos; reflexivity | exact Hsame].
Defined.

(** A payload that only says [desc = "success"]. *)
Lemma isPaymentSuccess_any_one_suffices_witness :
  js_get (request_data demo_webhook_desc_only) "code" = JStr "01"
  /\ js_get (request_data demo_webhook_desc_only) "status" = JStr "CANCELLED"
  /\ snd (payOSWebhook (demo_env true "succeeded") demo_webhook_desc_only demo_world)
     = granted_world (demo_env true "succeeded")
         (request_data demo_webhook_desc_only)
         (request_signature demo_webhook_desc_only)
         0%nat demo_order "u1" demo_user demo_course demo_world.
Proof.
  split; [reflexivity|]. split; [reflexivity|].
  destruct (isPaymentSuccess_any_one_suffices (demo_env true "succeeded")
              demo_webhook_desc_only demo_world) as [_ H].
  destruct (H eq_refl eq_refl eq_refl 0%nat demo_order "u1" demo_user demo_course
              eq_refl eq_refl eq_refl eq_refl eq_refl
              (or_intror (or_introl eq_refl))) as (_ & _ & _ & Hgrant).
  apply Hgrant. reflexivity.
Defined.

(** The demo webhook: Order first, user second. *)
Lemma payOSWebhook_order_then_entitlement_witness :
  let env := demo_env true "succeeded" in
  let w' := snd (payOSWebhook env demo_webhook demo_world) in
  happens_before is_paid_transition is_user_save (new_effects demo_world w') = true
  /\ happens_before is_user_save is_paid_transition (new_effects demo_world w') = false
  /\ orders w' !! 0%nat = Some (mark_paid demo_order)
  /\ users w' !! "u1" = Some (push_course demo_user (order_courseId demo_order)).
Proof.
  apply (payOSWebhook_order_then_entitlement (demo_env true "succeeded")
           demo_webhook demo_world 0%nat demo_order "u1" demo_user demo_course);
    reflexivity.
Defined.

(** A confirmation with an id the provider does not report as succeeded,
    and one without an id. *)
Lemma createOrder_verifies_identified_payment_witness :
  let env := demo_env true "requires_payment_method" in
  fst (createOrder env demo_confirmation demo_world)
  = NextError (JStr "Payment not authorized") 400
  /\ same_store demo_world (snd (createOrder env demo_confirmation demo_world))
  /\ count_effects is_provider_call
       (new_effects demo_world
          (snd (createOrder env demo_confirmation_without_id demo_world))) = 0%nat.
Proof.
  destruct (createOrder_verifies_identified_payment
              (demo_env true "requires_payment_method") demo_confirmation demo_world)
    as (Hwith & _).
  destruct (Hwith [("id", JStr "pi_1")] (JStr "pi_1") eq_refl eq_refl eq_refl)
    as (_ & H & _).
  destruct (H (JStr "requires_payment_method") eq_refl) as (Hr & Hs & _);
    [discriminate|].
  destruct (createOrder_verifies_identified_payment
              (demo_env true "requires_payment_method")
              demo_confirmation_without_id demo_world) as (_ & Hwithout).
  split; [exact Hr|]. split; [exact Hs | apply Hwithout; reflexivity].
Defined.

(** * More of the controllers *)

(** ** Order codes *)

(** X1. With a random part in [0, 1000), an order code is the second of
    its creation times 1000 plus the random part: both are read back from it,
    it is positive from the first second on, and two codes are equal exactly
    when they were generated in the same second with the same random part. *)
Theorem generateOrderCode_unique env1 env2 :
  0 <= Math_random_1000 env1 < 1000 ->
  0 <= Math_random_1000 env2 < 1000 ->
  generateOrderCode env1 / 1000 = Date_now env1 / 1000
  /\ generateOrderCode env1 mod 1000 = Math_random_1000 env1
  /\ (1000 <= Date_now env1 -> 0 < generateOrderCode env1)
  /\ (generateOrderCode env1 = generateOrderCode env2
      <-> Date_now env1 / 1000 = Date_now env2 / 1000
          /\ Math_random_1000 env1 = Math_random_1000 env2).
Proof.
  intros H1 H2. unfold generateOrderCode.
  assert (Hdiv : forall a r, 0 <= r < 1000 -> (a * 1000 + r) / 1000 = a).
  { intros a r Hr. symmetry. apply (Z.div_unique _ _ a r); lia. }
  assert (Hmod : forall a r, 0 <= r < 1000 -> (a * 1000 + r) mod 1000 = r).
  { intros a r Hr. symmetry. apply (Z.mod_unique _ _ a r); lia. }
  split; [now apply Hdiv|]. split; [now apply Hmod|]. split.
  - intros Hnow.
    assert (1 <= Date_now env1 / 1000) by (apply Z.div_le_lower_bound; lia).
    lia.
  - split.
    + intros Heq. split.
      * rewrite <- (Hdiv (Date_now env1 / 1000) (Math_random_1000 env1)) by assumption.
        rewrite Heq. now apply Hdiv.
      * rewrite <- (Hmod (Date_now env1 / 1000) (Math_random_1000 env1)) by assumption.
        rewrite Heq. now apply Hmod.
    + intros [-> ->]. reflexivity.
Qed.

(** ** The description sent to PayOS *)

Section CodeUnitsFacts.

Context {U : Type} (of_ascii : ascii -> U) (white_space : U -> bool).

(** What [trim] strips at the start is white space, and what is left does
    not start with white space. *)
Lemma trim_start_spec (s : list U) :
  exists stripped,
    s = stripped ++ trim_start white_space s
    /\ forallb white_space stripped = true
    /\ (white_space <$> head (trim_start white_space s)) <> Some true.
Proof.
  induction s as [|c s (stripped & Heq & Hwhite & Hhead)]; simpl.
  - exists []. repeat split. discriminate.
  - destruct (white_space c) eqn:Hc.
    + exists (c :: stripped). simpl. rewrite Hc, Hwhite, <- Heq. now repeat split.
    + exists []. repeat split. simpl. rewrite Hc. discriminate.
Qed.

(** [trim] strips white space at both ends and nothing else: the name is
    white space, the trimmed name, white space, and the trimmed name neither
    starts nor ends with white space. *)
Lemma trim_spec (name : list U) :
  exists before after,
    name = before ++ trim white_space name ++ after
    /\ forallb white_space before = true
    /\ forallb white_space after = true
    /\ (white_space <$> head (trim white_space name)) <> Some true
    /\ (white_space <$> last (trim white_space name)) <> Some true.
Proof.
  unfold trim.
  destruct (trim_start_spec name) as (before & Hname & Hbefore & Hhead).
  destruct (trim_start_spec (rev (trim_start white_space name)))
    as (after & Hrev & Hafter & Hlast).
  set (inner := trim_start white_space (rev (trim_start white_space name))) in *.
  assert (Hmiddle : trim_start white_space name = rev inner ++ rev after).
  { rewrite <- (rev_involutive (trim_start white_space name)), Hrev.
    apply rev_app_distr. }
  exists before, (rev after). repeat split.
  - now rewrite <- Hmiddle.
  - exact Hbefore.
  - rewrite forallb_forall in *. intros x Hx. apply Hafter. now apply in_rev.
  - rewrite Hmiddle in Hhead. destruct (rev inner); [discriminate|exact Hhead].
  - replace (rev inner) with (reverse inner)
      by (unfold reverse; now rewrite rev_alt).
    now rewrite last_reverse.
Qed.

(** X2. The description is never empty and never longer than the 25 code
    units PayOS accepts. A trimmed course name of 1 to 25 code units is sent
    as it is, a longer one as its first 22 code units followed by "...", and
    an empty one is replaced by "Khoa hoc " and the last six digits of the
    order code. Trimming strips the white space at both ends of the name and
    nothing else. *)
Theorem payos_description_fits (name : list U) orderCode :
  let trimmed := trim white_space name in
  let description := description_units of_ascii white_space name orderCode in
  (1 <= List.length description <= 25)%nat
  /\ ((1 <= List.length trimmed <= 25)%nat -> description = trimmed)
  /\ ((25 < List.length trimmed)%nat ->
      description = take 22 trimmed ++ units_of of_ascii "...")
  /\ (trimmed = [] ->
      description
      = units_of of_ascii "Khoa hoc "
        ++ slice_last 6 (units_of of_ascii (string_of_Z orderCode)))
  /\ exists before after,
       name = before ++ trimmed ++ after
       /\ forallb white_space before = true
       /\ forallb white_space after = true
       /\ (white_space <$> head trimmed) <> Some true
       /\ (white_space <$> last trimmed) <> Some true.
Proof.
  simpl. unfold description_units.
  assert (Hfallback :
            (9 <= List.length
                    (units_of of_ascii "Khoa hoc "
                     ++ slice_last 6 (units_of of_ascii (string_of_Z orderCode)))
             <= 15)%nat).
  { rewrite List.length_app. unfold slice_last. rewrite length_drop.
    change (List.length (units_of of_ascii "Khoa hoc ")) with 9%nat. lia. }
  split; [|split; [|split; [|split; [|apply trim_spec]]]].
  - destruct (Nat.ltb_spec 25 (List.length (trim white_space name))) as [Hlong|Hshort].
    + assert (Hlen : List.length (take 22 (trim white_space name)
                                  ++ units_of of_ascii "...") = 25%nat).
      { rewrite List.length_app, length_take.
        change (List.length (units_of of_ascii "...")) with 3%nat. lia. }
      rewrite Hlen. simpl. lia.
    + destruct (Nat.ltb_spec 25 (List.length (trim white_space name))); [lia|].
      destruct (Nat.eqb_spec (List.length (trim white_space name)) 0);
        cbn [orb]; lia.
  - intros Hlen.
    destruct (Nat.ltb_spec 25 (List.length (trim white_space name))); [lia|].
    destruct (Nat.ltb_spec 25 (List.length (trim white_space name))); [lia|].
    destruct (Nat.eqb_spec (List.length (trim white_space name)) 0); [lia|].
    reflexivity.
  - intros Hlong.
    destruct (Nat.ltb_spec 25 (List.length (trim white_space name))); [|lia].
    assert (Hlen : List.length (take 22 (trim white_space name)
                                ++ units_of of_ascii "...") = 25%nat).
    { rewrite List.length_app, length_take.
      change (List.length (units_of of_ascii "...")) with 3%nat. lia. }
    now rewrite Hlen.
  - intros ->. reflexivity.
Qed.

End CodeUnitsFacts.

(** ** More on the signature *)

(** Sorting forgets the order of the names. *)
Lemma js_sort_permutation l1 l2 : Permutation l1 l2 -> js_sort l1 = js_sort l2.
Proof.
  intros Hperm. apply (Sorted_unique (fun a b => String.leb a b = true)).
  - apply js_sort_sorted.
  - apply js_sort_sorted.
  - rewrite <- !js_sort_perm. exact Hperm.
Qed.

Lemma assoc_none key fields :
  ~ In key (List.map fst fields) -> assoc key fields = None.
Proof.
  induction fields as [|[k v] fields IH]; simpl; intros Hnot; [reflexivity|].
  destruct (String.eqb_spec k key) as [->|Hne]; [|apply IH]; tauto.
Qed.

(** Reading a field of an object does not depend on the order of its
    fields, as long as no name occurs twice. *)
Lemma assoc_permutation key fields1 fields2 :
  Permutation fields1 fields2 ->
  List.NoDup (List.map fst fields1) ->
  assoc key fields1 = assoc key fields2.
Proof.
  induction 1 as [|[k v] l1 l2 Hperm IH|[k1 v1] [k2 v2] l|l1 l2 l3 H12 IH12 H23 IH23];
    intros Hnodup; simpl in *.
  - reflexivity.
  - inversion Hnodup; subst. destruct (String.eqb k key); [reflexivity|now apply IH].
  - inversion Hnodup as [|? ? Hnot _]; subst.
    destruct (String.eqb_spec k1 key) as [->|H1];
      destruct (String.eqb_spec k2 key) as [->|H2]; try reflexivity.
    exfalso. apply Hnot. now left.
  - rewrite IH12 by assumption. apply IH23.
    eapply Permutation_NoDup; [|exact Hnodup]. now apply Permutation_map.
Qed.

(** X3. The signed message of a payload, and with it the answer of
    [verifyWebhookSignature], does not depend on the order in which the
    payload lists its fields. *)
Theorem signature_ignores_field_order env fields1 fields2 signature w :
  Permutation fields1 fields2 ->
  List.NoDup (List.map fst fields1) ->
  signature_message (JObj fields1) = signature_message (JObj fields2)
  /\ verifyWebhookSignature env (JObj fields1) signature w
     = verifyWebhookSignature env (JObj fields2) signature w.
Proof.
  intros Hperm Hnodup.
  assert (Hmessage : signature_message (JObj fields1) = signature_message (JObj fields2)).
  { rewrite !signature_message_spec. unfold spec_canonical_string. simpl.
    rewrite (js_sort_permutation (List.map fst fields1) (List.map fst fields2))
      by now apply Permutation_map.
    f_equal. apply map_ext. intros name.
    now rewrite (assoc_permutation name fields1 fields2). }
  split; [exact Hmessage|].
  unfold verifyWebhookSignature. simpl. now rewrite Hmessage.
Qed.

(** X4. A signature made by [createPayOSSignature] for a payment request is
    accepted by [verifyWebhookSignature] for the payload with the same five
    fields, provided none of the three texts is the literal "null" or
    "undefined", which verification signs as empty. *)
Theorem created_signature_verifies env amount cancelUrl description orderCode returnUrl w :
  env_truthy (PAYOS_CHECKSUM_KEY env) = true ->
  normalize_value (JStr cancelUrl) = cancelUrl ->
  normalize_value (JStr description) = description ->
  normalize_value (JStr returnUrl) = returnUrl ->
  exists signature,
    createPayOSSignature env amount cancelUrl description orderCode returnUrl w
    = (Val signature, w)
    /\ signature_valid env
         (JObj [("orderCode", JNum orderCode); ("amount", JNum amount);
                ("description", JStr description); ("cancelUrl", JStr cancelUrl);
                ("returnUrl", JStr returnUrl)])
         (JStr signature) = true.
Proof.
  intros Hkey Hc Hd Hr. unfold createPayOSSignature. rewrite Hkey. simpl.
  eexists. split; [reflexivity|].
  unfold signature_valid, verifyWebhookSignature. rewrite Hkey. simpl.
  destruct (env_is (NODE_ENV env) "development"
            && env_is (SKIP_PAYOS_SIGNATURE_VERIFY env) "true"); [reflexivity|].
  unfold try_catch, bind, ret. simpl.
  unfold signature_message. simpl. unfold js_join. simpl.
  simpl in Hc, Hd, Hr. rewrite Hc, Hd, Hr.
  now rewrite String.eqb_refl.
Qed.

(** X5. A missing secret or payload makes verification answer false even
    when the development switch is on; with both present the switch makes it
    answer true for every signature, whatever its value; and with the switch
    off a signature that is not a string is answered false, the TypeError of
    its [toLowerCase] being caught and logged. *)
Theorem verification_switch_and_signature_type env data signature :
  (env_truthy (PAYOS_CHECKSUM_KEY env) = false \/ truthy data = false ->
   signature_valid env data signature = false)
  /\ (env_truthy (PAYOS_CHECKSUM_KEY env) = true -> truthy data = true ->
      skip_switch env = true ->
      signature_valid env data signature = true)
  /\ (env_truthy (PAYOS_CHECKSUM_KEY env) = true -> truthy data = true ->
      skip_switch env = false ->
      (forall s, signature <> JStr s) ->
      signature_valid env data signature = false
      /\ verify_console env data signature
         = [Console LevelError "Error verifying webhook signature:"]).
Proof.
  unfold signature_valid, verify_console, verifyWebhookSignature, skip_switch.
  split; [|split].
  - intros [-> | ->]; simpl; [reflexivity|]. now rewrite orb_true_r.
  - intros -> -> ->. reflexivity.
  - intros -> -> -> Hnot. simpl.
    destruct signature; try (split; reflexivity).
    now destruct (Hnot s).
Qed.

(** ** More paths of the PayOS webhook *)

(** X6. A PayOS webhook without a body fails with error 500 and has no
    side effect; one whose data or signature is missing is answered 400
    "Missing data or signature" before any verification, with one console
    line and nothing else. *)
Theorem payOSWebhook_malformed_request env req w :
  (nullish (webhook_body req) = true ->
   (exists message, fst (payOSWebhook env req w) = NextError (JStr message) 500)
   /\ no_side_effects w (snd (payOSWebhook env req w)))
  /\ (nullish (webhook_body req) = false ->
      truthy (request_data req) = false \/ truthy (request_signature req) = false ->
      payOSWebhook env req w
      = (Json 400 (error_body "Missing data or signature"),
         log_lines w [Console LevelError "Missing data or signature"])).
Proof.
  split.
  - intros Hb. unfold payOSWebhook, member. destruct req as [header body].
    simpl in *. destruct body; try discriminate; run_steps;
      destruct header as [h|]; simpl;
      try destruct (negb (String.eqb h "")); simpl;
      (split; [eauto|]); (split; [repeat split|]);
      eexists; (split; [reflexivity | reflexivity]).
  - intros Hb Hmissing. rewrite payOSWebhook_read by assumption.
    unfold payOSWebhook_process.
    assert (negb (truthy (request_data req))
            || negb (truthy (request_signature req)) = true) as ->.
    { destruct Hmissing as [-> | ->]; simpl; [reflexivity|apply orb_true_r]. }
    reflexivity.
Qed.

(** X7. A verified webhook whose payload does not report a success, for an
    Order that is not PAID, is answered 200 and leaves the Order pending: only
    console lines are written. *)
Theorem payOSWebhook_failure_keeps_pending env req w index o :
  nullish (webhook_body req) = false ->
  truthy (request_signature req) = true ->
  signature_valid env (request_data req) (request_signature req) = true ->
  designated_order env (request_data req) w = Some (index, o) ->
  is_paid o = false ->
  isPaymentSuccess (request_data req) = false ->
  fst (payOSWebhook env req w) = Json 200 (JObj [("success", JBool true)])
  /\ no_side_effects w (snd (payOSWebhook env req w))
  /\ orders (snd (payOSWebhook env req w)) !! index = Some o.
Proof.
  intros Hb Hs Hv Ho Hp Hx. rewrite payOSWebhook_read by assumption.
  rewrite (process_not_success _ _ _ Hs Hv _ _ _ Ho Hp Hx). simpl.
  split; [reflexivity|]. split; [|now apply designated_lookup in Ho].
  split; [repeat split|]. eexists. split; [reflexivity|]. console_only.
Qed.

(** X8. A verified success webhook for a pending Order whose user already
    owns the course marks the Order PAID and does nothing else: the user, the
    course and its counter, and the notifications are as before, and no mail
    is sent. *)
Theorem payOSWebhook_already_owned env req w index o user_id u c :
  nullish (webhook_body req) = false ->
  truthy (request_signature req) = true ->
  signature_valid env (request_data req) (request_signature req) = true ->
  designated_order env (request_data req) w = Some (index, o) ->
  is_paid o = false ->
  isPaymentSuccess (request_data req) = true ->
  courses w !! order_courseId o = Some c ->
  order_userId o = Some user_id ->
  users w !! user_id = Some u ->
  owns u (order_courseId o) = true ->
  let w' := snd (payOSWebhook env req w) in
  fst (payOSWebhook env req w) = Json 200 (message_body "Course already added")
  /\ orders w' = <[index := mark_paid o]> (orders w)
  /\ users w' = users w /\ courses w' = courses w
  /\ notifications w' = notifications w
  /\ count_effects is_mail_send (new_effects w w') = 0%nat
  /\ count_effects is_paid_transition (new_effects w w') = 1%nat.
Proof.
  intros Hb Hs Hv Ho Hp Hx Hc Hu Hu' Hown. simpl.
  rewrite payOSWebhook_read by assumption.
  rewrite (process_already_owned _ _ _ Hs Hv _ _ _ _ _ _ Ho Hp Hx Hc Hu Hu' Hown).
  simpl. repeat split.
  - erewrite new_effects_app by reflexivity.
    rewrite count_effects_cons, count_effects_app, !count_effects_cons.
    rewrite (count_effects_console _ (verify_console _ _ _))
      by (apply verify_console_only || reflexivity).
    reflexivity.
  - erewrite new_effects_app by reflexivity.
    rewrite count_effects_cons, count_effects_app, !count_effects_cons.
    rewrite (count_effects_console _ (verify_console _ _ _))
      by (apply verify_console_only || reflexivity).
    simpl. now rewrite mark_paid_is_paid.
Qed.

(** X9. A verified success webhook for a pending Order whose course or
    user is no longer in the store is answered 404, and the Order stays
    pending. *)
Theorem payOSWebhook_missing_course_or_user env req w index o :
  nullish (webhook_body req) = false ->
  truthy (request_signature req) = true ->
  signature_valid env (request_data req) (request_signature req) = true ->
  designated_order env (request_data req) w = Some (index, o) ->
  is_paid o = false ->
  isPaymentSuccess (request_data req) = true ->
  courses w !! order_courseId o = None
  \/ (order_userId o ≫= fun i => users w !! i) = None ->
  fst (payOSWebhook env req w) = Json 404 (error_body "Course or user not found")
  /\ no_side_effects w (snd (payOSWebhook env req w))
  /\ orders (snd (payOSWebhook env req w)) !! index = Some o.
Proof.
  intros Hb Hs Hv Ho Hp Hx Hmiss. rewrite payOSWebhook_read by assumption.
  rewrite (process_missing _ _ _ Hs Hv _ _ _ Ho Hp Hx Hmiss). simpl.
  split; [reflexivity|]. split; [|now apply designated_lookup in Ho].
  split; [repeat split|]. eexists. split; [reflexivity|]. console_only.
Qed.

(** ** What one request can do to the collections *)

Lemma found_lookup {A} (m : gmap string A) (key : option string) id a :
  (key ≫= fun i => (fun x => (i, x)) <$> m !! i) = Some (id, a) -> m !! id = Some a.
Proof.
  destruct key as [i|]; [simpl|discriminate]. intros H.
  apply fmap_Some in H as (a' & Hi & Heq). now injection Heq as -> ->.
Qed.

Lemma users_step_save us key user_id u :
  (key ≫= fun i => (fun x => (i, x)) <$> us !! i) = Some (user_id, u) ->
  users_step us (<[user_id := u]> us).
Proof. intros H%found_lookup. left. now apply insert_id. Qed.

Lemma users_step_push us key user_id u courseId :
  (key ≫= fun i => (fun x => (i, x)) <$> us !! i) = Some (user_id, u) ->
  owns u courseId = false ->
  users_step us (<[user_id := push_course u courseId]> us).
Proof. intros H%found_lookup Hown. right. eauto 10. Qed.

Lemma purchased_or_zero_next purchased :
  purchased_or_zero purchased <= purchased_or_zero (Some (purchased_or_zero purchased + 1)).
Proof.
  unfold purchased_or_zero at 2.
  destruct (Z.eqb_spec (purchased_or_zero purchased + 1) 0); lia.
Qed.

Lemma purchased_or_zero_createOrder purchased :
  purchased_or_zero purchased <= purchased_or_zero (createOrder_purchased purchased).
Proof.
  destruct purchased as [n|]; simpl; [|lia].
  destruct (Z.eqb_spec n 0) as [->|Hn]; simpl; [lia|].
  destruct (Z.eqb_spec (n + 1) 0); lia.
Qed.

Lemma courses_step_webhook cs key courseId c :
  (key ≫= fun i => (fun x => (i, x)) <$> cs !! i) = Some (courseId, c) ->
  courses_step cs
    (<[courseId := set_purchased c (Some (purchased_or_zero (course_purchased c) + 1))]> cs).
Proof.
  intros H%found_lookup. right. eexists _, _, _.
  split; [eassumption|]. split; [apply purchased_or_zero_next|reflexivity].
Qed.

Lemma courses_step_createOrder cs key courseId c :
  (key ≫= fun i => (fun x => (i, x)) <$> cs !! i) = Some (courseId, c) ->
  courses_step cs
    (<[courseId := set_purchased c (createOrder_purchased (course_purchased c))]> cs).
Proof.
  intros H%found_lookup. right. eexists _, _, _.
  split; [eassumption|]. split; [apply purchased_or_zero_createOrder|reflexivity].
Qed.

Lemma orders_step_mark os p index o :
  find_index p os 0 = Some (index, o) -> is_paid o = false ->
  orders_step os (<[index := mark_paid o]> os).
Proof.
  intros H%find_index_lookup Hp. rewrite Nat.sub_0_r in H. destruct H as [H _].
  right. right. eauto.
Qed.

Ltac users_leaf :=
  first [ left; reflexivity
        | eapply users_step_push; [eassumption | first [eassumption | by apply negb_true_iff]]
        | eapply (users_step_push _ (Some _)); [eassumption | first [eassumption | by apply negb_true_iff]]
        | eapply users_step_save; eassumption
        | eapply (users_step_save _ (Some _)); eassumption ].

Ltac courses_leaf :=
  first [ left; reflexivity
        | eapply courses_step_webhook; eassumption
        | eapply (courses_step_webhook _ (Some _)); eassumption
        | eapply courses_step_createOrder; eassumption
        | eapply (courses_step_createOrder _ (Some _)); eassumption ].

Ltac orders_leaf :=
  first [ left; reflexivity
        | right; left; eexists; reflexivity
        | eapply orders_step_mark; eassumption ].

Ltac notifications_leaf :=
  first [ left; reflexivity | right; eexists; reflexivity ].

Ltac step_leaf :=
  split; [users_leaf | split; [courses_leaf | split; [orders_leaf | notifications_leaf]]].

Lemma payOSWebhook_process_step env signature data w :
  request_step w (snd (run_logging "Webhook error:" 500 (payOSWebhook_process env signature data) w)).
Proof.
  unfold payOSWebhook_process. run_steps.
  destruct (negb (truthy data) || negb (truthy signature)); simpl; [step_leaf|].
  rewrite verify_run. simpl.
  explore step_leaf.
Qed.

Lemma payOSWebhook_step env req w : request_step w (snd (payOSWebhook env req w)).
Proof.
  destruct (nullish (webhook_body req)) eqn:Hb.
  - unfold payOSWebhook, member. destruct req as [header body]. simpl in *.
    destruct body; try discriminate; run_steps;
      destruct header as [h|]; explore step_leaf.
  - rewrite payOSWebhook_read by assumption. apply payOSWebhook_process_step.
Qed.

Lemma createPayOSPayment_step env req w :
  request_step w (snd (createPayOSPayment env req w)).
Proof.
  unfold createPayOSPayment, createPayOSSignature, member. run_steps.
  explore step_leaf.
Qed.

Lemma createCheckoutSession_step env req w :
  request_step w (snd (createCheckoutSession env req w)).
Proof. unfold createCheckoutSession. run_steps. explore step_leaf. Qed.

Lemma stripeWebhook_step env req w : request_step w (snd (stripeWebhook env req w)).
Proof. unfold stripeWebhook. run_steps. explore step_leaf. Qed.

Lemma createOrder_step env req w : request_step w (snd (createOrder env req w)).
Proof. unfold createOrder, newOrder, js_in. run_steps. explore step_leaf. Qed.

Lemma handle_step env op w : request_step w (snd (handle env op w)).
Proof.
  destruct op; simpl.
  - apply createPayOSPayment_step.
  - apply payOSWebhook_step.
  - apply createOrder_step.
  - apply createCheckoutSession_step.
  - apply stripeWebhook_step.
Qed.

(** ** Invariants of the collections *)

Lemma user_eta u : mkUser (user_email u) (user_courses u ++ []) = u.
Proof. destruct u. simpl. now rewrite app_nil_r. Qed.

Lemma users_step_kept us us' user_id u :
  users_step us us' ->
  us !! user_id = Some u ->
  exists more,
    us' !! user_id = Some (mkUser (user_email u) (user_courses u ++ more))
    /\ (List.length more <= 1)%nat.
Proof.
  intros [-> | (id & u0 & courseId & Hid & Hown & ->)] Hu.
  - exists []. rewrite user_eta. split; [assumption|simpl; lia].
  - destruct (decide (id = user_id)) as [->|Hne].
    + rewrite lookup_insert_eq. rewrite Hu in Hid. injection Hid as <-.
      exists [courseId]. split; [reflexivity|simpl; lia].
    + rewrite lookup_insert_ne by assumption.
      exists []. rewrite user_eta. split; [assumption|simpl; lia].
Qed.

Lemma users_step_none us us' user_id :
  users_step us us' -> us !! user_id = None -> us' !! user_id = None.
Proof.
  intros [-> | (id & u0 & courseId & Hid & Hown & ->)] Hu; [assumption|].
  rewrite lookup_insert_ne; [assumption|]. intros ->. congruence.
Qed.

(** X10. Through any sequence of requests a user stays a user with the same
    email, and the courses it owns stay owned, in place: at most one course
    per request is appended, never one removed. No request creates a user. *)
Theorem entitlements_never_revoked env ops w user_id :
  (forall u, users w !! user_id = Some u ->
     exists more,
       users (handle_all env ops w) !! user_id
       = Some (mkUser (user_email u) (user_courses u ++ more))
       /\ (List.length more <= List.length ops)%nat)
  /\ (users w !! user_id = None ->
      users (handle_all env ops w) !! user_id = None).
Proof.
  revert w. induction ops as [|op ops IH]; intros w; simpl.
  - split; [|trivial]. intros u Hu. exists []. rewrite user_eta. now split.
  - pose proof (handle_step env op w) as (Husers & _).
    destruct (IH (snd (handle env op w))) as [IHsome IHnone]. split.
    + intros u Hu.
      destruct (users_step_kept _ _ _ _ Husers Hu) as (more1 & Hu1 & Hlen1).
      destruct (IHsome _ Hu1) as (more2 & Hu2 & Hlen2). simpl in Hu2.
      exists (more1 ++ more2). rewrite app_assoc. split; [exact Hu2|].
      rewrite List.length_app. lia.
    + intros Hu. apply IHnone. now apply (users_step_none _ _ _ Husers).
Qed.

Lemma owns_false_not_in u courseId :
  owns u courseId = false -> ~ In courseId (user_courses u).
Proof.
  unfold owns. intros Hown Hin.
  assert (existsb (fun c => String.eqb c courseId) (user_courses u) = true) as Hex.
  { apply existsb_exists. exists courseId. split; [assumption|apply String.eqb_refl]. }
  congruence.
Qed.

(** X11. If no user owns a course twice, no sequence of requests makes a
    user own a course twice: every push is guarded by the ownership test. *)
Theorem courses_owned_once env ops w :
  owned_once w -> owned_once (handle_all env ops w).
Proof.
  revert w. induction ops as [|op ops IH]; intros w Hw; simpl; [assumption|].
  apply IH. pose proof (handle_step env op w) as (Husers & _).
  intros user_id u Hu.
  destruct Husers as [Heq | (id & u0 & courseId & Hid & Hown & Heq)];
    rewrite Heq in Hu.
  - now apply (Hw user_id).
  - destruct (decide (id = user_id)) as [->|Hne].
    + rewrite lookup_insert_eq in Hu. injection Hu as <-.
      unfold push_course. simpl.
      apply NoDup_ListNoDup, NoDup_app. repeat split.
      * apply NoDup_ListNoDup. now apply (Hw user_id).
      * intros x Hx [->|[]]%list_elem_of_In. apply list_elem_of_In in Hx.
        now apply (owns_false_not_in u0 x).
      * apply NoDup_singleton.
    + rewrite lookup_insert_ne in Hu by assumption. now apply (Hw user_id).
Qed.

Lemma course_eta c : set_purchased c (course_purchased c) = c.
Proof. now destruct c. Qed.

Lemma set_purchased_twice c p q : set_purchased (set_purchased c p) q = set_purchased c q.
Proof. reflexivity. Qed.

Lemma courses_step_kept cs cs' courseId c :
  courses_step cs cs' ->
  cs !! courseId = Some c ->
  exists purchased,
    cs' !! courseId = Some (set_purchased c purchased)
    /\ purchased_or_zero (course_purchased c) <= purchased_or_zero purchased.
Proof.
  intros [-> | (id & c0 & p & Hid & Hle & ->)] Hc.
  - exists (course_purchased c). rewrite course_eta. split; [assumption|lia].
  - destruct (decide (id = courseId)) as [->|Hne].
    + rewrite lookup_insert_eq. rewrite Hc in Hid. injection Hid as <-. eauto.
    + rewrite lookup_insert_ne by assumption.
      exists (course_purchased c). rewrite course_eta. split; [assumption|lia].
Qed.

Lemma courses_step_none cs cs' courseId :
  courses_step cs cs' -> cs !! courseId = None -> cs' !! courseId = None.
Proof.
  intros [-> | (id & c0 & p & Hid & Hle & ->)] Hc; [assumption|].
  rewrite lookup_insert_ne; [assumption|]. intros ->. congruence.
Qed.

(** X12. Through any sequence of requests a course stays a course with the
    same name, description and price, and its purchase counter, read as zero
    when absent, never decreases. No request creates or removes a course. *)
Theorem purchase_counter_never_decreases env ops w courseId :
  (forall c, courses w !! courseId = Some c ->
     exists purchased,
       courses (handle_all env ops w) !! courseId = Some (set_purchased c purchased)
       /\ purchased_or_zero (course_purchased c) <= purchased_or_zero purchased)
  /\ (courses w !! courseId = None ->
      courses (handle_all env ops w) !! courseId = None).
Proof.
  revert w. induction ops as [|op ops IH]; intros w; simpl.
  - split; [|trivial]. intros c Hc. exists (course_purchased c).
    rewrite course_eta. split; [assumption|lia].
  - pose proof (handle_step env op w) as (_ & Hcourses & _).
    destruct (IH (snd (handle env op w))) as [IHsome IHnone]. split.
    + intros c Hc.
      destruct (courses_step_kept _ _ _ _ Hcourses Hc) as (p1 & Hc1 & Hle1).
      destruct (IHsome _ Hc1) as (p2 & Hc2 & Hle2).
      rewrite set_purchased_twice in Hc2. simpl in Hle2.
      exists p2. split; [exact Hc2|lia].
    + intros Hc. apply IHnone. now apply (courses_step_none _ _ _ Hcourses).
Qed.

Lemma orders_step_kept os os' i o :
  orders_step os os' ->
  os !! i = Some o ->
  os' !! i = Some o \/ (is_paid o = false /\ os' !! i = Some (mark_paid o)).
Proof.
  intros [-> | [(o' & ->) | (index & o0 & Hindex & Hp & ->)]] Hi.
  - now left.
  - left. now apply lookup_app_l_Some.
  - destruct (decide (index = i)) as [->|Hne].
    + right. rewrite Hi in Hindex. injection Hindex as <-. split; [assumption|].
      apply list_lookup_insert_eq. now apply lookup_lt_Some in Hi.
    + left. now rewrite list_lookup_insert_ne.
Qed.

Lemma orders_step_length os os' :
  orders_step os os' ->
  (List.length os <= List.length os' <= S (List.length os))%nat.
Proof.
  intros [-> | [(o' & ->) | (index & o0 & Hindex & Hp & ->)]].
  - lia.
  - rewrite List.length_app. simpl. lia.
  - rewrite length_insert. lia.
Qed.

Lemma handle_all_keeps_paid env ops : forall w i o,
  orders w !! i = Some o -> is_paid o = true ->
  orders (handle_all env ops w) !! i = Some o.
Proof.
  induction ops as [|op ops IH]; intros w i o Hi Hp; simpl; [assumption|].
  apply IH; [|assumption].
  pose proof (handle_step env op w) as (_ & _ & Horders & _).
  destruct (orders_step_kept _ _ _ _ Horders Hi) as [H | [Hnot _]];
    [assumption|congruence].
Qed.

(** X13. The Orders are an append-only ledger: through any sequence of
    requests an Order keeps its place, its course and its user, and its
    payment object is either as it was or as it was with status "PAID"; no
    Order is removed, and each request adds at most one. *)
Theorem orders_are_append_only env ops w :
  (forall i o, orders w !! i = Some o ->
     orders (handle_all env ops w) !! i = Some o
     \/ orders (handle_all env ops w) !! i = Some (mark_paid o))
  /\ (List.length (orders w) <= List.length (orders (handle_all env ops w))
      <= List.length (orders w) + List.length ops)%nat.
Proof.
  revert w. induction ops as [|op ops IH]; intros w; simpl.
  - split; [now left|lia].
  - pose proof (handle_step env op w) as (_ & _ & Horders & _).
    destruct (IH (snd (handle env op w))) as [IHkept IHlen].
    pose proof (orders_step_length _ _ Horders). split; [|lia].
    intros i o Hi.
    destruct (orders_step_kept _ _ _ _ Horders Hi) as [H1 | [Hp H1]].
    + apply IHkept in H1. exact H1.
    + right. apply handle_all_keeps_paid; [exact H1|apply mark_paid_is_paid].
Qed.

(** ** The Stripe webhook *)

Arguments stripe_event : simpl never.

(** X14. A Stripe webhook that is refused does nothing: without the webhook
    secret it fails with error 500; when the Stripe library rejects the
    signature it is answered 400 with the library's message and one console
    line; an event of another type is acknowledged as received; and a
    completed session without course or user in its metadata is answered
    400 "Missing metadata". In all four cases no collection changes. *)
Theorem stripeWebhook_refusals env req w :
  (env_truthy (STRIPE_WEBHOOK_SECRET env) = false ->
   stripeWebhook env req w
   = (NextError (JStr "Stripe webhook secret is not configured") 500, w))
  /\ (env_truthy (STRIPE_WEBHOOK_SECRET env) = true ->
      (forall message,
         stripe_event env req = Thrown message ->
         stripeWebhook env req w
         = (Send 400 ("Webhook Error: " +:+ message),
            log_lines w [Console LevelError "Webhook signature verification failed:"]))
      /\ (forall event,
            stripe_event env req = Ok event ->
            event_type event <> "checkout.session.completed" ->
            stripeWebhook env req w = (received, w))
      /\ (forall event,
            stripe_event env req = Ok event ->
            event_type event = "checkout.session.completed" ->
            str_truthy (session_metadata_courseId event) = false
            \/ str_truthy (session_metadata_userId event) = false ->
            stripeWebhook env req w
            = (Json 400 (error_body "Missing metadata"),
               log_lines w
                 [Console LevelError "Missing courseId or userId in session metadata"]))).
Proof.
  unfold stripe_event. split; [|intros Hsecret; split; [|split]].
  - intros Hsecret. unfold stripeWebhook. now rewrite Hsecret.
  - intros message Hthrown. unfold stripeWebhook. rewrite Hsecret. run_steps.
    now rewrite Hthrown.
  - intros event Hevent Htype. unfold stripeWebhook. rewrite Hsecret. run_steps.
    rewrite Hevent. simpl. apply String.eqb_neq in Htype. now rewrite Htype.
  - intros event Hevent Htype Hmissing. unfold stripeWebhook. rewrite Hsecret.
    run_steps. rewrite Hevent. simpl. rewrite Htype. simpl.
    assert (negb (str_truthy (session_metadata_courseId event))
            || negb (str_truthy (session_metadata_userId event)) = true) as ->.
    { destruct Hmissing as [-> | ->]; simpl; [reflexivity|apply orb_true_r]. }
    reflexivity.
Qed.

(** The grant of the Stripe webhook. *)
Lemma stripeWebhook_grants env req w event courseId user_id u c :
  env_truthy (STRIPE_WEBHOOK_SECRET env) = true ->
  stripe_event env req = Ok event ->
  event_type event = "checkout.session.completed" ->
  session_metadata_courseId event = Some courseId -> courseId <> "" ->
  session_metadata_userId event = Some user_id -> user_id <> "" ->
  order_of_intent env (session_id event) w = None ->
  courses w !! courseId = Some c ->
  users w !! user_id = Some u ->
  owns u courseId = false ->
  stripeWebhook env req w
  = (received, session_granted_world env event courseId user_id u c w).
Proof.
  unfold stripe_event, order_of_intent.
  intros Hsecret Hevent Htype Hcid Hcne Huid Hune Hnone Hc Hu Hown.
  apply String.eqb_neq in Hcne, Hune.
  unfold stripeWebhook. rewrite Hsecret. run_steps.
  rewrite Hevent. simpl. rewrite Htype. simpl.
  rewrite Hcid, Huid. simpl. rewrite Hcne, Hune. simpl.
  rewrite Hnone. simpl. rewrite Hc, Hu. simpl. rewrite Hown. simpl.
  unfold session_granted_world, session_grant_effects, received.
  destruct (sendMail env _ _ _ _); simpl; f_equal; f_equal;
    repeat rewrite <- app_assoc; reflexivity.
Qed.

(** X15. A completed Stripe session with no Order yet, for an existing
    course and an existing user who does not own it, is acknowledged and
    granted whatever the mail transport does: the Order is created first,
    with the session id and payment status, then the course is pushed to the
    user, the notification is created and the counter is incremented by one,
    from zero when it is absent. *)
Theorem stripeWebhook_grant env req w event courseId user_id u c :
  env_truthy (STRIPE_WEBHOOK_SECRET env) = true ->
  stripe_event env req = Ok event ->
  event_type event = "checkout.session.completed" ->
  session_metadata_courseId event = Some courseId -> courseId <> "" ->
  session_metadata_userId event = Some user_id -> user_id <> "" ->
  order_of_intent env (session_id event) w = None ->
  courses w !! courseId = Some c ->
  users w !! user_id = Some u ->
  owns u courseId = false ->
  let w' := snd (stripeWebhook env req w) in
  fst (stripeWebhook env req w) = received
  /\ orders w' = orders w ++ [session_order event courseId user_id]
  /\ users w' !! user_id = Some (push_course u courseId)
  /\ notifications w' = notifications w ++ [purchase_notification user_id c]
  /\ course_purchased <$> courses w' !! courseId
     = Some (Some (purchased_or_zero (course_purchased c) + 1))
  /\ happens_before is_order_create is_user_save (new_effects w w') = true.
Proof.
  intros Hsecret Hevent Htype Hcid Hcne Huid Hune Hnone Hc Hu Hown. simpl.
  rewrite (stripeWebhook_grants env req w event courseId user_id u c) by assumption.
  simpl. repeat split.
  - apply lookup_insert_eq.
  - now rewrite lookup_insert_eq.
  - erewrite new_effects_app by reflexivity. reflexivity.
Qed.

Lemma owns_push_course u courseId : owns (push_course u courseId) courseId = true.
Proof.
  unfold owns, push_course. simpl. rewrite existsb_app. simpl.
  now rewrite String.eqb_refl, orb_true_r.
Qed.

(** Use the outcome of a test that was analysed before. *)
Ltac rewrite_known :=
  match goal with
  | H : ?t = _ |- context [?t] =>
      lazymatch t with
      | context [match _ with _ => _ end] => fail
      | _ => progress rewrite H
      end
  end.

(** Run a tactic once the handler has been evaluated to its end. *)
Ltac when_done tac :=
  lazymatch goal with
  | |- context [snd _] => fail
  | |- context [fst _] => fail
  | _ => tac
  end.

Ltac logs_leaf :=
  first
    [ exists []; split; [now rewrite log_lines_nil | reflexivity]
    | eexists; split;
      [ unfold log_lines; simpl; rewrite <- ?app_assoc; simpl; reflexivity
      | reflexivity ] ].

(** X16. Delivering a Stripe webhook a second time, whatever the first
    delivery did, only writes to the console: the Order it created is found,
    or else the user is found to own the course. *)
Theorem stripeWebhook_redelivery env req w :
  exists lines,
    snd (stripeWebhook env req (snd (stripeWebhook env req w)))
    = log_lines (snd (stripeWebhook env req w)) lines
    /\ forallb is_console lines = true.
Proof.
  unfold stripeWebhook. run_steps.
  destruct (negb (env_truthy (STRIPE_WEBHOOK_SECRET env))); simpl; [logs_leaf|].
  destruct (stripe_webhooks_constructEvent env (stripe_body req)
              (header_stripe_signature req)
              (default "" (STRIPE_WEBHOOK_SECRET env))) as [event|message];
    simpl; [|logs_leaf].
  destruct (session_metadata_courseId event) as [courseId|],
           (session_metadata_userId event) as [user_id|];
    unfold fmap, option_fmap, option_map;
    repeat (simpl;
            first [ when_done logs_leaf
                  | rewrite lookup_insert_eq
                  | rewrite owns_push_course
                  | rewrite_known
                  | case_inner ]).
Qed.

(** ** Requests for a payment *)

(** Case analysis on one of the elementary tests of the handlers. *)
Ltac case_atom :=
  match goal with
  | |- context [owns ?u ?c] => destruct (owns u c) eqn:?
  | |- context [String.eqb ?a ?b] => destruct (String.eqb a b) eqn:?
  | |- context [num_truthy ?a] => destruct (num_truthy a) eqn:?
  | |- context [env_truthy ?a] => destruct (env_truthy a) eqn:?
  end.



Ltac find_effects :=
  first [ erewrite new_effects_app by (symmetry; apply app_nil_r)
        | erewrite new_effects_app by (simpl; rewrite <- ?app_assoc; reflexivity) ].

(** X18. [createPayOSPayment] never changes a user, a course or a
    notification. It calls PayOS exactly when the request passes its tests
    and the credentials and the checksum key are configured, and then once.
    It creates at most one Order, for the requested course and the requesting
    user; and when PayOS rejects the request, cannot be reached, or resolves
    without the code "00", it creates none and answers with an error. *)
Theorem createPayOSPayment_effects env req w :
  let w' := snd (createPayOSPayment env req w) in
  (users w' = users w /\ courses w' = courses w
   /\ notifications w' = notifications w)
  /\ count_effects is_provider_call (new_effects w w')
     = (if intent_guards req w && env_truthy (PAYOS_CLIENT_ID env)
           && env_truthy (PAYOS_API_KEY env) && env_truthy (PAYOS_CHECKSUM_KEY env)
        then 1 else 0)%nat
  /\ (orders w' = orders w
      \/ exists o,
           orders w' = orders w ++ [o]
           /\ Some (order_courseId o) = intent_courseId req
           /\ order_userId o = intent_user req)
  /\ (provider_refuses env ->
      orders w' = orders w /\ is_error (fst (createPayOSPayment env req w)) = true).
Proof.
  simpl.
  unfold createPayOSPayment, createPayOSSignature, member, intent_guards,
    provider_refuses.
  run_steps.
  destruct (intent_courseId req) as [courseId|], (intent_user req) as [user_id|];
    unfold fmap, option_fmap, option_map;
    repeat (simpl;
            first [ when_done
                      ltac:(split; [repeat split|];
                            split; [find_effects; reflexivity|];
                            split;
                            [ first [ left; reflexivity
                                    | right; eexists; repeat split; reflexivity ]
                            | intros Hrefuse;
                              first [ split; reflexivity
                                    | exfalso;
                                      match goal with
                                      | Hp : axios_post env ?u ?d = AxiosResolved ?rd
                                        |- _ =>
                                          pose proof (Hrefuse u d rd Hp); congruence
                                      end ] ])
                  | rewrite_known
                  | case_atom
                  | case_inner ]).
Qed.

(** ** Checking a payment *)

(** X19. [checkPaymentStatus] reads and never writes: not even a console
    line. Without an order code it fails with 400, for a code no Order
    carries with 404, and otherwise it answers with the order code, the
    status and the amount as the first matching Order stores them. *)
Theorem checkPaymentStatus_reports_stored_payment env req w :
  snd (checkPaymentStatus env req w) = w
  /\ (truthy (query_orderCode req) = false ->
      fst (checkPaymentStatus env req w)
      = NextError (JStr "Order code is required") 400)
  /\ (truthy (query_orderCode req) = true ->
      order_of_code env (query_orderCode req) w = None ->
      fst (checkPaymentStatus env req w) = NextError (JStr "Order not found") 404)
  /\ (forall index o,
        truthy (query_orderCode req) = true ->
        order_of_code env (query_orderCode req) w = Some (index, o) ->
        nullish (order_payment_info o) = false ->
        fst (checkPaymentStatus env req w)
        = Json 200
            (status_body (js_get (order_payment_info o) "orderCode")
               (js_get (order_payment_info o) "status")
               (js_get (order_payment_info o) "amount"))).
Proof.
  unfold checkPaymentStatus, order_of_code, member. run_steps.
  split; [|split; [|split]].
  - explore ltac:(reflexivity).
  - now intros ->.
  - intros Hq Ho. rewrite Hq. simpl. now rewrite Ho.
  - intros index o Hq Ho Hinfo. rewrite Hq. simpl. rewrite Ho. simpl.
    now destruct (order_payment_info o).
Qed.

(** The status request of a PAID Order. *)
Lemma checkPaymentStatus_paid env req w index o :
  truthy (query_orderCode req) = true ->
  order_of_code env (query_orderCode req) w = Some (index, o) ->
  is_paid o = true ->
  fst (checkPaymentStatus env req w)
  = Json 200
      (status_body (js_get (order_payment_info o) "orderCode") (JStr "PAID")
         (js_get (order_payment_info o) "amount")).
Proof.
  intros Hq Ho Hp. unfold is_paid in Hp. apply andb_true_iff in Hp as [Ht Hs].
  apply is_str_true in Hs.
  unfold checkPaymentStatus, order_of_code, member in *. run_steps.
  rewrite Hq. simpl. rewrite Ho. simpl. rewrite Hs.
  now destruct (order_payment_info o).
Qed.

(** X20. Once a verified success webhook has been handled for a pending
    Order whose course and user exist, a status request whose order code
    designates that Order reports the status "PAID", whether the course was
    granted or was already owned. *)
Theorem paid_status_after_webhook env req sreq w index o c user_id u :
  nullish (webhook_body req) = false ->
  truthy (request_signature req) = true ->
  signature_valid env (request_data req) (request_signature req) = true ->
  designated_order env (request_data req) w = Some (index, o) ->
  is_paid o = false ->
  isPaymentSuccess (request_data req) = true ->
  courses w !! order_courseId o = Some c ->
  order_userId o = Some user_id ->
  users w !! user_id = Some u ->
  truthy (query_orderCode sreq) = true ->
  order_of_code env (query_orderCode sreq) w = Some (index, o) ->
  fst (checkPaymentStatus env sreq (snd (payOSWebhook env req w)))
  = Json 200
      (status_body (js_get (order_payment_info o) "orderCode") (JStr "PAID")
         (js_get (order_payment_info (mark_paid o)) "amount")).
Proof.
  intros Hb Hs Hv Ho Hp Hx Hc Hu Hu' Ht Hq.
  rewrite <- (mark_paid_orderCode o).
  apply (checkPaymentStatus_paid env sreq _ index);
    [assumption| |apply mark_paid_is_paid].
  assert (Hmarked : forall us cs ns t,
             order_of_code env (query_orderCode sreq)
               (mkWorld us cs (<[index := mark_paid o]> (orders w)) ns t)
             = Some (index, mark_paid o)).
  { intros us cs ns t. unfold order_of_code in *. simpl.
    pose proof (find_index_lookup _ _ _ _ _ Hq) as [_ Hmatch].
    replace index with (index - 0)%nat at 1 by lia.
    apply find_index_update with (x := o); [exact Hq|].
    now rewrite mark_paid_orderCode. }
  rewrite payOSWebhook_read by assumption.
  destruct (owns u (order_courseId o)) eqn:Hown.
  - rewrite (process_already_owned _ _ _ Hs Hv _ _ _ _ _ _ Ho Hp Hx Hc Hu Hu' Hown).
    apply Hmarked.
  - rewrite (process_grant _ _ _ Hs Hv _ _ _ _ _ _ Ho Hp Hx Hc Hu Hu' Hown).
    apply Hmarked.
Qed.

Lemma find_index_insert_ne {A} (p : A -> bool) (l : list A) k j i x x' y :
  find_index p l k = Some (i, y) -> (j + k)%nat <> i ->
  l !! j = Some x -> p x' = p x ->
  find_index p (<[j := x']> l) k = Some (i, y).
Proof.
  revert k j. induction l as [|a l IH]; intros k j; simpl; [discriminate|].
  destruct j as [|j]; simpl.
  - intros H Hne [= ->] Hpx. rewrite Hpx.
    destruct (p x); [|exact H]. injection H as <- <-. lia.
  - intros H Hne Hj Hpx. destruct (p a); [exact H|].
    apply (IH (S k) j); [exact H|lia|exact Hj|exact Hpx].
Qed.

Lemma find_index_app_some {A} (p : A -> bool) (l1 l2 : list A) k r :
  find_index p l1 k = Some r -> find_index p (l1 ++ l2) k = Some r.
Proof.
  revert k. induction l1 as [|a l1 IH]; intros k; simpl; [discriminate|].
  destruct (p a); [trivial|apply IH].
Qed.

Lemma find_index_app_none {A} (p : A -> bool) (l1 l2 : list A) k :
  find_index p l1 k = None ->
  find_index p (l1 ++ l2) k = find_index p l2 (k + List.length l1)%nat.
Proof.
  revert k. induction l1 as [|a l1 IH]; intros k; simpl.
  - intros _. now rewrite Nat.add_0_r.
  - destruct (p a); [discriminate|]. intros H. rewrite IH by assumption.
    f_equal. lia.
Qed.

(** A request leaves the Order an order code designates in its place. *)
Lemma orders_step_find env q os os' i o :
  orders_step os os' ->
  find_index (fun o => query_eq env (js_get (order_payment_info o) "orderCode") q)
    os 0 = Some (i, o) ->
  find_index (fun o => query_eq env (js_get (order_payment_info o) "orderCode") q)
    os' 0 = Some (i, o)
  \/ (is_paid o = false
      /\ find_index
           (fun o => query_eq env (js_get (order_payment_info o) "orderCode") q)
           os' 0 = Some (i, mark_paid o)).
Proof.
  intros [-> | [(o' & ->) | (index & o0 & Hindex & Hp & ->)]] Hfind.
  - now left.
  - left. now apply find_index_app_some.
  - pose proof (find_index_lookup _ _ _ _ _ Hfind) as [Hi Hq].
    rewrite Nat.sub_0_r in Hi.
    destruct (decide (index = i)) as [->|Hne].
    + right. rewrite Hi in Hindex. injection Hindex as <-.
      split; [assumption|].
      replace i with (i - 0)%nat at 1 by lia.
      apply (find_index_update _ _ _ _ o (mark_paid o) Hfind).
      now rewrite mark_paid_orderCode.
    + left.
      apply (find_index_insert_ne _ _ _ _ _ o0); try assumption; [lia|].
      now rewrite mark_paid_orderCode.
Qed.

Lemma handle_all_finds_paid env q ops : forall w i o,
  order_of_code env q w = Some (i, o) -> is_paid o = true ->
  order_of_code env q (handle_all env ops w) = Some (i, o).
Proof.
  unfold order_of_code.
  induction ops as [|op ops IH]; intros w i o Hfind Hp; simpl; [assumption|].
  apply IH; [|assumption].
  pose proof (handle_step env op w) as (_ & _ & Horders & _).
  destruct (orders_step_find env q _ _ _ _ Horders Hfind) as [H | [Hnot _]];
    [assumption|congruence].
Qed.

(** X21. A payment reported as PAID is reported as PAID for ever: whatever
    requests are handled afterwards, the status request for the same order
    code finds the same Order and answers with the same order code, status
    and amount. *)
Theorem paid_status_is_final env ops req w index o :
  truthy (query_orderCode req) = true ->
  order_of_code env (query_orderCode req) w = Some (index, o) ->
  is_paid o = true ->
  fst (checkPaymentStatus env req (handle_all env ops w))
  = Json 200
      (status_body (js_get (order_payment_info o) "orderCode") (JStr "PAID")
         (js_get (order_payment_info o) "amount"))
  /\ fst (checkPaymentStatus env req (handle_all env ops w))
     = fst (checkPaymentStatus env req w).
Proof.
  intros Hq Ho Hp.
  assert (Hafter : fst (checkPaymentStatus env req (handle_all env ops w))
                   = Json 200
                       (status_body (js_get (order_payment_info o) "orderCode")
                          (JStr "PAID") (js_get (order_payment_info o) "amount"))).
  { apply (checkPaymentStatus_paid env req _ index); try assumption.
    now apply handle_all_finds_paid. }
  split; [exact Hafter|].
  rewrite Hafter. symmetry.
  now apply (checkPaymentStatus_paid env req _ index).
Qed.

(** ** The pending Order of a payment request *)

Lemma member_found base name w :
  nullish base = false -> member base name w = (Val (js_get base name), w).
Proof. now destruct base. Qed.

(** X22. When PayOS accepts a payment request, [createPayOSPayment] saves
    one pending Order for the course and the user, with the payment as the
    provider describes it, unless an Order with the provider's order code
    exists already; it answers with the provider's checkout URL and order
    code; and a webhook that carries this order code finds an Order. *)
Theorem createPayOSPayment_saves_pending_order
  env req w courseId user_id c u response_data :
  intent_courseId req = Some courseId -> courseId <> "" ->
  num_truthy (intent_amount req) = true ->
  intent_user req = Some user_id ->
  env_truthy (PAYOS_CLIENT_ID env) = true ->
  env_truthy (PAYOS_API_KEY env) = true ->
  env_truthy (PAYOS_CHECKSUM_KEY env) = true ->
  courses w !! courseId = Some c ->
  users w !! user_id = Some u ->
  owns u courseId = false ->
  provider_answers env (AxiosResolved response_data) ->
  truthy response_data = true ->
  is_str (js_get response_data "code") "00" = true ->
  nullish (js_get response_data "data") = false ->
  let paymentInfo := js_get response_data "data" in
  let orderCode := js_get paymentInfo "orderCode" in
  let w' := snd (createPayOSPayment env req w) in
  orders w' = match order_of_code env orderCode w with
              | Some _ => orders w
              | None => orders w ++ [payos_order courseId user_id paymentInfo]
              end
  /\ js_get (payment_link (fst (createPayOSPayment env req w))) "checkoutUrl"
     = js_get paymentInfo "checkoutUrl"
  /\ js_get (payment_link (fst (createPayOSPayment env req w))) "orderCode"
     = orderCode
  /\ (query_eq env orderCode orderCode = true ->
      exists index o,
        order_of_code env orderCode w' = Some (index, o)
        /\ (order_of_code env orderCode w = None ->
            o = payos_order courseId user_id paymentInfo)).
Proof.
  intros Hcid Hcne Hamount Huid Hclient Hkey Hchecksum Hc Hu Hown Hanswer
    Htruthy Hcode Hdata.
  apply String.eqb_neq in Hcne.
  simpl. unfold createPayOSPayment, createPayOSSignature, order_of_code.
  run_steps.
  rewrite Hcid, Hamount, Hclient, Hkey, Huid. simpl. rewrite Hcne. simpl.
  rewrite Hc. simpl. rewrite Hu. simpl. rewrite Hown, Hchecksum. simpl.
  rewrite Hanswer, Htruthy, Hcode. simpl.
  rewrite (member_found _ _ _ Hdata). simpl.
  match goal with
  | |- context [find_index ?p (orders w) 0%nat] =>
      destruct (find_index p (orders w) 0%nat) as [[index o]|] eqn:Hfind
  end; simpl;
    (split; [reflexivity|]); (split; [reflexivity|]); (split; [reflexivity|]);
    intros Hrefl.
  - exists index, o. split; [assumption|discriminate].
  - eexists _, _. split; [|intros _; reflexivity].
    rewrite find_index_app_none by assumption. simpl. now rewrite Hrefl.
Qed.

(** ** Repeating a confirmation *)

(** A confirmation whose PaymentIntent has an Order answers with it. *)
Lemma createOrder_existing env req w fields id index o :
  order_req_payment_info req = JObj fields ->
  assoc "id" fields = Some id ->
  order_of_intent env id w = Some (index, o) ->
  createOrder env req w = (order_response 200 o, log_lines w confirmation_lines).
Proof.
  intros Hpi Hid Hfound. unfold order_of_intent in Hfound.
  unfold createOrder, newOrder, js_in. run_steps.
  rewrite Hpi. simpl. rewrite Hid. simpl. rewrite Hfound. simpl.
  unfold log_lines, confirmation_lines. now rewrite <- app_assoc.
Qed.

(** The only Order a confirmation creates carries the payment object of the
    request. *)
Lemma createOrder_orders env req w :
  orders (snd (createOrder env req w)) = orders w
  \/ exists courseId user,
       orders (snd (createOrder env req w))
       = orders w ++ [mkOrder courseId user (order_req_payment_info req)].
Proof.
  unfold createOrder, newOrder, js_in. run_steps.
  explore ltac:(first [left; reflexivity | right; eexists _, _; reflexivity]).
Qed.

(** X23. A confirmation is not granted twice for one PaymentIntent: once an
    Order with the id of the request exists, because it existed before or
    because the request created it, repeating the request answers 200 with
    that Order, calls no provider and writes nothing but its two console
    lines. *)
Theorem createOrder_replay env req w fields id :
  order_req_payment_info req = JObj fields ->
  assoc "id" fields = Some id ->
  query_eq env id id = true ->
  let w1 := snd (createOrder env req w) in
  order_of_intent env id w <> None \/ orders w1 <> orders w ->
  exists index o,
    order_of_intent env id w1 = Some (index, o)
    /\ createOrder env req w1 = (order_response 200 o, log_lines w1 confirmation_lines).
Proof.
  intros Hpi Hid Hrefl. simpl. intros Hsome.
  assert (Hfound : exists index o,
             order_of_intent env id (snd (createOrder env req w)) = Some (index, o)).
  { destruct (order_of_intent env id w) as [[index o]|] eqn:Hw.
    - exists index, o.
      now rewrite (createOrder_existing env req w fields id index o).
    - destruct Hsome as [Hsome|Hsome]; [contradiction|].
      destruct (createOrder_orders env req w) as [Heq | (courseId & user & Heq)];
        [contradiction|].
      unfold order_of_intent in *. rewrite Heq.
      rewrite find_index_app_none by assumption. simpl.
      rewrite Hpi. simpl. rewrite Hid. simpl. rewrite Hrefl. eauto. }
  destruct Hfound as (index & o & Hfound). exists index, o.
  split; [assumption|]. now apply (createOrder_existing env req _ fields id index).
Qed.

(** ** The confirmation that grants *)

(** X24. A confirmation for a PaymentIntent that has no Order and that
    Stripe reports as succeeded, by an existing user for an existing course
    not yet owned, with the mail rendered and sent: the mail is sent first,
    then the course is pushed to the user, the notification is created, the
    course is saved, and the Order is created last, with the payment object
    as the client sent it. *)
Theorem createOrder_confirms env req w fields id courseId user_id u c html :
  order_req_payment_info req = JObj fields ->
  assoc "id" fields = Some id ->
  order_of_intent env id w = None ->
  stripe_paymentIntents_retrieve env id = Ok (JStr "succeeded") ->
  order_req_user req = Some user_id ->
  users w !! user_id = Some u ->
  order_req_courseId req = Some courseId ->
  courses w !! courseId = Some c ->
  owns u courseId = false ->
  ejs_renderFile env "../mails/order-confirmation.ejs"
    (JObj [("order", confirmation_mail env courseId c)]) = Ok html ->
  sendMail env (user_email u) "Order Confirmation" "order-confirmation.ejs"
    (confirmation_mail env courseId c) = Ok tt ->
  createOrder env req w
  = (order_response (newOrder_status env)
       (confirmation_order courseId user_id (JObj fields)),
     confirmed_world env id courseId user_id u c (JObj fields) w).
Proof.
  intros Hpi Hid Hnone Hstatus Huid Hu Hcid Hc Hown Hejs Hmail.
  unfold order_of_intent in Hnone. unfold confirmation_mail in *.
  unfold createOrder, newOrder, js_in. run_steps.
  rewrite Hpi. simpl. rewrite Hid. simpl. rewrite Hnone. simpl.
  rewrite Hstatus. simpl. rewrite Huid, Hcid. simpl. rewrite Hu. simpl.
  rewrite Hown. simpl. rewrite Hc. simpl. rewrite Hejs. simpl.
  rewrite Hmail. simpl. rewrite Hown. simpl.
  unfold confirmed_world, confirmation_effects, confirmation_order,
    confirmation_notification, confirmation_mail.
  destruct (truthy id); simpl; rewrite ?Hnone; simpl;
    f_equal; f_equal; repeat rewrite <- app_assoc; reflexivity.
Qed.

(** ** The socket server *)

Ltac socket_leaf :=
  split; [reflexivity|];
  split; [repeat split|];
  unfold lasting_effects;
  repeat find_effects;
  rewrite ?List.filter_app; simpl; reflexivity.

(** X25. Whether the socket server is initialised or not changes neither
    the answer of the PayOS webhook nor what it writes to the collections,
    nor its effects other than console lines and socket emissions: a failing
    emission is caught and logged. *)
Theorem payOSWebhook_socket_isolated env initialized req w :
  let without := payOSWebhook env req w in
  let with_socket := payOSWebhook (with_io env initialized) req w in
  fst with_socket = fst without
  /\ same_store (snd without) (snd with_socket)
  /\ lasting_effects (new_effects w (snd with_socket))
     = lasting_effects (new_effects w (snd without)).
Proof.
  simpl. destruct (nullish (webhook_body req)) eqn:Hb.
  - unfold payOSWebhook, member. destruct req as [header body]. simpl in *.
    destruct body; try discriminate; run_steps;
      destruct header as [h|]; explore socket_leaf.
  - rewrite !payOSWebhook_read by assumption.
    unfold payOSWebhook_process. run_steps.
    destruct (negb (truthy (request_data req))
              || negb (truthy (request_signature req))); simpl; [socket_leaf|].
    rewrite !verify_run.
    change (signature_valid (with_io env initialized))
      with (signature_valid env).
    change (verify_console (with_io env initialized))
      with (verify_console env).
    simpl. explore socket_leaf.
Qed.
(** * The properties on the concrete deployment *)

Lemma generateOrderCode_unique_witness :
  let env := demo_env true "succeeded" in
  generateOrderCode env / 1000 = Date_now env / 1000
  /\ generateOrderCode env mod 1000 = 123
  /\ 0 < generateOrderCode env.
Proof.
  destruct (generateOrderCode_unique (demo_env true "succeeded")
              (demo_env true "succeeded")) as (Hdiv & Hmod & Hpos & _);
    [simpl; lia | simpl; lia |].
  split; [exact Hdiv|]. split; [exact Hmod|]. apply Hpos. simpl. lia.
Defined.

Lemma payos_description_fits_witness :
  utf16_description
    [160; 76; 7853; 112; 32; 116; 114; 236; 110; 104; 32; 80; 121; 116; 104;
     111; 110; 32; 99; 417; 32; 98; 7843; 110; 12288]%N 1700000000123
  = [76; 7853; 112; 32; 116; 114; 236; 110; 104; 32; 80; 121; 116; 104;
     111; 110; 32; 99; 417; 32; 98; 7843; 110]%N
  /\ utf16_description [32; 9; 160]%N 1700000000123
     = [75; 104; 111; 97; 32; 104; 111; 99; 32; 48; 48; 48; 49; 50; 51]%N
  /\ payos_description "  Rocq for payments  " 1700000000123 = "Rocq for payments".
Proof.
  destruct (payos_description_fits N_of_ascii js_white_space
              [160; 76; 7853; 112; 32; 116; 114; 236; 110; 104; 32; 80; 121; 116;
               104; 111; 110; 32; 99; 417; 32; 98; 7843; 110; 12288]%N
              1700000000123) as (_ & Hshort & _).
  destruct (payos_description_fits N_of_ascii js_white_space [32; 9; 160]%N
              1700000000123) as (_ & _ & _ & Hempty & _).
  destruct (payos_description_fits (fun c : ascii => c) is_space
              (list_ascii_of_string "  Rocq for payments  ") 1700000000123)
    as (_ & Hname & _).
  split; [apply Hshort; simpl; lia|]. split; [apply Hempty; reflexivity|].
  unfold payos_description. rewrite Hname; [reflexivity | simpl; lia].
Defined.

Lemma signature_ignores_field_order_witness :
  signature_message (JObj [("orderCode", JNum 7); ("amount", JNum 49)])
  = signature_message (JObj [("amount", JNum 49); ("orderCode", JNum 7)]).
Proof.
  apply (signature_ignores_field_order (demo_env true "succeeded")
           [("orderCode", JNum 7); ("amount", JNum 49)]
           [("amount", JNum 49); ("orderCode", JNum 7)] JNull empty_world).
  - apply perm_swap.
  - simpl. repeat constructor; simpl; intuition discriminate.
Defined.

Lemma created_signature_verifies_witness :
  exists signature,
    createPayOSSignature (demo_env true "succeeded") 49
      "http://localhost:3001/payment/cancel" "Rocq" 1700000000123
      "http://localhost:3001/payment/success" empty_world
    = (Val signature, empty_world)
    /\ signature_valid (demo_env true "succeeded")
         (JObj [("orderCode", JNum 1700000000123); ("amount", JNum 49);
                ("description", JStr "Rocq");
                ("cancelUrl", JStr "http://localhost:3001/payment/cancel");
                ("returnUrl", JStr "http://localhost:3001/payment/success")])
         (JStr signature) = true.
Proof.
  apply (created_signature_verifies (demo_env true "succeeded")); reflexivity.
Defined.

Lemma verification_switch_and_signature_type_witness :
  signature_valid (demo_env true "succeeded") demo_data (JNum 5) = false
  /\ verify_console (demo_env true "succeeded") demo_data (JNum 5)
     = [Console LevelError "Error verifying webhook signature:"].
Proof.
  destruct (verification_switch_and_signature_type (demo_env true "succeeded")
              demo_data (JNum 5)) as (_ & _ & H).
  apply H; try reflexivity. discriminate.
Defined.

Lemma payOSWebhook_malformed_request_witness :
  payOSWebhook (demo_env true "succeeded") demo_webhook_unsigned demo_world
  = (Json 400 (error_body "Missing data or signature"),
     log_lines demo_world [Console LevelError "Missing data or signature"]).
Proof.
  destruct (payOSWebhook_malformed_request (demo_env true "succeeded")
              demo_webhook_unsigned demo_world) as (_ & H).
  apply H; [reflexivity | right; reflexivity].
Defined.

Lemma payOSWebhook_failure_keeps_pending_witness :
  let env := demo_env true "succeeded" in
  fst (payOSWebhook env demo_webhook_cancelled demo_world)
  = Json 200 (JObj [("success", JBool true)])
  /\ no_side_effects demo_world (snd (payOSWebhook env demo_webhook_cancelled demo_world))
  /\ orders (snd (payOSWebhook env demo_webhook_cancelled demo_world)) !! 0%nat
     = Some demo_order.
Proof.
  apply (payOSWebhook_failure_keeps_pending (demo_env true "succeeded")
           demo_webhook_cancelled demo_world 0%nat demo_order); reflexivity.
Defined.

Lemma payOSWebhook_already_owned_witness :
  let env := demo_env true "succeeded" in
  let w' := snd (payOSWebhook env demo_webhook demo_world_pending_owned) in
  fst (payOSWebhook env demo_webhook demo_world_pending_owned)
  = Json 200 (message_body "Course already added")
  /\ orders w' = <[0%nat := mark_paid demo_order]> (orders demo_world_pending_owned)
  /\ users w' = users demo_world_pending_owned
  /\ courses w' = courses demo_world_pending_owned
  /\ notifications w' = notifications demo_world_pending_owned
  /\ count_effects is_mail_send (new_effects demo_world_pending_owned w') = 0%nat
  /\ count_effects is_paid_transition (new_effects demo_world_pending_owned w') = 1%nat.
Proof.
  apply (payOSWebhook_already_owned (demo_env true "succeeded") demo_webhook
           demo_world_pending_owned 0%nat demo_order "u1"
           (mkUser "buyer@example.org" ["c1"])
           (mkCourse "Rocq" None 49 (Some 1))); reflexivity.
Defined.

Lemma payOSWebhook_missing_course_or_user_witness :
  let env := demo_env true "succeeded" in
  fst (payOSWebhook env demo_webhook demo_world_orphan)
  = Json 404 (error_body "Course or user not found")
  /\ no_side_effects demo_world_orphan (snd (payOSWebhook env demo_webhook demo_world_orphan))
  /\ orders (snd (payOSWebhook env demo_webhook demo_world_orphan)) !! 0%nat
     = Some demo_order.
Proof.
  apply (payOSWebhook_missing_course_or_user (demo_env true "succeeded")
           demo_webhook demo_world_orphan 0%nat demo_order);
    try reflexivity.
  left. reflexivity.
Defined.

Lemma entitlements_never_revoked_witness :
  let env := demo_env true "succeeded" in
  let ops := [OpPayOSWebhook demo_webhook; OpPayOSWebhook demo_webhook_cancelled] in
  exists more,
    users (handle_all env ops demo_world_owned) !! "u1"
    = Some (mkUser "buyer@example.org" (["c1"] ++ more))
    /\ (List.length more <= 2)%nat.
Proof.
  destruct (entitlements_never_revoked (demo_env true "succeeded")
              [OpPayOSWebhook demo_webhook; OpPayOSWebhook demo_webhook_cancelled]
              demo_world_owned "u1") as [H _].
  apply (H (mkUser "buyer@example.org" ["c1"])). reflexivity.
Defined.

Lemma courses_owned_once_witness :
  let env := demo_env true "succeeded" in
  owned_once
    (handle_all env [OpPayOSWebhook demo_webhook; OpCreateOrder demo_confirmation]
       demo_world).
Proof.
  apply (courses_owned_once (demo_env true "succeeded")
           [OpPayOSWebhook demo_webhook; OpCreateOrder demo_confirmation]
           demo_world).
  intros user_id u Hu. unfold demo_world in Hu. simpl in Hu.
  apply lookup_singleton_Some in Hu as [_ <-]. constructor.
Defined.

Lemma purchase_counter_never_decreases_witness :
  let env := demo_env true "succeeded" in
  let ops := [OpPayOSWebhook demo_webhook; OpCreateOrder demo_confirmation] in
  exists purchased,
    courses (handle_all env ops demo_world) !! "c1"
    = Some (set_purchased demo_course purchased)
    /\ 0 <= purchased_or_zero purchased.
Proof.
  destruct (purchase_counter_never_decreases (demo_env true "succeeded")
              [OpPayOSWebhook demo_webhook; OpCreateOrder demo_confirmation]
              demo_world "c1") as [H _].
  apply (H demo_course). reflexivity.
Defined.

Lemma orders_are_append_only_witness :
  let env := demo_env true "succeeded" in
  let ops := [OpPayOSWebhook demo_webhook; OpCreateOrder demo_confirmation] in
  orders (handle_all env ops demo_world) !! 0%nat = Some demo_order
  \/ orders (handle_all env ops demo_world) !! 0%nat = Some (mark_paid demo_order).
Proof.
  destruct (orders_are_append_only (demo_env true "succeeded")
              [OpPayOSWebhook demo_webhook; OpCreateOrder demo_confirmation]
              demo_world) as [H _].
  apply (H 0%nat demo_order). reflexivity.
Defined.

Lemma stripeWebhook_refusals_witness :
  stripeWebhook demo_env_bad_signature demo_stripe_request demo_world
  = (Send 400 "Webhook Error: No signatures found matching the expected signature",
     log_lines demo_world
       [Console LevelError "Webhook signature verification failed:"]).
Proof.
  destruct (stripeWebhook_refusals demo_env_bad_signature demo_stripe_request
              demo_world) as (_ & H).
  destruct (H eq_refl) as (Hthrown & _).
  apply (Hthrown "No signatures found matching the expected signature").
  reflexivity.
Defined.

Lemma stripeWebhook_grant_witness :
  let env := demo_env true "succeeded" in
  let w' := snd (stripeWebhook env demo_stripe_request demo_world) in
  fst (stripeWebhook env demo_stripe_request demo_world) = received
  /\ orders w' = orders demo_world ++ [session_order demo_event "c1" "u1"]
  /\ users w' !! "u1" = Some (push_course demo_user "c1")
  /\ notifications w'
     = notifications demo_world ++ [purchase_notification "u1" demo_course]
  /\ course_purchased <$> courses w' !! "c1" = Some (Some 1)
  /\ happens_before is_order_create is_user_save (new_effects demo_world w') = true.
Proof.
  apply (stripeWebhook_grant (demo_env true "succeeded") demo_stripe_request
           demo_world demo_event "c1" "u1" demo_user demo_course);
    first [reflexivity | discriminate].
Defined.

Lemma createPayOSPayment_effects_witness :
  let env := demo_env true "succeeded" in
  orders (snd (createPayOSPayment env demo_intent demo_world)) = orders demo_world
  /\ is_error (fst (createPayOSPayment env demo_intent demo_world)) = true.
Proof.
  destruct (createPayOSPayment_effects (demo_env true "succeeded") demo_intent
              demo_world) as (_ & _ & _ & H).
  apply H. intros url paymentData response_data Hresolved. discriminate.
Defined.

Lemma checkPaymentStatus_reports_stored_payment_witness :
  fst (checkPaymentStatus demo_env_casting demo_status_request demo_world)
  = Json 200 (status_body (JNum 1700000000123) (JStr "PENDING") JUndefined).
Proof.
  destruct (checkPaymentStatus_reports_stored_payment demo_env_casting
              demo_status_request demo_world) as (_ & _ & _ & H).
  apply (H 0%nat demo_order); reflexivity.
Defined.

Lemma paid_status_after_webhook_witness :
  let env := demo_env_casting in
  fst (checkPaymentStatus env demo_status_request
         (snd (payOSWebhook env demo_webhook demo_world)))
  = Json 200 (status_body (JNum 1700000000123) (JStr "PAID") JUndefined).
Proof.
  apply (paid_status_after_webhook demo_env_casting demo_webhook
           demo_status_request demo_world 0%nat demo_order demo_course "u1"
           demo_user); reflexivity.
Defined.

Lemma paid_status_is_final_witness :
  let env := demo_env_casting in
  let ops := [OpPayOSWebhook demo_webhook_cancelled; OpCreateOrder demo_confirmation] in
  fst (checkPaymentStatus env demo_status_request (handle_all env ops demo_world_paid))
  = Json 200 (status_body (JNum 1700000000123) (JStr "PAID") JUndefined).
Proof.
  apply (paid_status_is_final demo_env_casting
           [OpPayOSWebhook demo_webhook_cancelled; OpCreateOrder demo_confirmation]
           demo_status_request demo_world_paid 0%nat (mark_paid demo_order));
    reflexivity.
Defined.

Lemma createPayOSPayment_saves_pending_order_witness :
  let w' := snd (createPayOSPayment demo_env_payos demo_intent demo_world) in
  orders w' = orders demo_world ++ [payos_order "c1" "u1" demo_payment]
  /\ js_get (payment_link (fst (createPayOSPayment demo_env_payos demo_intent demo_world)))
       "checkoutUrl" = JStr "https://pay.payos.vn/web/777"
  /\ js_get (payment_link (fst (createPayOSPayment demo_env_payos demo_intent demo_world)))
       "orderCode" = JNum 1700000000777
  /\ exists index o,
       order_of_code demo_env_payos (JNum 1700000000777) w' = Some (index, o)
       /\ o = payos_order "c1" "u1" demo_payment.
Proof.
  destruct (createPayOSPayment_saves_pending_order demo_env_payos demo_intent
              demo_world "c1" "u1" demo_course demo_user
              (JObj [("code", JStr "00"); ("desc", JStr "success");
                     ("data", demo_payment)]))
    as (Horders & Hurl & Hcode & Hfind);
    try reflexivity; [discriminate | intros url paymentData; reflexivity |].
  split; [exact Horders|]. split; [exact Hurl|]. split; [exact Hcode|].
  destruct (Hfind eq_refl) as (index & o & Ho & Hnew).
  exists index, o. split; [exact Ho | apply Hnew; reflexivity].
Defined.

Lemma createOrder_replay_witness :
  let env := demo_env true "succeeded" in
  let w1 := snd (createOrder env demo_confirmation demo_world) in
  exists index o,
    order_of_intent env (JStr "pi_1") w1 = Some (index, o)
    /\ createOrder env demo_confirmation w1
       = (order_response 200 o, log_lines w1 confirmation_lines).
Proof.
  apply (createOrder_replay (demo_env true "succeeded") demo_confirmation
           demo_world [("id", JStr "pi_1")] (JStr "pi_1")); try reflexivity.
  right. vm_compute. discriminate.
Defined.

Lemma createOrder_confirms_witness :
  let env := demo_env true "succeeded" in
  createOrder env demo_confirmation demo_world
  = (order_response 201 (confirmation_order "c1" "u1" (JObj [("id", JStr "pi_1")])),
     confirmed_world env (JStr "pi_1") "c1" "u1" demo_user demo_course
       (JObj [("id", JStr "pi_1")]) demo_world).
Proof.
  apply (createOrder_confirms (demo_env true "succeeded") demo_confirmation
           demo_world [("id", JStr "pi_1")] (JStr "pi_1") "c1" "u1" demo_user
           demo_course "<html>"); reflexivity.
Defined.
